(** * Impact and alert decision engine of the Nigeria IBF system

    A shallow embedding of the vulnerability estimator, the adaptive impact
    curve, the multi-hazard combiner ([advanced_multi_hazard.py]) and of the
    quality controller and alert manager ([production_forecast_engine.py]),
    followed by the properties the specification states about them.

    Conventions of the embedding.
    - Python floats and NumPy float64 values are idealised as real numbers
      ([R]); [exp] is the real exponential.  Rounding, infinities and NaN
      are outside the model.
    - One-dimensional NumPy arrays are lists; binary element-wise operations
      follow NumPy's broadcasting rule for one-dimensional operands and raise
      [ValueError] on incompatible shapes.
    - A Python call that can raise returns a [result].
    - [Config] is imported by the sources from a module that is not part of
      them; it appears here as records holding exactly the attributes the
      code reads, with no value fixed. *)

From Stdlib Require Import Reals Lra Lia List String Bool Arith ZArith.
From Stdlib Require Import DecimalString.
Import ListNotations.

Open Scope string_scope.
Open Scope R_scope.

(** ** Python values *)

Definition Rltb (x y : R) : bool := if Rlt_dec x y then true else false.
Definition Rgtb (x y : R) : bool := Rltb y x.
Definition Rleb (x y : R) : bool := if Rle_dec x y then true else false.
Definition Rgeb (x y : R) : bool := Rleb y x.
Definition Reqb (x y : R) : bool := if Req_dec_T x y then true else false.

Inductive exn : Type :=
| KeyError (key : string)
| ValueError (msg : string)
| AttributeError (msg : string)
| NotFittedError.

Inductive result (A : Type) : Type :=
| Ok (a : A)
| Raise (e : exn).

Arguments Ok {A} a.
Arguments Raise {A} e.

Definition bind {A B : Type} (m : result A) (k : A -> result B) : result B :=
  match m with
  | Ok a => k a
  | Raise e => Raise e
  end.

Notation "x <- m ;; k" := (bind m (fun x => k))
  (at level 61, m at next level, right associativity).

(** [str(n)] for a non-negative integer. *)
Definition str_of_nat (n : nat) : string :=
  NilZero.string_of_uint (Nat.to_uint n).

(** *** Dictionaries with string keys, in insertion order *)

Definition dict (V : Type) : Type := list (string * V).

Fixpoint dict_find {V : Type} (d : dict V) (k : string) : option V :=
  match d with
  | [] => None
  | (k', v) :: d' => if String.eqb k' k then Some v else dict_find d' k
  end.

(** [d.get(k, default)] *)
Definition dict_get {V : Type} (d : dict V) (k : string) (default : V) : V :=
  match dict_find d k with
  | Some v => v
  | None => default
  end.

(** [d[k]] *)
Definition dict_getitem {V : Type} (d : dict V) (k : string) : result V :=
  match dict_find d k with
  | Some v => Ok v
  | None => Raise (KeyError k)
  end.

(** [x in [a, b, ...]] for strings *)
Definition str_in (x : string) (l : list string) : bool :=
  existsb (String.eqb x) l.

(** ** One-dimensional NumPy arrays *)

Definition ndarray : Type := list R.

Definition shape_error : exn :=
  ValueError "operands could not be broadcast together".
Definition empty_reduction : exn :=
  ValueError "zero-size array to reduction operation maximum which has no identity".

Fixpoint zip_with {A B C : Type} (f : A -> B -> C) (a : list A) (b : list B)
  : list C :=
  match a, b with
  | x :: a', y :: b' => f x y :: zip_with f a' b'
  | _, _ => []
  end.

(** Element-wise binary operation on two one-dimensional arrays. *)
Definition broadcast2 {A B C : Type} (f : A -> B -> C) (a : list A) (b : list B)
  : result (list C) :=
  if Nat.eqb (List.length a) (List.length b) then Ok (zip_with f a b)
  else match a, b with
       | [x], _ => Ok (map (f x) b)
       | _, [y] => Ok (map (fun x => f x y) a)
       | _, _ => Raise shape_error
       end.

(** In-place element-wise operation [a op= b]: the result keeps the shape of
    [a]. *)
Definition inplace2 {A B : Type} (f : A -> B -> A) (a : list A) (b : list B)
  : result (list A) :=
  if Nat.eqb (List.length a) (List.length b) then Ok (zip_with f a b)
  else match b with
       | [y] => Ok (map (fun x => f x y) a)
       | _ => Raise shape_error
       end.

(** [np.max(a)] and [a.max()] *)
Definition np_max (a : ndarray) : result R :=
  match a with
  | [] => Raise empty_reduction
  | x :: a' => Ok (fold_left Rmax a' x)
  end.

Definition np_sum (a : ndarray) : R := fold_left Rplus a 0.

(** [np.mean(a)]; the empty mean is NaN in NumPy and is left to the
    convention [x / 0 = 0] of [R] here. *)
Definition np_mean (a : ndarray) : R := np_sum a / INR (List.length a).

Definition np_any (m : list bool) : bool := existsb (fun b => b) m.
Definition np_all (m : list bool) : bool := forallb (fun b => b) m.

Definition clip (lo hi x : R) : R := Rmin (Rmax x lo) hi.

(** [np.clip(a, lo, hi)] *)
Definition np_clip (a : ndarray) (lo hi : R) : ndarray := map (clip lo hi) a.

(** Boolean-mask update [arr[mask] = f(xs[mask], arr[mask])], position by
    position; [mask], [xs] and [arr] have the same shape. *)
Fixpoint masked_update (f : R -> R -> R) (mask : list bool) (xs arr : ndarray)
  : ndarray :=
  match mask, xs, arr with
  | b :: mask', x :: xs', y :: arr' =>
      (if b then f x y else y) :: masked_update f mask' xs' arr'
  | _, _, _ => arr
  end.

(** [np.arange(0, stop, step)] with [n] elements. *)
Definition arange (n : nat) (step : R) : ndarray :=
  map (fun i => INR i * step) (seq 0 n).

(** ** Configuration *)

Record VulnerabilityConfig : Type := {
  flood_params : dict (dict R);
  conflict_params : dict (dict R);
  flood_conflict_interaction : R
}.

(** [displacement_alert_levels], read by the code at these four keys. *)
Record AlertLevels : Type := {
  emergency : R;
  warning : R;
  advisory : R;
  watch : R
}.

Record ForecastConfig : Type := {
  flood_depth_threshold_m : R;
  conflict_fatality_threshold : R;
  displacement_alert_levels : AlertLevels
}.

Record AlertConfig : Type := {
  alert_recipients : dict (list string)
}.

Record Config : Type := {
  vulnerability : VulnerabilityConfig;
  forecast : ForecastConfig;
  alert : AlertConfig
}.

(** ** Context records *)

Record HazardContext : Type := {
  state : string;
  region : string;
  month : Z;
  population_density : R;
  poverty_rate : R;
  previous_events_30d : Z;
  previous_events_90d : Z;
  distance_to_water_km : R;
  elevation_m : R;
  urban_rural : string;
  infrastructure_quality : R;
  early_warning_coverage : R
}.

Record CompoundingFactors : Type := {
  has_recent_flood : bool;
  has_recent_conflict : bool;
  has_displacement_camp : bool;
  is_rainy_season : bool;
  is_harvest_season : bool;
  market_access_disrupted : bool;
  healthcare_access_limited : bool
}.

(** ** MLEnhancedVulnerability *)

Module MLEnhancedVulnerability.

(** A fitted scikit-learn regressor, through [predict] on one row. *)
Definition Regressor : Type := list R -> R.

(** The statistics of a fitted [StandardScaler], through [transform]. *)
Definition FittedScaler : Type := list R -> list R.

(** What [joblib.load] finds at a model path. *)
Inductive model_file : Type :=
| Missing
| Stored (m : Regressor)
| Unreadable (e : exn).

Record t : Type := {
  config : Config;
  flood_model : option Regressor;
  conflict_model : option Regressor;
  scaler : option FittedScaler;     (* [None]: [StandardScaler()] not fitted *)
  trained : bool
}.

Definition set_flood_model (self : t) (m : option Regressor) : t :=
  {| config := config self; flood_model := m;
     conflict_model := conflict_model self; scaler := scaler self;
     trained := trained self |}.

Definition set_conflict_model (self : t) (m : option Regressor) : t :=
  {| config := config self; flood_model := flood_model self;
     conflict_model := m; scaler := scaler self;
     trained := trained self |}.

Definition set_trained (self : t) (b : bool) : t :=
  {| config := config self; flood_model := flood_model self;
     conflict_model := conflict_model self; scaler := scaler self;
     trained := b |}.

(** [_load_models]: the body of the [try], with the [except] branch taken
    at the first [joblib.load] that raises. *)
Definition _load_models (self : t) (flood_file conflict_file : model_file) : t :=
  let step1 :=
    match flood_file with
    | Missing => Ok self
    | Stored m => Ok (set_flood_model self (Some m))
    | Unreadable e => Raise e
    end in
  match step1 with
  | Raise _ => set_trained self false
  | Ok self1 =>
      let step2 :=
        match conflict_file with
        | Missing => Ok self1
        | Stored m => Ok (set_conflict_model self1 (Some m))
        | Unreadable e => Raise e
        end in
      match step2 with
      | Raise _ => set_trained self1 false
      | Ok self2 => set_trained self2 true
      end
  end.

(** [__init__] *)
Definition init (cfg : Config) (flood_file conflict_file : model_file) : t :=
  _load_models
    {| config := cfg; flood_model := None; conflict_model := None;
       scaler := None; trained := false |}
    flood_file conflict_file.

(** [_get_regional_default]; the default argument of [dict.get] is
    evaluated before the call. *)
Definition _get_regional_default (self : t) (region hazard_type : string)
  : result R :=
  params <-
    (if String.eqb hazard_type "flood" then
       default <- dict_getitem (flood_params (vulnerability (config self)))
                               "North_Central" ;;
       Ok (dict_get (flood_params (vulnerability (config self))) region default)
     else
       default <- dict_getitem (conflict_params (vulnerability (config self)))
                               "North_Central" ;;
       Ok (dict_get (conflict_params (vulnerability (config self))) region default)) ;;
  dict_getitem params "p50".

Definition urban_rural_map : dict R :=
  [("urban", 0); ("peri-urban", 1); ("rural", 2)].

Definition features (context : HazardContext) : list R :=
  [ population_density context;
    poverty_rate context;
    IZR (previous_events_30d context);
    distance_to_water_km context;
    elevation_m context;
    infrastructure_quality context;
    early_warning_coverage context;
    IZR (month context);
    dict_get urban_rural_map (urban_rural context) 1 ].

(** [predict_vulnerability] *)
Definition predict_vulnerability (self : t) (context : HazardContext)
  (hazard_type : string) : result R :=
  if negb (trained self) then
    _get_regional_default self (region context) hazard_type
  else
    features_scaled <-
      match scaler self with
      | Some transform => Ok (transform (features context))
      | None => Raise NotFittedError
      end ;;
    let model := if String.eqb hazard_type "flood"
                 then flood_model self else conflict_model self in
    vulnerability <-
      match model with
      | Some predict => Ok (predict features_scaled)
      | None => Raise (AttributeError "'NoneType' object has no attribute 'predict'")
      end ;;
    if String.eqb hazard_type "flood"
    then Ok (clip 0.05 2.0 vulnerability)
    else Ok (clip 5 100 vulnerability).

End MLEnhancedVulnerability.


(** ** AdaptiveImpactFunction *)

Module AdaptiveImpactFunction.

Record t : Type := {
  config : Config;
  hazard_type : string
}.

(** The CLIMADA [ImpactFunc] attributes the code assigns. *)
Record ImpactFunc : Type := {
  haz_type : string;
  id : Z;
  intensity_unit : string;
  intensity : ndarray;
  mdd : ndarray;
  paa : ndarray;
  name : string
}.

(** [_adjust_for_context] *)
Definition _adjust_for_context (self : t) (intensity_half : R)
  (context : HazardContext) : R :=
  let adjustment := 1.0 in
  let adjustment :=
    if Rltb (infrastructure_quality context) 0.3 then adjustment * 0.85
    else if Rgtb (infrastructure_quality context) 0.7 then adjustment * 1.15
    else adjustment in
  let adjustment :=
    if Rgtb (early_warning_coverage context) 0.7 then adjustment * 1.25
    else if Rltb (early_warning_coverage context) 0.3 then adjustment * 0.9
    else adjustment in
  let adjustment :=
    if String.eqb (urban_rural context) "urban" then adjustment * 1.1
    else if String.eqb (urban_rural context) "rural" then adjustment * 0.95
    else adjustment in
  let adjustment :=
    if Rgtb (poverty_rate context) 0.5 then adjustment * 0.85
    else adjustment in
  intensity_half * adjustment.

(** [_adjust_for_compounding] *)
Definition _adjust_for_compounding (self : t) (intensity_half : R)
  (compounding : CompoundingFactors) : R :=
  let adjustment := 1.0 in
  let adjustment :=
    if has_recent_flood compounding then adjustment * 0.8 else adjustment in
  let adjustment :=
    if has_recent_conflict compounding then adjustment * 0.75 else adjustment in
  let adjustment :=
    if has_displacement_camp compounding then adjustment * 0.7 else adjustment in
  let adjustment :=
    if is_rainy_season compounding && String.eqb (hazard_type self) "flood"
    then adjustment * 0.85 else adjustment in
  let adjustment :=
    if is_harvest_season compounding then adjustment * 1.1 else adjustment in
  let adjustment :=
    if market_access_disrupted compounding then adjustment * 0.9 else adjustment in
  let adjustment :=
    if healthcare_access_limited compounding then adjustment * 0.85
    else adjustment in
  intensity_half * adjustment.

Definition steepness_of (self : t) : R :=
  if String.eqb (hazard_type self) "flood" then 5 else 3.

(** The base sigmoid of [_create_impact_curve] at one intensity. *)
Definition sigmoid (steepness intensity_half x : R) : R :=
  1 / (1 + exp (- steepness * (x - intensity_half) / intensity_half)).

(** The low-intensity ramp factor applied to [mdd] at intensity [x]. *)
Definition ramp (threshold intensity_half x m : R) : R :=
  m * (0.5 + 0.5 * ((x - threshold) / (intensity_half * 0.5 - threshold))).

(** The high-intensity override at intensity [x]. *)
Definition saturation (intensity_half x : R) : R :=
  0.85 + 0.14 * (1 - exp (- (x - intensity_half * 2) / intensity_half)).

(** [_create_impact_curve], one array pass per statement of the source. *)
Definition _create_impact_curve (self : t) (intensity : ndarray)
  (threshold intensity_half : R) (context : HazardContext) : result ndarray :=
  let steepness := steepness_of self in
  let mdd := map (sigmoid steepness intensity_half) intensity in
  let mdd :=
    masked_update (fun _ _ => 0)
      (map (fun x => Rltb x threshold) intensity) intensity mdd in
  let low_intensity_mask :=
    map (fun x => Rgeb x threshold && Rltb x (intensity_half * 0.5)) intensity in
  let mdd :=
    if np_any low_intensity_mask
    then masked_update (ramp threshold intensity_half)
           low_intensity_mask intensity mdd
    else mdd in
  let high_intensity_mask :=
    map (fun x => Rgtb x (intensity_half * 2)) intensity in
  let mdd :=
    if np_any high_intensity_mask
    then masked_update (fun x _ => saturation intensity_half x)
           high_intensity_mask intensity mdd
    else mdd in
  mdd <-
    (if Rgtb (early_warning_coverage context) 0.7 then
       intensity_max <- np_max intensity ;;
       Ok (zip_with Rmult mdd
             (map (fun x => 0.85 + 0.15 * (x / intensity_max)) intensity))
     else Ok mdd) ;;
  Ok (np_clip mdd 0 0.95).

(** The value the passes of [_create_impact_curve] leave at one intensity
    [x] of a grid whose largest intensity is [intensity_max]; shown below to
    be the element of the returned array at the position of [x]. *)
Definition impact_at (self : t) (threshold intensity_half : R)
  (context : HazardContext) (intensity_max x : R) : R :=
  let m := sigmoid (steepness_of self) intensity_half x in
  let m := if Rltb x threshold then 0 else m in
  let m :=
    if Rgeb x threshold && Rltb x (intensity_half * 0.5)
    then ramp threshold intensity_half x m else m in
  let m :=
    if Rgtb x (intensity_half * 2) then saturation intensity_half x else m in
  let m :=
    if Rgtb (early_warning_coverage context) 0.7
    then m * (0.85 + 0.15 * (x / intensity_max)) else m in
  clip 0 0.95 m.

(** [_create_paa_curve] *)
Definition _create_paa_curve (self : t) (intensity : ndarray)
  (context : HazardContext) : ndarray :=
  let paa :=
    if String.eqb (hazard_type self) "flood" then
      map (fun x => 0.3 + 0.7 * (1 - exp (- x / 0.5))) intensity
    else if Rgtb (population_density context) 500 then
      map (fun x => 0.5 + 0.5 * (1 - exp (- x / 20))) intensity
    else
      map (fun x => 0.7 + 0.3 * (1 - exp (- x / 30))) intensity in
  np_clip paa 0.1 1.0.

(** [create_contextual_impact_function]; the returned set holds the single
    function built here. *)
Definition create_contextual_impact_function (self : t)
  (context : HazardContext) (compounding : CompoundingFactors)
  (intensity_half : R) : result (list ImpactFunc) :=
  let is_flood := String.eqb (hazard_type self) "flood" in
  let adjusted_half := _adjust_for_context self intensity_half context in
  let adjusted_half := _adjust_for_compounding self adjusted_half compounding in
  let intensity := if is_flood then arange 120 0.05 else arange 125 2 in
  let intensity_thresh :=
    if is_flood then flood_depth_threshold_m (forecast (config self))
    else conflict_fatality_threshold (forecast (config self)) in
  mdd <- _create_impact_curve self intensity intensity_thresh adjusted_half
           context ;;
  let paa := _create_paa_curve self intensity context in
  Ok [ {| haz_type := if is_flood then "FL" else "CF";
          id := 1;
          intensity_unit := if is_flood then "m" else "events";
          intensity := intensity;
          mdd := mdd;
          paa := paa;
          name := hazard_type self ++ "_adaptive_" ++ state context |} ].

End AdaptiveImpactFunction.

(** ** MultiHazardInteraction *)

Module MultiHazardInteraction.

Record t : Type := {
  config : Config;
  interaction_matrix : list (list R)
}.

(** [_build_interaction_matrix] *)
Definition _build_interaction_matrix : list (list R) :=
  [ [1.0; 1.3]; [1.2; 1.0] ].

(** [__init__] *)
Definition init (cfg : Config) : t :=
  {| config := cfg; interaction_matrix := _build_interaction_matrix |}.

(** The metrics dictionary: its ['method'] string and its numeric entries. *)
Record Metrics : Type := {
  method : string;
  entries : dict R
}.

(** [compounding_factor] is the float [1.0] or an array. *)
Inductive factor : Type :=
| Scalar (r : R)
| Array (a : ndarray).

Definition mul_factor (a : ndarray) (f : factor) : result ndarray :=
  match f with
  | Scalar r => Ok (map (fun x => x * r) a)
  | Array b => broadcast2 Rmult a b
  end.

Definition mean_factor (f : factor) : R :=
  match f with
  | Scalar r => r
  | Array b => np_mean b
  end.

(** The context-adjusted interaction coefficient. *)
Definition interaction_base_of (self : t) (context : HazardContext) : R :=
  let interaction_base :=
    flood_conflict_interaction (vulnerability (config self)) in
  let interaction_base :=
    if Rltb (infrastructure_quality context) 0.3
    then interaction_base * 1.2 else interaction_base in
  let interaction_base :=
    if Rgtb (poverty_rate context) 0.5
    then interaction_base * 1.15 else interaction_base in
  interaction_base.

(** [_sophisticated_combination] *)
Definition _sophisticated_combination (self : t)
  (flood_intensity conflict_intensity flood_impact conflict_impact : ndarray)
  (context : HazardContext) : result (ndarray * Metrics) :=
  flood_max <- np_max flood_intensity ;;
  let flood_norm := map (fun x => x / (flood_max + 1e-10)) flood_intensity in
  conflict_max <- np_max conflict_intensity ;;
  let conflict_norm :=
    map (fun x => x / (conflict_max + 1e-10)) conflict_intensity in
  base_combined <- broadcast2 Rmax flood_impact conflict_impact ;;
  both_present <-
    broadcast2 andb (map (fun x => Rgtb x 0.1) flood_norm)
                    (map (fun x => Rgtb x 0.1) conflict_norm) ;;
  compounding_factor <-
    (if np_any both_present then
       let interaction_base := interaction_base_of self context in
       prod <- broadcast2 Rmult
                 (map (fun x => (interaction_base - 1) * x) flood_norm)
                 conflict_norm ;;
       Ok (Array (map (fun x => 1 + x) prod))
     else Ok (Scalar 1.0)) ;;
  combined <- mul_factor base_combined compounding_factor ;;
  let flood_cascades := Rgtb (np_mean flood_norm) 0.5 in
  let cascade_prob_fc :=
    0.15 * np_mean flood_norm * (1 - infrastructure_quality context) in
  let cascading_flood_to_conflict :=
    if flood_cascades then cascade_prob_fc else 0 in
  combined <-
    (if flood_cascades
     then inplace2 Rplus combined
            (map (fun x => cascade_prob_fc * x * 0.3) conflict_impact)
     else Ok combined) ;;
  let conflict_cascades := Rgtb (np_mean conflict_norm) 0.5 in
  let cascade_prob_cf := 0.10 * np_mean conflict_norm in
  let cascading_conflict_to_flood :=
    if conflict_cascades then cascade_prob_cf else 0 in
  combined <-
    (if conflict_cascades
     then inplace2 Rplus combined
            (map (fun x => cascade_prob_cf * x * 0.2) flood_impact)
     else Ok combined) ;;
  let combined := np_clip combined 0 0.95 in
  max_displacement_rate <- np_max combined ;;
  Ok (combined,
      {| method := "sophisticated";
         entries :=
           [ ("base_interaction",
              flood_conflict_interaction (vulnerability (config self)));
             ("compounding_factor", mean_factor compounding_factor);
             ("cascade_flood_to_conflict", cascading_flood_to_conflict);
             ("cascade_conflict_to_flood", cascading_conflict_to_flood);
             ("max_displacement_rate", max_displacement_rate) ] |}).

(** [combine_hazards]; [method_name] is the [method] argument. *)
Definition combine_hazards (self : t)
  (flood_intensity conflict_intensity flood_impact conflict_impact : ndarray)
  (context : HazardContext) (method_name : string)
  : result (ndarray * Metrics) :=
  if String.eqb method_name "simple_max" then
    combined <- broadcast2 Rmax flood_impact conflict_impact ;;
    Ok (combined, {| method := "max"; entries := [("interaction", 0)] |})
  else if String.eqb method_name "weighted_sum" then
    total <- broadcast2 Rplus flood_intensity conflict_intensity ;;
    flood_weight <-
      broadcast2 Rdiv flood_intensity (map (fun x => x + 1e-10) total) ;;
    let conflict_weight := map (fun w => 1 - w) flood_weight in
    flood_part <- broadcast2 Rmult flood_weight flood_impact ;;
    conflict_part <- broadcast2 Rmult conflict_weight conflict_impact ;;
    combined <- broadcast2 Rplus flood_part conflict_part ;;
    Ok (combined, {| method := "weighted"; entries := [("interaction", 0.1)] |})
  else
    _sophisticated_combination self flood_intensity conflict_intensity
      flood_impact conflict_impact context.

End MultiHazardInteraction.


(** ** Forecast results *)

Record ForecastMetrics : Type := {
  forecast_id : string;
  timestamp : Z;
  lead_time_days : R;
  processing_time_seconds : R;
  n_samples : Z;
  n_ensemble_members : R;
  spatial_coverage_km2 : R;
  mean_displacement : R;
  median_displacement : R;
  p05_displacement : R;
  p95_displacement : R;
  max_displacement : R;
  hazard_uncertainty_pct : R;
  exposure_uncertainty_pct : R;
  vulnerability_uncertainty_pct : R;
  quality_score : R;
  confidence_level : string;
  warnings : list string;
  errors : list string
}.

(** The fields of [AlertDecision] that are computed from numbers; the two
    rendered texts ([recommended_actions], [message]) are not modelled. *)
Record AlertDecision : Type := {
  alert_level : string;
  should_trigger : bool;
  confidence : R;
  affected_states : list string;
  estimated_displacement : dict R;
  recipients : list string
}.

(** *** The [forecasted_displacement] column as a pandas Series *)

Definition Series : Type := list R.

Definition series_mean (s : Series) : R := np_sum s / INR (List.length s).

Fixpoint insert_sorted (x : R) (s : list R) : list R :=
  match s with
  | [] => [x]
  | y :: s' => if Rleb x y then x :: s else y :: insert_sorted x s'
  end.

Definition sort_values (s : Series) : list R :=
  fold_right insert_sorted [] s.

(** [s.quantile(num/den)] with linear interpolation between the two closest
    ranks. *)
Definition series_quantile (num den : nat) (s : Series) : R :=
  let sorted := sort_values s in
  let pos := (num * (List.length s - 1))%nat in
  let lower := nth (pos / den) sorted 0 in
  let upper := nth (S (pos / den)) sorted lower in
  lower + (upper - lower) * (INR (pos mod den) / INR den).

(** [s.std()], the sample standard deviation. *)
Definition series_std (s : Series) : R :=
  let m := series_mean s in
  sqrt (np_sum (map (fun x => (x - m) * (x - m)) s)
        / INR (List.length s - 1)).

(** *** Columns with missing values

    A column that can hold NaN is a list of options, [None] being NaN. *)

Definition isna (v : option R) : bool :=
  match v with
  | Some _ => false
  | None => true
  end.

Fixpoint dropna {A : Type} (s : list (option A)) : list A :=
  match s with
  | [] => []
  | Some x :: s' => x :: dropna s'
  | None :: s' => dropna s'
  end.

(** [s.max()] of the values present; NaN without any. *)
Definition series_max (s : Series) : option R :=
  match s with
  | [] => None
  | x :: s' => Some (fold_left Rmax s' x)
  end.

(** ** QualityController *)

Module QualityController.

(** The attributes of a CLIMADA [Hazard] that [validate_inputs] reads:
    [event_id], the stored entries of the sparse [intensity] matrix and its
    number of rows. *)
Record Hazard : Type := {
  event_id : list Z;
  intensity_data : list R;
  intensity_rows : nat
}.

(** The attributes of a CLIMADA [Exposures] that [validate_inputs] reads:
    the ['value'] column of [gdf] and whether [gdf] has a [centr_] column. *)
Record Exposures : Type := {
  gdf_value : list R;
  gdf_has_centr_ : bool
}.

(** [validate_inputs] *)
Definition validate_inputs (hazard : Hazard) (exposure : Exposures)
  : bool * list string :=
  let warnings := [] in
  if Nat.eqb (List.length (event_id hazard)) 0 then
    (false, ["Hazard has no events"])
  else
    let warnings :=
      if np_all (map (fun x => Reqb x 0) (intensity_data hazard))
      then (warnings ++ ["Hazard intensity is all zeros"])%list else warnings in
    let warnings :=
      if Nat.ltb (intensity_rows hazard) 5
      then (warnings
            ++ [("Low ensemble size: " ++ str_of_nat (intensity_rows hazard))%string])%list
      else warnings in
    if Nat.eqb (List.length (gdf_value exposure)) 0 then
      (false, ["Exposure has no data"])
    else if Reqb (np_sum (gdf_value exposure)) 0 then
      (false, ["Exposure values sum to zero"])
    else
      let warnings :=
        if negb (gdf_has_centr_ exposure)
        then (warnings ++ ["Exposure not assigned to centroids"])%list
        else warnings in
      (true, warnings).

(** [calculate_quality_score] *)
Definition calculate_quality_score
  (hazard_quality model_confidence data_completeness : R) (n_warnings : nat)
  : R :=
  let base_score := (hazard_quality + model_confidence + data_completeness) / 3 in
  let warning_penalty := Rmin (0.1 * INR n_warnings) 0.3 in
  Rmax 0 (base_score - warning_penalty).

(** [config.validation], a part of the configuration object beside the ones
    of [Config]; [validate_outputs] reads one attribute of it. *)
Record ValidationConfig : Type := {
  max_forecast_error_factor : R
}.

Section Rendering.

(** The decimal renderings [f"{x:,.0f}"] and [f"{x:.1f}"] of a float are
    left open. *)
Variable format_thousands : R -> string.
Variable format_1f : R -> string.

(** [validate_outputs]; [forecast_results] is the
    ['forecasted_displacement'] column, NaN included.  The maximum and the
    quantiles skip NaN and are NaN themselves on a column without values, in
    which case their tests are false. *)
Definition validate_outputs (validation : ValidationConfig)
  (forecast_results : list (option R)) : bool * list string :=
  let warnings := [] in
  let errors := [] in
  let errors :=
    if existsb isna forecast_results
    then (errors ++ ["NaN values in forecast output"])%list else errors in
  let values := dropna forecast_results in
  let warnings :=
    match series_max values with
    | Some max_displacement =>
        if Rgtb max_displacement 5e6
        then (warnings
              ++ [("Very high displacement forecast: "
                   ++ format_thousands max_displacement)%string])%list
        else warnings
    | None => warnings
    end in
  let warnings :=
    match values with
    | [] => warnings
    | _ :: _ =>
        let p05 := series_quantile 5 100 values in
        let p95 := series_quantile 95 100 values in
        let uncertainty_ratio := p95 / (p05 + 1) in
        if Rgtb uncertainty_ratio (max_forecast_error_factor validation)
        then (warnings
              ++ [("High uncertainty: " ++ format_1f uncertainty_ratio
                   ++ "x range")%string])%list
        else warnings
    end in
  let warnings :=
    if Nat.ltb (List.length forecast_results) 100
    then (warnings
          ++ [("Low sample size: "
               ++ str_of_nat (List.length forecast_results))%string])%list
    else warnings in
  match errors with
  | [] => (true, warnings)
  | _ :: _ => (false, (errors ++ warnings)%list)
  end.

End Rendering.

End QualityController.

(** ** AlertManager *)

Module AlertManager.

(** [_determine_alert_level] *)
Definition _determine_alert_level (cfg : Config) (mean_disp p90_disp : R)
  : string :=
  let thresholds := displacement_alert_levels (forecast cfg) in
  if Rgeb p90_disp (emergency thresholds) then "emergency"
  else if Rgeb p90_disp (warning thresholds) then "warning"
  else if Rgeb mean_disp (advisory thresholds) then "advisory"
  else if Rgeb mean_disp (watch thresholds) then "watch"
  else "none".

(** [_calculate_alert_confidence] *)
Definition _calculate_alert_confidence (forecast_results : Series)
  (quality_score : R) : R :=
  let confidence := quality_score in
  let cv := series_std forecast_results / (series_mean forecast_results + 1) in
  let confidence :=
    if Rltb cv 0.3 then confidence * 1.1
    else if Rgtb cv 0.8 then confidence * 0.8
    else confidence in
  Rmin 1.0 confidence.

(** [generate_alert_decision]; [forecast_results] is the
    ['forecasted_displacement'] column and [context] the per-state
    dictionary. *)
Definition generate_alert_decision (cfg : Config) (forecast_results : Series)
  (metrics : ForecastMetrics) (context : dict HazardContext)
  : AlertDecision :=
  let mean_disp := series_mean forecast_results in
  let p90_disp := series_quantile 9 10 forecast_results in
  let alert_level := _determine_alert_level cfg mean_disp p90_disp in
  let should_trigger :=
    str_in alert_level ["warning"; "emergency"]
    && str_in (confidence_level metrics) ["high"; "medium"] in
  let confidence :=
    _calculate_alert_confidence forecast_results (quality_score metrics) in
  let affected_states := map fst context in
  let displacement_by_state :=
    map (fun state => (state, mean_disp / INR (List.length affected_states)))
        affected_states in
  let recipients :=
    dict_get (alert_recipients (alert cfg)) alert_level
             ["operations@nema.gov.ng"] in
  {| alert_level := alert_level;
     should_trigger := should_trigger;
     confidence := confidence;
     affected_states := affected_states;
     estimated_displacement := displacement_by_state;
     recipients := recipients |}.

Section Rendering.

(** The decimal rendering [f"{x:,.0f}"] of a float is left open. *)
Variable format_thousands : R -> string.

(** [_generate_recommendations] *)
Definition _generate_recommendations (alert_level : string)
  (displacement : R) (states : list string) : list string :=
  let actions :=
    if String.eqb alert_level "watch" then
      [ "Monitor situation closely";
        "Alert state emergency management agencies";
        "Review and update contingency plans";
        "Prepare early warning messages" ]
    else if String.eqb alert_level "advisory" then
      [ "Activate early warning systems";
        "Pre-position emergency supplies";
        "Brief response teams";
        "Coordinate with humanitarian partners";
        "Prepare evacuation routes" ]
    else if String.eqb alert_level "warning" then
      [ "Issue public warning announcements";
        "Begin evacuation of high-risk areas";
        "Activate emergency operations centers";
        "Deploy response teams to affected states";
        "Open temporary shelters";
        ("Prepare for " ++ format_thousands displacement
         ++ " displaced persons")%string ]
    else if String.eqb alert_level "emergency" then
      [ "IMMEDIATE: Full emergency response activation";
        "Mass evacuation of affected areas";
        "Request national/international assistance";
        "Deploy all available resources";
        "Establish emergency coordination mechanisms";
        ("CRITICAL: Prepare for " ++ format_thousands displacement
         ++ "+ displaced persons")%string ]
    else [] in
  if Nat.leb (List.length states) 3
  then (actions ++ [("Focus on: " ++ String.concat ", " states)%string])%list
  else (actions
        ++ [("Affecting " ++ str_of_nat (List.length states)
             ++ " states - coordinate multi-state response")%string])%list.

End Rendering.

(** The attributes of [config.alert] that [distribute_alert] reads. *)
Record AlertChannels : Type := {
  enable_email : bool;
  enable_sms : bool;
  enable_api_webhook : bool;
  webhook_urls : list string
}.

(** The calls of [logger.info] made while distributing, each with the values
    its message interpolates; logging is the only effect of the three
    senders. *)
Inductive log_record : Type :=
| NoDistribution (level : string)
| Distributing (level : string) (n_recipients : nat)
| EmailTo (to : list string)
| SmsTo (to : list string)
| WebhookPost (n_endpoints : nat).

Definition _send_email_alert (alert : AlertDecision) : list log_record :=
  [EmailTo (recipients alert)].

Definition _send_sms_alert (alert : AlertDecision) : list log_record :=
  [SmsTo (recipients alert)].

Definition _send_webhook_alert (channels : AlertChannels)
  (alert : AlertDecision) : list log_record :=
  [WebhookPost (List.length (webhook_urls channels))].

(** [distribute_alert], returning what it logs, in order. *)
Definition distribute_alert (channels : AlertChannels) (alert : AlertDecision)
  : list log_record :=
  if negb (should_trigger alert) then
    [NoDistribution (alert_level alert)]
  else
    ([Distributing (alert_level alert) (List.length (recipients alert))]
     ++ (if enable_email channels then _send_email_alert alert else [])
     ++ (if enable_sms channels then _send_sms_alert alert else [])
     ++ (if enable_api_webhook channels
         then _send_webhook_alert channels alert else []))%list.

End AlertManager.


(** ** ProductionForecastEngine *)

Module ProductionForecastEngine.

(** A row of a results frame.  A column the frame does not have, or a
    missing value, is [None]; rows keep the default positional index. *)
Record Row : Type := {
  row_sample_id : option Z;
  row_displacement : option R;
  row_hazard_type : option string;
  row_forecast_id : option string
}.

Definition DataFrame : Type := list Row.

(** Index-aligned sum of two columns: a position one of them lacks, or
    where one of them is NaN, is NaN. *)
Fixpoint add_aligned (a b : list (option R)) : list (option R) :=
  match a, b with
  | x :: a', y :: b' =>
      match x, y with
      | Some u, Some v => Some (u + v)
      | _, _ => None
      end :: add_aligned a' b'
  | [], _ => map (fun _ => None) b
  | _, [] => map (fun _ => None) a
  end.

(** [_combine_multi_hazard_impacts]; [None] is the [IndexError] of taking
    the first value of an empty dictionary. *)
Definition _combine_multi_hazard_impacts (impacts : dict DataFrame)
  : option DataFrame :=
  match dict_find impacts "flood", dict_find impacts "conflict" with
  | Some flood_impact, Some conflict_impact =>
      Some (map (fun d => {| row_sample_id := None;
                             row_displacement :=
                               option_map (fun v => v * 0.8) d;
                             row_hazard_type := None;
                             row_forecast_id := None |})
                (add_aligned (map row_displacement flood_impact)
                             (map row_displacement conflict_impact)))
  | _, _ =>
      match impacts with
      | (_, first) :: _ => Some first
      | [] => None
      end
  end.

(** [_compile_results]; [pd.concat] raises on an empty list of frames. *)
Definition _compile_results (impacts : dict DataFrame) (forecast_id : string)
  : result DataFrame :=
  let all_results :=
    map (fun '(haz_type, impact_df) =>
           map (fun row => {| row_sample_id := row_sample_id row;
                              row_displacement := row_displacement row;
                              row_hazard_type := Some haz_type;
                              row_forecast_id := Some forecast_id |})
               impact_df)
        impacts in
  match all_results with
  | [] => Raise (ValueError "No objects to concatenate")
  | _ :: _ => Ok (List.concat all_results)
  end.

(** [results.groupby('hazard_type')['sample_id'].nunique().mean()]: the
    distinct sample ids present in each group of rows with one hazard type,
    averaged over the groups. *)
Definition mean_unique_samples (results : DataFrame) : R :=
  let keys := nodup string_dec (dropna (map row_hazard_type results)) in
  let counts :=
    map (fun key =>
           let group :=
             filter (fun row =>
                       match row_hazard_type row with
                       | Some k => String.eqb k key
                       | None => false
                       end) results in
           INR (List.length
                  (nodup Z.eq_dec (dropna (map row_sample_id group)))))
        keys in
  np_mean counts.

(** [_calculate_metrics]; [forecast_date] is the timestamp of the run.  The
    statistics skip NaN; on a frame without values pandas yields NaN for
    them, which the model leaves to [x / 0 = 0] and, for the maximum, to 0. *)
Definition _calculate_metrics (forecast_id : string) (forecast_date : Z)
  (lead_time : R) (results : DataFrame) (uncertainty_outputs : dict (dict R))
  (warnings : list string) (processing_time : R) : ForecastMetrics :=
  let disp := dropna (map row_displacement results) in
  let haz_unc :=
    np_mean (map (fun u => dict_get (snd u) "hazard_variance" 0.33)
                 uncertainty_outputs) in
  let exp_unc :=
    np_mean (map (fun u => dict_get (snd u) "exposure_variance" 0.33)
                 uncertainty_outputs) in
  let vul_unc :=
    np_mean (map (fun u => dict_get (snd u) "vulnerability_variance" 0.33)
                 uncertainty_outputs) in
  let quality_score :=
    QualityController.calculate_quality_score 0.8 0.75 0.9
      (List.length warnings) in
  let confidence :=
    if Rgeb quality_score 0.75 then "high"
    else if Rgeb quality_score 0.5 then "medium"
    else "low" in
  {| forecast_id := forecast_id;
     timestamp := forecast_date;
     lead_time_days := lead_time;
     processing_time_seconds := processing_time;
     n_samples := Z.of_nat (List.length results);
     n_ensemble_members := mean_unique_samples results;
     spatial_coverage_km2 := 923768;
     mean_displacement := series_mean disp;
     median_displacement := series_quantile 1 2 disp;
     p05_displacement := series_quantile 5 100 disp;
     p95_displacement := series_quantile 95 100 disp;
     max_displacement :=
       match series_max disp with Some m => m | None => 0 end;
     hazard_uncertainty_pct := haz_unc * 100;
     exposure_uncertainty_pct := exp_unc * 100;
     vulnerability_uncertainty_pct := vul_unc * 100;
     quality_score := quality_score;
     confidence_level := confidence;
     warnings := warnings;
     errors := [] |}.

End ProductionForecastEngine.

(** ** Concrete inputs used by the examples below *)

(** Modelled from the spec: the configuration object is not in the sources.
    The interaction coefficient is the nominal 1.3 of the combiner's
    description; the flood threshold (0.3 m) and the four displacement
    breakpoints agree with the cases of the repository's test suite.  The
    regional tables and the conflict threshold are placeholders: no statement
    below depends on their values. *)
Definition sample_config : Config :=
  {| vulnerability :=
       {| flood_params :=
            [("North_Central", [("p10", 0.3); ("p50", 0.6); ("p90", 1.2)])];
          conflict_params :=
            [("North_Central", [("p10", 10); ("p50", 25); ("p90", 60)])];
          flood_conflict_interaction := 1.3 |};
     forecast :=
       {| flood_depth_threshold_m := 0.3;
          conflict_fatality_threshold := 10;
          displacement_alert_levels :=
            {| emergency := 50000; warning := 25000;
               advisory := 10000; watch := 5000 |} |};
     alert := {| alert_recipients := [] |} |}.

(** The context of the example run at the end of [advanced_multi_hazard.py]
    (also the one of the vulnerability tests). *)
Definition benue_context : HazardContext :=
  {| state := "Benue";
     region := "North_Central";
     month := 9;
     population_density := 150;
     poverty_rate := 0.45;
     previous_events_30d := 2;
     previous_events_90d := 5;
     distance_to_water_km := 2.5;
     elevation_m := 120;
     urban_rural := "rural";
     infrastructure_quality := 0.35;
     early_warning_coverage := 0.55 |}.

(** [CompoundingFactors()] with every default. *)
Definition no_compounding : CompoundingFactors :=
  {| has_recent_flood := false;
     has_recent_conflict := false;
     has_displacement_camp := false;
     is_rainy_season := false;
     is_harvest_season := false;
     market_access_disrupted := false;
     healthcare_access_limited := false |}.

Definition flood_function : AdaptiveImpactFunction.t :=
  {| AdaptiveImpactFunction.config := sample_config;
     AdaptiveImpactFunction.hazard_type := "flood" |}.

Definition conflict_function : AdaptiveImpactFunction.t :=
  {| AdaptiveImpactFunction.config := sample_config;
     AdaptiveImpactFunction.hazard_type := "conflict" |}.

Definition sample_combiner : MultiHazardInteraction.t :=
  MultiHazardInteraction.init sample_config.

(** A metrics record as [_calculate_metrics] fills it for a run without
    warnings. *)
Definition sample_metrics : ForecastMetrics :=
  {| forecast_id := "2024010100_2d"; timestamp := 0;
     lead_time_days := 2; processing_time_seconds := 1;
     n_samples := 2; n_ensemble_members := 2;
     spatial_coverage_km2 := 923768;
     mean_displacement := 60000; median_displacement := 60000;
     p05_displacement := 60000; p95_displacement := 60000;
     max_displacement := 60000;
     hazard_uncertainty_pct := 45; exposure_uncertainty_pct := 25;
     vulnerability_uncertainty_pct := 30;
     quality_score := 0.8; confidence_level := "high";
     warnings := []; errors := [] |}.

(** A metrics record with the confidence level [low]. *)
Definition low_confidence_metrics : ForecastMetrics :=
  {| forecast_id := "2024010100_2d"; timestamp := 0;
     lead_time_days := 2; processing_time_seconds := 1;
     n_samples := 2; n_ensemble_members := 2;
     spatial_coverage_km2 := 923768;
     mean_displacement := 67500; median_displacement := 67500;
     p05_displacement := 60750; p95_displacement := 74250;
     max_displacement := 75000;
     hazard_uncertainty_pct := 45; exposure_uncertainty_pct := 25;
     vulnerability_uncertainty_pct := 30;
     quality_score := 0.4; confidence_level := "low";
     warnings := []; errors := [] |}.

(** The context of the multi-hazard tests. *)
Definition borno_context : HazardContext :=
  {| state := "Borno";
     region := "North_East";
     month := 8;
     population_density := 200;
     poverty_rate := 0.55;
     previous_events_30d := 3;
     previous_events_90d := 8;
     distance_to_water_km := 10;
     elevation_m := 300;
     urban_rural := "rural";
     infrastructure_quality := 0.25;
     early_warning_coverage := 0.35 |}.

(** The order [none < watch < advisory < warning < emergency]. *)
Definition level_rank (level : string) : nat :=
  if String.eqb level "emergency" then 4
  else if String.eqb level "warning" then 3
  else if String.eqb level "advisory" then 2
  else if String.eqb level "watch" then 1
  else 0.

(** [sub in s] for strings *)
Definition str_contains (sub s : string) : bool :=
  match String.index 0 sub s with
  | Some _ => true
  | None => false
  end.

(** The element that NumPy's broadcasting reads at index [k]: the only
    element of a one-element array, the [k]-th element otherwise. *)
Definition broadcast_at (a : ndarray) (k : nat) : R :=
  match a with
  | [x] => x
  | _ => nth k a 0
  end.

(** [k] addresses an element of [a] under broadcasting. *)
Definition in_shape (a : ndarray) (k : nat) : Prop :=
  (k < List.length a)%nat \/ List.length a = 1%nat.

(** * Properties *)

(** ** Comparisons *)

Lemma Rltb_true (x y : R) : Rltb x y = true <-> x < y.
Proof. unfold Rltb. destruct (Rlt_dec x y); split; intros; try easy. Qed.

Lemma Rltb_false (x y : R) : Rltb x y = false <-> y <= x.
Proof.
  unfold Rltb. destruct (Rlt_dec x y); split; intros; try easy; lra.
Qed.

Lemma Rleb_true (x y : R) : Rleb x y = true <-> x <= y.
Proof. unfold Rleb. destruct (Rle_dec x y); split; intros; try easy. Qed.

Lemma Rleb_false (x y : R) : Rleb x y = false <-> y < x.
Proof.
  unfold Rleb. destruct (Rle_dec x y); split; intros; try easy; lra.
Qed.

Lemma Rgtb_true (x y : R) : Rgtb x y = true <-> x > y.
Proof. unfold Rgtb. rewrite Rltb_true. lra. Qed.

Lemma Rgtb_false (x y : R) : Rgtb x y = false <-> x <= y.
Proof. unfold Rgtb. rewrite Rltb_false. lra. Qed.

Lemma Rgeb_true (x y : R) : Rgeb x y = true <-> x >= y.
Proof. unfold Rgeb. rewrite Rleb_true. lra. Qed.

Lemma Rgeb_false (x y : R) : Rgeb x y = false <-> x < y.
Proof. unfold Rgeb. rewrite Rleb_false. lra. Qed.

Lemma Reqb_true (x y : R) : Reqb x y = true <-> x = y.
Proof. unfold Reqb. destruct (Req_dec_T x y); split; intros; try easy. Qed.

Lemma Reqb_false (x y : R) : Reqb x y = false <-> x <> y.
Proof. unfold Reqb. destruct (Req_dec_T x y); split; intros; try easy. Qed.

(** Decide every comparison in the goal and close what arithmetic closes. *)
Ltac Rdecide :=
  unfold Rgtb, Rgeb, Rltb, Rleb, Reqb in *;
  repeat match goal with
         | |- context [Rlt_dec ?a ?b] => destruct (Rlt_dec a b)
         | |- context [Rle_dec ?a ?b] => destruct (Rle_dec a b)
         | |- context [Req_dec_T ?a ?b] => destruct (Req_dec_T a b)
         end;
  try lra.

Lemma clip_upper (lo hi x : R) : clip lo hi x <= hi.
Proof. unfold clip. apply Rmin_r. Qed.

Lemma clip_lower (lo hi x : R) : lo <= hi -> lo <= clip lo hi x.
Proof.
  intros H. unfold clip. apply Rmin_glb; [apply Rmax_r | exact H].
Qed.

Lemma clip_inside (lo hi x : R) : lo <= x <= hi -> clip lo hi x = x.
Proof.
  intros [H1 H2]. unfold clip.
  rewrite Rmax_left by exact H1. apply Rmin_left. exact H2.
Qed.

Lemma clip_above (lo hi x : R) : lo <= hi -> hi <= x -> clip lo hi x = hi.
Proof.
  intros H1 H2. unfold clip.
  rewrite Rmax_left by lra. apply Rmin_right. exact H2.
Qed.

(** ** Vulnerability estimator *)

Section Vulnerability.
Import MLEnhancedVulnerability.

(** When both model files are missing nothing is raised while loading, so
    the instance is marked as trained although it holds no model and an
    unfitted scaler. *)
Lemma init_without_files (cfg : Config) :
  init cfg Missing Missing =
  {| config := cfg; flood_model := None; conflict_model := None;
     scaler := None; trained := true |}.
Proof. reflexivity. Qed.

(** The regional lookup is reached only when loading raised. *)
Lemma predict_untrained (self : t) (context : HazardContext)
  (hazard_type : string) :
  trained self = false ->
  predict_vulnerability self context hazard_type =
  _get_regional_default self (region context) hazard_type.
Proof. intros H. unfold predict_vulnerability. rewrite H. reflexivity. Qed.

(** What the lookup returns once it is reached: the median of the entry of
    the region, or of ['North_Central'] for a region without entry. *)
Lemma regional_default_flood (self : t) (region : string) (default : dict R) :
  dict_find (flood_params (vulnerability (config self))) "North_Central"
  = Some default ->
  _get_regional_default self region "flood"
  = dict_getitem
      (dict_get (flood_params (vulnerability (config self))) region default)
      "p50".
Proof.
  intros H. unfold _get_regional_default, dict_getitem at 1.
  rewrite H. reflexivity.
Qed.

Lemma regional_default_conflict (self : t) (region : string)
  (default : dict R) :
  dict_find (conflict_params (vulnerability (config self))) "North_Central"
  = Some default ->
  _get_regional_default self region "conflict"
  = dict_getitem
      (dict_get (conflict_params (vulnerability (config self))) region default)
      "p50".
Proof.
  intros H. unfold _get_regional_default.
  change (String.eqb "conflict" "flood") with false. cbv iota.
  unfold dict_getitem at 1. rewrite H. reflexivity.
Qed.

(** Loading marks the instance as untrained only when a model file exists
    and cannot be read. *)
Lemma init_unreadable_flood_file (cfg : Config) (e : exn)
  (conflict_file : model_file) :
  trained (init cfg (Unreadable e) conflict_file) = false.
Proof. reflexivity. Qed.

(** C1, evaluated on the code: the regional lookup is used only when a model
    file exists and cannot be read.  With no saved model at either path the
    estimator built by [__init__] holds no regressor, is marked as trained
    all the same, and [predict_vulnerability] raises for every context and
    hazard type instead of returning the regional value. *)
Theorem predict_vulnerability_without_models_raises
  (cfg : Config) (flood_file conflict_file : model_file)
  (context : HazardContext) (hazard_type : string) :
  let self := init cfg flood_file conflict_file in
  (trained self = false <->
   (exists e, flood_file = Unreadable e)
   \/ (exists e, conflict_file = Unreadable e))
  /\ (flood_file = Missing -> conflict_file = Missing ->
      flood_model self = None /\ conflict_model self = None
      /\ predict_vulnerability self context hazard_type = Raise NotFittedError).
Proof.
  cbv zeta. split.
  - destruct flood_file as [| fm | fe]; destruct conflict_file as [| cm | ce];
      cbn; split; intros H; try discriminate; eauto;
      destruct H as [[e H] | [e H]]; discriminate.
  - intros -> ->. repeat split.
Qed.

Lemma predict_vulnerability_without_models_raises_witness :
  predict_vulnerability (init sample_config Missing Missing) benue_context
    "flood" = Raise NotFittedError.
Proof.
  apply (predict_vulnerability_without_models_raises sample_config
           Missing Missing benue_context "flood"); reflexivity.
Defined.

End Vulnerability.

(** ** Context adjustment *)

Section ContextAdjustment.
Import AdaptiveImpactFunction.

(** C4 as stated fails: for the context of example scenario 1 the adjusted
    half-impact is not [1.5 * 0.85 * 0.9 * 0.95 * 0.85]. *)
Lemma adjust_for_context_scenario1_not_0931 :
  _adjust_for_context flood_function 1.5 benue_context
  <> 1.5 * 0.85 * 0.9 * 0.95 * 0.85.
Proof.
  unfold _adjust_for_context, benue_context. simpl. Rdecide.
Qed.

(** C4, amended: with [infrastructure_quality = 0.35], [poverty_rate = 0.45],
    [early_warning_coverage = 0.55] and a rural settlement only the rural
    multiplier applies, and a flood input of 1.5 m is adjusted to
    [1.5 * 0.95 = 1.425]. *)
Theorem adjust_for_context_scenario1 (self : t) (context : HazardContext) :
  infrastructure_quality context = 0.35 ->
  poverty_rate context = 0.45 ->
  early_warning_coverage context = 0.55 ->
  urban_rural context = "rural" ->
  _adjust_for_context self 1.5 context = 1.5 * 0.95
  /\ _adjust_for_context self 1.5 context = 1.425.
Proof.
  intros Hi Hp He Hu. unfold _adjust_for_context.
  rewrite Hi, Hp, He, Hu. simpl. Rdecide.
Qed.

Lemma adjust_for_context_scenario1_witness :
  _adjust_for_context flood_function 1.5 benue_context = 1.5 * 0.95
  /\ _adjust_for_context flood_function 1.5 benue_context = 1.425.
Proof.
  apply (adjust_for_context_scenario1 flood_function benue_context);
    reflexivity.
Defined.

End ContextAdjustment.

(** ** Alert decision *)

Section Alerts.
Import AlertManager.

Lemma str_in_two (x a b : string) :
  str_in x [a; b] = true <-> x = a \/ x = b.
Proof.
  unfold str_in. simpl. rewrite !orb_true_iff, !String.eqb_eq.
  intuition discriminate.
Qed.

(** C7: the trigger flag of the decision is set exactly when the level chosen
    for the forecast is [warning] or [emergency] and the confidence level of
    the metrics record is [high] or [medium]; with confidence [low] it is
    never set, whatever the level. *)
Theorem should_trigger_iff (cfg : Config) (forecast_results : Series)
  (metrics : ForecastMetrics) (context : dict HazardContext) :
  let decision := generate_alert_decision cfg forecast_results metrics context in
  (should_trigger decision = true <->
   (alert_level decision = "warning" \/ alert_level decision = "emergency")
   /\ (confidence_level metrics = "high" \/ confidence_level metrics = "medium"))
  /\ alert_level decision =
     _determine_alert_level cfg (series_mean forecast_results)
       (series_quantile 9 10 forecast_results)
  /\ (confidence_level metrics = "low" -> should_trigger decision = false).
Proof.
  cbv zeta. unfold generate_alert_decision. cbn [should_trigger alert_level].
  split; [| split].
  - rewrite andb_true_iff, !str_in_two. reflexivity.
  - reflexivity.
  - intros Hlow. rewrite Hlow. apply andb_false_r.
Qed.

Lemma should_trigger_iff_witness :
  should_trigger
    (generate_alert_decision sample_config [60000; 60000]
       {| forecast_id := "2024010100_2d"; timestamp := 0;
          lead_time_days := 2; processing_time_seconds := 1;
          n_samples := 2; n_ensemble_members := 2;
          spatial_coverage_km2 := 923768;
          mean_displacement := 60000; median_displacement := 60000;
          p05_displacement := 60000; p95_displacement := 60000;
          max_displacement := 60000;
          hazard_uncertainty_pct := 45; exposure_uncertainty_pct := 25;
          vulnerability_uncertainty_pct := 30;
          quality_score := 0.4; confidence_level := "low";
          warnings := []; errors := [] |}
       [("Benue", benue_context)]) = false.
Proof.
  apply should_trigger_iff. reflexivity.
Defined.

Lemma determine_alert_level_cases (cfg : Config) (mean_disp p90_disp : R) :
  let thresholds := displacement_alert_levels (forecast cfg) in
  (p90_disp >= emergency thresholds
   /\ _determine_alert_level cfg mean_disp p90_disp = "emergency")
  \/ (p90_disp < emergency thresholds /\ p90_disp >= warning thresholds
      /\ _determine_alert_level cfg mean_disp p90_disp = "warning")
  \/ (p90_disp < emergency thresholds /\ p90_disp < warning thresholds
      /\ mean_disp >= advisory thresholds
      /\ _determine_alert_level cfg mean_disp p90_disp = "advisory")
  \/ (p90_disp < emergency thresholds /\ p90_disp < warning thresholds
      /\ mean_disp < advisory thresholds /\ mean_disp >= watch thresholds
      /\ _determine_alert_level cfg mean_disp p90_disp = "watch")
  \/ (p90_disp < emergency thresholds /\ p90_disp < warning thresholds
      /\ mean_disp < advisory thresholds /\ mean_disp < watch thresholds
      /\ _determine_alert_level cfg mean_disp p90_disp = "none").
Proof.
  cbv zeta. unfold _determine_alert_level.
  destruct (Rgeb p90_disp _) eqn:He.
  { apply Rgeb_true in He. auto. }
  apply Rgeb_false in He.
  destruct (Rgeb p90_disp _) eqn:Hw.
  { apply Rgeb_true in Hw. auto. }
  apply Rgeb_false in Hw.
  destruct (Rgeb mean_disp _) eqn:Ha.
  { apply Rgeb_true in Ha. right; right; left. auto. }
  apply Rgeb_false in Ha.
  destruct (Rgeb mean_disp _) eqn:Hwa.
  { apply Rgeb_true in Hwa. right; right; right; left. auto. }
  apply Rgeb_false in Hwa. right; right; right; right. auto.
Qed.

Ltac split_level cfg m p :=
  let H := fresh "Hcase" in
  pose proof (determine_alert_level_cases cfg m p) as H; cbv zeta in H;
  destruct H as [H|[H|[H|[H|H]]]];
  repeat match goal with H : _ /\ _ |- _ => destruct H end.

(** C8: for a fixed mean the level never decreases when the 90th percentile
    grows; [emergency] and [warning] are chosen by the 90th percentile alone,
    and below both of their thresholds [advisory] and [watch] are chosen by
    the mean alone. *)
Theorem determine_alert_level_monotone (cfg : Config) (mean_disp : R) :
  let thresholds := displacement_alert_levels (forecast cfg) in
  let level := _determine_alert_level cfg mean_disp in
  (forall p90 p90' : R,
      p90 <= p90' -> (level_rank (level p90) <= level_rank (level p90'))%nat)
  /\ (forall p90 : R, level p90 = "emergency" <-> p90 >= emergency thresholds)
  /\ (forall p90 : R,
         level p90 = "warning" <->
         p90 < emergency thresholds /\ p90 >= warning thresholds)
  /\ (forall p90 : R,
         p90 < emergency thresholds -> p90 < warning thresholds ->
         (level p90 = "advisory" <-> mean_disp >= advisory thresholds)
         /\ (level p90 = "watch" <->
             mean_disp < advisory thresholds /\ mean_disp >= watch thresholds)
         /\ (level p90 = "none" <->
             mean_disp < advisory thresholds /\ mean_disp < watch thresholds)).
Proof.
  cbv zeta. repeat split; intros.
  1: { split_level cfg mean_disp p90; split_level cfg mean_disp p90';
       try (exfalso; lra);
       repeat match goal with
              | H : _determine_alert_level _ _ _ = _ |- _ => rewrite H; clear H
              end;
       cbv; lia. }
  all: repeat match goal with H : _ /\ _ |- _ => destruct H end;
    split_level cfg mean_disp p90;
    try congruence; try lra; exfalso; lra.
Qed.

Lemma determine_alert_level_monotone_witness :
  (level_rank (AlertManager._determine_alert_level sample_config 6000 8000)
   <= level_rank (AlertManager._determine_alert_level sample_config 6000 60000))%nat.
Proof.
  apply (determine_alert_level_monotone sample_config 6000). lra.
Defined.

End Alerts.

(** The four cases of [test_alert_level_determination] and example
    scenario 3 of the specification, under [sample_config]. *)
Example alert_level_test_cases :
  AlertManager._determine_alert_level sample_config 6000 8000 = "watch"
  /\ AlertManager._determine_alert_level sample_config 12000 15000 = "advisory"
  /\ AlertManager._determine_alert_level sample_config 30000 35000 = "warning"
  /\ AlertManager._determine_alert_level sample_config 60000 75000 = "emergency"
  /\ AlertManager._determine_alert_level sample_config 60000 60000 = "emergency".
Proof.
  unfold AlertManager._determine_alert_level, sample_config. simpl.
  repeat split; Rdecide; reflexivity.
Qed.

(** ** Input validation *)

Section Validation.
Import QualityController.

Lemma length_zero_iff_nil {A : Type} (l : list A) :
  Nat.eqb (List.length l) 0 = true <-> l = [].
Proof.
  destruct l; simpl; split; intros; try easy.
Qed.

(** C9: validation fails exactly when the hazard has no event, the exposure
    has no record, or the exposure values sum to zero, and in the last case
    (events and records present) the single message returned mentions
    "zero"; otherwise it succeeds, with a warning for all-zero intensities
    and one for fewer than five ensemble rows. *)
Theorem validate_inputs_spec (hazard : Hazard) (exposure : Exposures) :
  let ok := fst (validate_inputs hazard exposure) in
  let messages := snd (validate_inputs hazard exposure) in
  (ok = false <->
   event_id hazard = [] \/ gdf_value exposure = []
   \/ np_sum (gdf_value exposure) = 0)
  /\ (event_id hazard <> [] -> gdf_value exposure <> [] ->
      np_sum (gdf_value exposure) = 0 ->
      validate_inputs hazard exposure = (false, ["Exposure values sum to zero"])
      /\ str_contains "zero" "Exposure values sum to zero" = true)
  /\ (ok = true ->
      (Forall (fun x => x = 0) (intensity_data hazard) ->
       In "Hazard intensity is all zeros" messages)
      /\ ((intensity_rows hazard < 5)%nat ->
          In ("Low ensemble size: " ++ str_of_nat (intensity_rows hazard))%string
             messages)).
Proof.
  cbv zeta. unfold validate_inputs.
  destruct (Nat.eqb (List.length (event_id hazard)) 0) eqn:He.
  { apply length_zero_iff_nil in He. simpl.
    repeat split; intros; try easy; auto. }
  destruct (Nat.eqb (List.length (gdf_value exposure)) 0) eqn:Hg.
  { apply length_zero_iff_nil in Hg. simpl.
    repeat split; intros; try easy; auto. }
  destruct (Reqb (np_sum (gdf_value exposure)) 0) eqn:Hs.
  { apply Reqb_true in Hs. simpl.
    repeat split; intros; try easy; auto. }
  apply Reqb_false in Hs.
  assert (He' : event_id hazard <> []).
  { intros E. apply length_zero_iff_nil in E. congruence. }
  assert (Hg' : gdf_value exposure <> []).
  { intros E. apply length_zero_iff_nil in E. congruence. }
  cbn [fst snd]. split; [| split].
  - split; [discriminate | intros [H | [H | H]]; contradiction].
  - intros _ _ H. contradiction.
  - intros _. split.
    + intros Hz.
      assert (Hall : np_all (map (fun x => Reqb x 0) (intensity_data hazard))
                     = true).
      { unfold np_all. rewrite forallb_forall. intros b Hb.
        apply in_map_iff in Hb. destruct Hb as [x [Hx Hin]]. subst b.
        rewrite Forall_forall in Hz. apply Reqb_true. auto. }
      rewrite Hall.
      destruct (Nat.ltb (intensity_rows hazard) 5);
        destruct (negb (gdf_has_centr_ exposure));
        simpl; auto.
    + intros Hr. apply Nat.ltb_lt in Hr. rewrite Hr.
      destruct (np_all _); destruct (negb (gdf_has_centr_ exposure));
        simpl; auto.
Qed.

Lemma validate_inputs_spec_witness :
  validate_inputs
    {| event_id := [1%Z]; intensity_data := [2]; intensity_rows := 10 |}
    {| gdf_value := [0; 0]; gdf_has_centr_ := true |}
  = (false, ["Exposure values sum to zero"])
  /\ str_contains "zero" "Exposure values sum to zero" = true.
Proof.
  apply validate_inputs_spec; cbn; try discriminate.
  unfold np_sum. simpl. lra.
Defined.

End Validation.

(** ** Arrays *)

Lemma masked_update_guard (f : R -> R -> R) (mask : list bool)
  (xs arr : ndarray) :
  (if np_any mask then masked_update f mask xs arr else arr)
  = masked_update f mask xs arr.
Proof.
  destruct (np_any mask) eqn:Hany; [reflexivity |].
  revert xs arr Hany. unfold np_any.
  induction mask as [| b mask IH]; intros xs arr Hany; [reflexivity |].
  simpl in Hany. apply orb_false_iff in Hany. destruct Hany as [Hb Hm].
  subst b. destruct xs as [| x xs]; [reflexivity |].
  destruct arr as [| y arr]; [reflexivity |].
  simpl. rewrite <- IH by exact Hm. reflexivity.
Qed.

Lemma masked_update_map (f : R -> R -> R) (p : R -> bool) (g : R -> R)
  (xs : ndarray) :
  masked_update f (map p xs) xs (map g xs)
  = map (fun x => if p x then f x (g x) else g x) xs.
Proof.
  induction xs as [| x xs IH]; simpl; [reflexivity |].
  rewrite IH. reflexivity.
Qed.

Lemma zip_with_map {A B C D : Type} (h : B -> C -> D) (f : A -> B)
  (g : A -> C) (xs : list A) :
  zip_with h (map f xs) (map g xs) = map (fun x => h (f x) (g x)) xs.
Proof.
  induction xs as [| x xs IH]; simpl; [reflexivity |].
  rewrite IH. reflexivity.
Qed.

Lemma np_max_nonempty (a : ndarray) :
  a <> [] -> exists m, np_max a = Ok m.
Proof.
  destruct a as [| x a]; [congruence |]. intros _. simpl. eauto.
Qed.

Lemma nth_map_in {A B : Type} (f : A -> B) (l : list A) (i : nat)
  (d : B) (d' : A) :
  (i < List.length l)%nat -> nth i (map f l) d = f (nth i l d').
Proof.
  intros Hi. rewrite (nth_indep _ d (f d')) by (rewrite length_map; exact Hi).
  apply map_nth.
Qed.

Lemma length_arange (n : nat) (step : R) : List.length (arange n step) = n.
Proof. unfold arange. rewrite length_map. apply length_seq. Qed.

Lemma nth_arange (n i : nat) (step : R) :
  (i < n)%nat -> nth i (arange n step) 0 = INR i * step.
Proof.
  intros Hi. unfold arange.
  rewrite (nth_map_in _ _ _ _ 0%nat) by (rewrite length_seq; exact Hi).
  rewrite seq_nth by exact Hi. reflexivity.
Qed.

(** ** Impact curve *)

Section ImpactCurve.
Import AdaptiveImpactFunction.

(** The array returned by [_create_impact_curve] holds [impact_at] of each
    grid intensity. *)
Lemma create_impact_curve_pointwise (self : t) (intensity : ndarray)
  (threshold intensity_half : R) (context : HazardContext)
  (intensity_max : R) :
  np_max intensity = Ok intensity_max ->
  _create_impact_curve self intensity threshold intensity_half context
  = Ok (map (impact_at self threshold intensity_half context intensity_max)
            intensity).
Proof.
  intros Hmax. unfold _create_impact_curve.
  rewrite !masked_update_guard.
  rewrite masked_update_map.
  rewrite (masked_update_map (ramp threshold intensity_half)
             (fun x => Rgeb x threshold && Rltb x (intensity_half * 0.5))).
  rewrite (masked_update_map (fun x _ => saturation intensity_half x)
             (fun x => Rgtb x (intensity_half * 2))).
  unfold impact_at, np_clip.
  destruct (Rgtb (early_warning_coverage context) 0.7).
  - rewrite Hmax. simpl. rewrite zip_with_map, map_map. reflexivity.
  - simpl. rewrite map_map. reflexivity.
Qed.

(** On a non-empty grid [_create_impact_curve] returns. *)
Lemma create_impact_curve_returns (self : t) (intensity : ndarray)
  (threshold intensity_half : R) (context : HazardContext) :
  intensity <> [] ->
  exists intensity_max,
    np_max intensity = Ok intensity_max
    /\ _create_impact_curve self intensity threshold intensity_half context
       = Ok (map (impact_at self threshold intensity_half context intensity_max)
                 intensity).
Proof.
  intros Hne. destruct (np_max_nonempty intensity Hne) as [m Hm].
  exists m. split; [exact Hm |].
  apply create_impact_curve_pointwise. exact Hm.
Qed.

Lemma arange_nonempty (n : nat) (step : R) : arange (S n) step <> [].
Proof. unfold arange. rewrite <- cons_seq. discriminate. Qed.

End ImpactCurve.

Section ImpactCurveValues.
Import AdaptiveImpactFunction.

Lemma exp_nonpos_le_1 (y : R) : y <= 0 -> exp y <= 1.
Proof.
  intros Hy. destruct (Req_dec y 0) as [-> | Hne].
  - rewrite exp_0. lra.
  - rewrite <- exp_0. left. apply exp_increasing. lra.
Qed.

Lemma exp_ge_pow4 (x : R) : 0 <= x -> (1 + x / 4) ^ 4 <= exp x.
Proof.
  intros Hx.
  replace (exp x) with (exp (x / 4) ^ 4).
  - apply pow_incr. split; [lra | apply exp_ineq1_le].
  - simpl. rewrite Rmult_1_r, <- !exp_plus. f_equal. lra.
Qed.

(** Below twice the half-impact intensity the saturation override starts
    at 0.85 and stays under 0.99. *)
Lemma saturation_bounds (intensity_half x : R) :
  0 < intensity_half -> intensity_half * 2 <= x ->
  0.85 <= saturation intensity_half x
  /\ saturation intensity_half x <= 0.85 + 0.14 * ((x - intensity_half * 2) / intensity_half).
Proof.
  intros Hh Hx. unfold saturation.
  set (y := (x - intensity_half * 2) / intensity_half).
  replace (- (x - intensity_half * 2) / intensity_half) with (- y)
    by (unfold y; field; lra).
  assert (Hy : 0 <= y).
  { unfold y. apply Rmult_le_pos; [lra |].
    left. apply Rinv_0_lt_compat. exact Hh. }
  pose proof (exp_nonpos_le_1 (- y)) as H1.
  pose proof (exp_ineq1_le (- y)) as H2.
  split; lra.
Qed.

Lemma sigmoid_lower (steepness intensity_half x bound : R) :
  0 < bound ->
  bound <= exp (steepness * (x - intensity_half) / intensity_half) ->
  1 / (1 + / bound) <= sigmoid steepness intensity_half x.
Proof.
  intros Hb He. unfold sigmoid.
  set (y := steepness * (x - intensity_half) / intensity_half) in *.
  replace (- steepness * (x - intensity_half) / intensity_half) with (- y)
    by (unfold y; unfold Rdiv; ring).
  rewrite exp_Ropp.
  assert (Hinv : / exp y <= / bound).
  { apply Rinv_le_contravar; assumption. }
  assert (Hpos : 0 < / exp y).
  { apply Rinv_0_lt_compat. apply exp_pos. }
  assert (Hposb : 0 < / bound) by (apply Rinv_0_lt_compat; exact Hb).
  unfold Rdiv. rewrite !Rmult_1_l.
  apply Rinv_le_contravar; lra.
Qed.

Lemma clip_ge (lo hi x v : R) : v <= x -> v <= hi -> v <= clip lo hi x.
Proof.
  intros H1 H2. unfold clip. apply Rmin_glb; [| exact H2].
  apply Rle_trans with x; [exact H1 | apply Rmax_l].
Qed.

Lemma clip_le (lo hi x v : R) : x <= v -> lo <= v -> clip lo hi x <= v.
Proof.
  intros H1 H2. unfold clip.
  apply Rle_trans with (Rmax x lo); [apply Rmin_l |].
  apply Rmax_lub; assumption.
Qed.

(** The curve is zero below the threshold wherever the high-intensity
    override does not reach. *)
Lemma impact_at_below_threshold (self : t) (threshold intensity_half : R)
  (context : HazardContext) (intensity_max x : R) :
  x < threshold -> x <= intensity_half * 2 ->
  impact_at self threshold intensity_half context intensity_max x = 0.
Proof.
  intros Hx Hh. unfold impact_at.
  assert (Hlt : Rltb x threshold = true) by (apply Rltb_true; exact Hx).
  assert (Hge : Rgeb x threshold = false) by (apply Rgeb_false; exact Hx).
  assert (Hgt : Rgtb x (intensity_half * 2) = false)
    by (apply Rgtb_false; exact Hh).
  rewrite Hlt, Hge, Hgt. cbn [andb].
  destruct (Rgtb (early_warning_coverage context) 0.7);
    [rewrite Rmult_0_l |]; apply clip_inside; lra.
Qed.

Lemma create_impact_curve_zero_below_threshold (self : t)
  (intensity : ndarray) (threshold intensity_half : R)
  (context : HazardContext) (mdd : ndarray) (i : nat) :
  _create_impact_curve self intensity threshold intensity_half context
  = Ok mdd ->
  (i < List.length intensity)%nat ->
  nth i intensity 0 < threshold ->
  nth i intensity 0 <= intensity_half * 2 ->
  nth i mdd 0 = 0.
Proof.
  intros Hc Hi Hx Hh.
  assert (Hne : intensity <> []) by (intros ->; simpl in Hi; lia).
  destruct (create_impact_curve_returns self intensity threshold
              intensity_half context Hne) as [m [_ Hm]].
  rewrite Hm in Hc. injection Hc as <-.
  rewrite (nth_map_in _ _ _ _ 0) by exact Hi.
  apply impact_at_below_threshold; assumption.
Qed.

(** C2, evaluated on the code: on the flood grid with threshold 0.3 m and
    half-impact intensity 0.1 m, the grid intensity 0.25 m lies below the
    threshold and above twice the half-impact intensity; the saturation
    override replaces the zero written by the threshold pass and the returned
    displacement fraction there is at least 0.85. *)
Theorem create_impact_curve_nonzero_below_threshold :
  exists mdd : ndarray,
    _create_impact_curve flood_function (arange 120 0.05) 0.3 0.1 benue_context
    = Ok mdd
    /\ nth 5 (arange 120 0.05) 0 = 0.25
    /\ 0.25 < 0.3
    /\ 0.85 <= nth 5 mdd 0.
Proof.
  destruct (create_impact_curve_returns flood_function (arange 120 0.05)
              0.3 0.1 benue_context (arange_nonempty _ _)) as [m [_ Hc]].
  eexists. split; [exact Hc |].
  assert (Hx : nth 5 (arange 120 0.05) 0 = 0.25).
  { rewrite nth_arange by lia. simpl. lra. }
  split; [exact Hx |]. split; [lra |].
  rewrite (nth_map_in _ _ _ _ 0) by (rewrite length_arange; lia).
  rewrite Hx. unfold impact_at.
  assert (H1 : Rgtb 0.25 (0.1 * 2) = true) by (apply Rgtb_true; lra).
  assert (H2 : Rgtb (early_warning_coverage benue_context) 0.7 = false)
    by (apply Rgtb_false; simpl; lra).
  rewrite H1, H2.
  apply clip_ge; [| lra].
  apply saturation_bounds; lra.
Qed.

(** The same through [create_contextual_impact_function]: a flood function
    for the example context built from a half-impact intensity of 0.1 m, a
    value inside the range the estimator clips to, reports a displacement
    fraction of at least 0.85 at 0.2 m, below the configured 0.3 m. *)
Lemma contextual_impact_function_nonzero_below_threshold :
  exists impf : ImpactFunc,
    create_contextual_impact_function flood_function benue_context
      no_compounding 0.1 = Ok [impf]
    /\ nth 4 (intensity impf) 0 = 0.2
    /\ 0.2 < flood_depth_threshold_m (forecast (config flood_function))
    /\ 0.85 <= nth 4 (mdd impf) 0.
Proof.
  assert (Hadj : _adjust_for_compounding flood_function
                   (_adjust_for_context flood_function 0.1 benue_context)
                   no_compounding = 0.095).
  { unfold _adjust_for_compounding, _adjust_for_context, no_compounding,
      benue_context. simpl. Rdecide. }
  unfold create_contextual_impact_function.
  change (String.eqb (hazard_type flood_function) "flood") with true.
  cbv iota zeta. rewrite Hadj.
  destruct (create_impact_curve_returns flood_function (arange 120 0.05)
              (flood_depth_threshold_m (forecast (config flood_function)))
              0.095 benue_context (arange_nonempty _ _)) as [m [_ Hc]].
  rewrite Hc. cbn [bind].
  eexists. split; [reflexivity |]. cbn [intensity mdd].
  assert (Hx : nth 4 (arange 120 0.05) 0 = 0.2).
  { rewrite nth_arange by lia. simpl. lra. }
  split; [exact Hx |]. split; [simpl; lra |].
  rewrite (nth_map_in _ _ _ _ 0) by (rewrite length_arange; lia).
  rewrite Hx. unfold impact_at.
  assert (H1 : Rgtb 0.2 (0.095 * 2) = true) by (apply Rgtb_true; lra).
  assert (H2 : Rgtb (early_warning_coverage benue_context) 0.7 = false)
    by (apply Rgtb_false; simpl; lra).
  rewrite H1, H2.
  apply clip_ge; [| lra].
  apply saturation_bounds; lra.
Qed.

Lemma exp_le_compat (x y : R) : x <= y -> exp x <= exp y.
Proof.
  intros [H | ->]; [left; apply exp_increasing; exact H | right; reflexivity].
Qed.

Lemma sigmoid_pos (steepness intensity_half x : R) :
  0 < sigmoid steepness intensity_half x.
Proof.
  unfold sigmoid.
  pose proof (exp_pos (- steepness * (x - intensity_half) / intensity_half)).
  apply Rdiv_lt_0_compat; lra.
Qed.

Lemma sigmoid_increasing (steepness intensity_half x y : R) :
  0 < steepness -> 0 < intensity_half -> x <= y ->
  sigmoid steepness intensity_half x <= sigmoid steepness intensity_half y.
Proof.
  intros Hk Hh Hxy. unfold sigmoid.
  set (ex := exp (- steepness * (x - intensity_half) / intensity_half)).
  set (ey := exp (- steepness * (y - intensity_half) / intensity_half)).
  assert (Hey : 0 < ey) by apply exp_pos.
  assert (Hle : ey <= ex).
  { apply exp_le_compat. unfold Rdiv.
    apply Rmult_le_compat_r; [left; apply Rinv_0_lt_compat; exact Hh |].
    nra. }
  unfold Rdiv. rewrite !Rmult_1_l.
  apply Rinv_le_contravar; lra.
Qed.

Lemma steepness_of_pos (self : t) : 0 < steepness_of self.
Proof. unfold steepness_of. destruct (String.eqb _ _); lra. Qed.

Lemma saturation_increasing (intensity_half x y : R) :
  0 < intensity_half -> x <= y ->
  saturation intensity_half x <= saturation intensity_half y.
Proof.
  intros Hh Hxy. unfold saturation.
  assert (Hle : exp (- (y - intensity_half * 2) / intensity_half)
                <= exp (- (x - intensity_half * 2) / intensity_half)).
  { apply exp_le_compat. unfold Rdiv.
    apply Rmult_le_compat_r; [left; apply Rinv_0_lt_compat; exact Hh |].
    lra. }
  lra.
Qed.

Lemma clip_monotone (lo hi x y : R) : x <= y -> clip lo hi x <= clip lo hi y.
Proof.
  intros H. unfold clip.
  apply Rle_min_compat_r. apply Rle_max_compat_r. exact H.
Qed.

(** The part of [impact_at] before the early-warning scaling and the clip. *)
Lemma impact_at_regimes (self : t) (threshold intensity_half : R)
  (context : HazardContext) (intensity_max x : R) :
  exists m : R,
    impact_at self threshold intensity_half context intensity_max x
    = clip 0 0.95
        (if Rgtb (early_warning_coverage context) 0.7
         then m * (0.85 + 0.15 * (x / intensity_max)) else m)
    /\ (x < threshold -> x <= intensity_half * 2 -> m = 0)
    /\ (threshold <= x -> x < intensity_half * 0.5 ->
        x <= intensity_half * 2 ->
        m = ramp threshold intensity_half x
              (sigmoid (steepness_of self) intensity_half x))
    /\ (threshold <= x -> intensity_half * 0.5 <= x ->
        x <= intensity_half * 2 ->
        m = sigmoid (steepness_of self) intensity_half x)
    /\ (intensity_half * 2 < x -> m = saturation intensity_half x).
Proof.
  unfold impact_at. eexists. split; [reflexivity |].
  repeat split; intros; Rdecide; reflexivity.
Qed.

(** Above the threshold the curve does not decrease as long as the intensity
    stays at or below twice the half-impact intensity. *)
Lemma impact_at_monotone_to_saturation (self : t)
  (threshold intensity_half : R) (context : HazardContext)
  (intensity_max x y : R) :
  0 < intensity_half -> 0 <= threshold -> 0 < intensity_max ->
  threshold <= x -> x <= y -> y <= intensity_half * 2 ->
  impact_at self threshold intensity_half context intensity_max x
  <= impact_at self threshold intensity_half context intensity_max y.
Proof.
  intros Hh Ht Hmax Hx Hxy Hy.
  destruct (impact_at_regimes self threshold intensity_half context
              intensity_max x) as [mx [-> [_ [Hlx [Hmx _]]]]].
  destruct (impact_at_regimes self threshold intensity_half context
              intensity_max y) as [my [-> [_ [Hly [Hmy _]]]]].
  pose proof (steepness_of_pos self) as Hk.
  pose proof (sigmoid_pos (steepness_of self) intensity_half x) as Hsx.
  pose proof (sigmoid_pos (steepness_of self) intensity_half y) as Hsy.
  pose proof (sigmoid_increasing (steepness_of self) intensity_half x y
                Hk Hh Hxy) as Hs.
  assert (Hm : 0 <= mx <= my).
  { destruct (Rlt_dec x (intensity_half * 0.5)) as [Lx | Lx];
      destruct (Rlt_dec y (intensity_half * 0.5)) as [Ly | Ly].
    - rewrite Hlx, Hly by lra. unfold ramp.
      set (d := intensity_half * 0.5 - threshold).
      assert (Hd : 0 < d) by (unfold d; lra).
      assert (Hfx : 0 <= (x - threshold) / d).
      { apply Rmult_le_pos; [lra | left; apply Rinv_0_lt_compat; exact Hd]. }
      assert (Hfxy : (x - threshold) / d <= (y - threshold) / d).
      { unfold Rdiv. apply Rmult_le_compat_r;
          [left; apply Rinv_0_lt_compat; exact Hd | lra]. }
      split; [apply Rmult_le_pos; lra |].
      apply Rmult_le_compat; lra.
    - rewrite Hlx, Hmy by lra. unfold ramp.
      set (d := intensity_half * 0.5 - threshold).
      assert (Hd : 0 < d) by (unfold d; lra).
      assert (Hfx : 0 <= (x - threshold) / d).
      { apply Rmult_le_pos; [lra | left; apply Rinv_0_lt_compat; exact Hd]. }
      assert (Hfx1 : (x - threshold) / d <= 1).
      { apply Rmult_le_reg_r with d; [exact Hd |].
        unfold Rdiv. rewrite Rmult_assoc, Rinv_l by lra. unfold d. lra. }
      split; [apply Rmult_le_pos; lra |].
      apply Rle_trans with (sigmoid (steepness_of self) intensity_half x);
        [| exact Hs].
      rewrite <- (Rmult_1_r (sigmoid (steepness_of self) intensity_half x))
        at 2.
      apply Rmult_le_compat_l; lra.
    - lra.
    - rewrite Hmx, Hmy by lra. lra. }
  apply clip_monotone.
  destruct (Rgtb (early_warning_coverage context) 0.7); [| lra].
  assert (Hqx : 0 <= x / intensity_max).
  { apply Rmult_le_pos; [lra | left; apply Rinv_0_lt_compat; exact Hmax]. }
  assert (Hq : x / intensity_max <= y / intensity_max).
  { unfold Rdiv. apply Rmult_le_compat_r;
      [left; apply Rinv_0_lt_compat; exact Hmax | lra]. }
  apply Rmult_le_compat; lra.
Qed.

(** Beyond twice the half-impact intensity the curve does not decrease
    either. *)
Lemma impact_at_monotone_in_saturation (self : t)
  (threshold intensity_half : R) (context : HazardContext)
  (intensity_max x y : R) :
  0 < intensity_half -> 0 < intensity_max ->
  intensity_half * 2 < x -> x <= y ->
  impact_at self threshold intensity_half context intensity_max x
  <= impact_at self threshold intensity_half context intensity_max y.
Proof.
  intros Hh Hmax Hx Hxy.
  destruct (impact_at_regimes self threshold intensity_half context
              intensity_max x) as [mx [-> [_ [_ [_ Hsx]]]]].
  destruct (impact_at_regimes self threshold intensity_half context
              intensity_max y) as [my [-> [_ [_ [_ Hsy]]]]].
  rewrite Hsx, Hsy by lra.
  pose proof (saturation_increasing intensity_half x y Hh Hxy) as Hs.
  pose proof (saturation_bounds intensity_half x Hh) as Hbx.
  apply clip_monotone.
  destruct (Rgtb (early_warning_coverage context) 0.7); [| lra].
  assert (Hqx : 0 <= x / intensity_max).
  { apply Rmult_le_pos; [lra | left; apply Rinv_0_lt_compat; exact Hmax]. }
  assert (Hq : x / intensity_max <= y / intensity_max).
  { unfold Rdiv. apply Rmult_le_compat_r;
      [left; apply Rinv_0_lt_compat; exact Hmax | lra]. }
  apply Rmult_le_compat; lra.
Qed.

Lemma benue_no_early_warning_scaling :
  Rgtb (early_warning_coverage benue_context) 0.7 = false.
Proof. apply Rgtb_false. simpl. lra. Qed.

Lemma flood_curve_at_2 (intensity_max : R) :
  impact_at flood_function 0.3 1 benue_context intensity_max 2 = 0.95.
Proof.
  unfold impact_at. rewrite benue_no_early_warning_scaling.
  assert (H1 : Rltb 2 0.3 = false) by (apply Rltb_false; lra).
  assert (H2 : Rgeb 2 0.3 && Rltb 2 (1 * 0.5) = false).
  { apply andb_false_iff. right. apply Rltb_false. lra. }
  assert (H3 : Rgtb 2 (1 * 2) = false) by (apply Rgtb_false; lra).
  rewrite H1, H2, H3.
  apply clip_above; [lra |].
  apply Rle_trans with (1 / (1 + / 19)); [lra |].
  apply sigmoid_lower; [lra |].
  unfold steepness_of. simpl.
  replace (5 * (2 - 1) / 1) with 5 by lra.
  pose proof (exp_ge_pow4 5). lra.
Qed.

Lemma flood_curve_at_205 (intensity_max : R) :
  impact_at flood_function 0.3 1 benue_context intensity_max 2.05 <= 0.857.
Proof.
  unfold impact_at. rewrite benue_no_early_warning_scaling.
  assert (H3 : Rgtb 2.05 (1 * 2) = true) by (apply Rgtb_true; lra).
  rewrite H3.
  apply clip_le; [| lra].
  pose proof (saturation_bounds 1 2.05). lra.
Qed.

Lemma conflict_curve_at_80 (intensity_max : R) :
  0.9 <= impact_at conflict_function 10 40 benue_context intensity_max 80.
Proof.
  unfold impact_at. rewrite benue_no_early_warning_scaling.
  assert (H1 : Rltb 80 10 = false) by (apply Rltb_false; lra).
  assert (H2 : Rgeb 80 10 && Rltb 80 (40 * 0.5) = false).
  { apply andb_false_iff. right. apply Rltb_false. lra. }
  assert (H3 : Rgtb 80 (40 * 2) = false) by (apply Rgtb_false; lra).
  rewrite H1, H2, H3.
  apply clip_ge; [| lra].
  apply Rle_trans with (1 / (1 + / 9)); [lra |].
  apply sigmoid_lower; [lra |].
  unfold steepness_of. simpl.
  replace (3 * (80 - 40) / 40) with 3 by lra.
  pose proof (exp_ge_pow4 3). lra.
Qed.

Lemma conflict_curve_at_82 (intensity_max : R) :
  impact_at conflict_function 10 40 benue_context intensity_max 82 <= 0.857.
Proof.
  unfold impact_at. rewrite benue_no_early_warning_scaling.
  assert (H3 : Rgtb 82 (40 * 2) = true) by (apply Rgtb_true; lra).
  rewrite H3.
  apply clip_le; [| lra].
  pose proof (saturation_bounds 40 82). lra.
Qed.

(** C3, evaluated on the code: the curve falls when the intensity passes
    twice the half-impact intensity.  On the flood grid (threshold 0.3 m,
    half-impact 1 m) it is 0.95 at 2.0 m and at most 0.857 at 2.05 m; on the
    conflict grid (threshold 10, half-impact 40) it is at least 0.9 at 80 and
    at most 0.857 at 82.  Both intensities lie above the threshold and both
    drops exceed 0.01. *)
Theorem create_impact_curve_drops_at_saturation :
  (exists mdd : ndarray,
      _create_impact_curve flood_function (arange 120 0.05) 0.3 1 benue_context
      = Ok mdd
      /\ nth 40 (arange 120 0.05) 0 = 2
      /\ nth 41 (arange 120 0.05) 0 = 2.05
      /\ nth 40 mdd 0 = 0.95
      /\ nth 41 mdd 0 <= 0.857
      /\ nth 41 mdd 0 + 0.01 < nth 40 mdd 0)
  /\ (exists mdd : ndarray,
         _create_impact_curve conflict_function (arange 125 2) 10 40 benue_context
         = Ok mdd
         /\ nth 40 (arange 125 2) 0 = 80
         /\ nth 41 (arange 125 2) 0 = 82
         /\ 0.9 <= nth 40 mdd 0
         /\ nth 41 mdd 0 <= 0.857
         /\ nth 41 mdd 0 + 0.01 < nth 40 mdd 0).
Proof.
  split.
  - destruct (create_impact_curve_returns flood_function (arange 120 0.05)
                0.3 1 benue_context (arange_nonempty _ _)) as [m [_ Hc]].
    eexists. split; [exact Hc |].
    assert (H40 : nth 40 (arange 120 0.05) 0 = 2).
    { rewrite nth_arange by lia. simpl. lra. }
    assert (H41 : nth 41 (arange 120 0.05) 0 = 2.05).
    { rewrite nth_arange by lia. simpl. lra. }
    split; [exact H40 |]. split; [exact H41 |].
    rewrite !(nth_map_in _ _ _ _ 0) by (rewrite length_arange; lia).
    rewrite H40, H41.
    pose proof (flood_curve_at_2 m) as Ha.
    pose proof (flood_curve_at_205 m) as Hb.
    repeat split; lra.
  - destruct (create_impact_curve_returns conflict_function (arange 125 2)
                10 40 benue_context (arange_nonempty _ _)) as [m [_ Hc]].
    eexists. split; [exact Hc |].
    assert (H40 : nth 40 (arange 125 2) 0 = 80).
    { rewrite nth_arange by lia. simpl. lra. }
    assert (H41 : nth 41 (arange 125 2) 0 = 82).
    { rewrite nth_arange by lia. simpl. lra. }
    split; [exact H40 |]. split; [exact H41 |].
    rewrite !(nth_map_in _ _ _ _ 0) by (rewrite length_arange; lia).
    rewrite H40, H41.
    pose proof (conflict_curve_at_80 m) as Ha.
    pose proof (conflict_curve_at_82 m) as Hb.
    repeat split; lra.
Qed.

End ImpactCurveValues.

(** ** Multi-hazard combination *)

Lemma length_zip_with {A B C : Type} (f : A -> B -> C) (a : list A)
  (b : list B) :
  List.length (zip_with f a b) = Nat.min (List.length a) (List.length b).
Proof.
  revert b. induction a as [| x a IH]; intros [| y b]; simpl; auto.
Qed.

Lemma broadcast2_same_length {A B C : Type} (f : A -> B -> C) (a : list A)
  (b : list B) :
  List.length a = List.length b -> broadcast2 f a b = Ok (zip_with f a b).
Proof.
  intros H. unfold broadcast2. rewrite H, Nat.eqb_refl. reflexivity.
Qed.

Lemma inplace2_same_length {A B : Type} (f : A -> B -> A) (a : list A)
  (b : list B) :
  List.length a = List.length b -> inplace2 f a b = Ok (zip_with f a b).
Proof.
  intros H. unfold inplace2. rewrite H, Nat.eqb_refl. reflexivity.
Qed.

Lemma zip_with_Forall {A B C : Type} (f : A -> B -> C) (P : A -> Prop)
  (Q : B -> Prop) (S : C -> Prop) :
  (forall x y, P x -> Q y -> S (f x y)) ->
  forall (a : list A) (b : list B),
    Forall P a -> Forall Q b -> Forall S (zip_with f a b).
Proof.
  intros Hf a. induction a as [| x a IH]; intros [| y b] Ha Hb; simpl;
    try constructor.
  - inversion Ha; inversion Hb; subst. auto.
  - inversion Ha; inversion Hb; subst. auto.
Qed.

Lemma map_Forall {A B : Type} (f : A -> B) (P : A -> Prop) (Q : B -> Prop) :
  (forall x, P x -> Q (f x)) ->
  forall a : list A, Forall P a -> Forall Q (map f a).
Proof.
  intros Hf a Ha. induction Ha; simpl; constructor; auto.
Qed.

(** A property of both operands that the operation preserves holds of every
    element of a broadcast result. *)
Lemma broadcast2_Forall {A B C : Type} (f : A -> B -> C) (P : A -> Prop)
  (Q : B -> Prop) (S : C -> Prop) (a : list A) (b : list B) (c : list C) :
  (forall x y, P x -> Q y -> S (f x y)) ->
  Forall P a -> Forall Q b -> broadcast2 f a b = Ok c -> Forall S c.
Proof.
  intros Hf Ha Hb. unfold broadcast2.
  destruct (Nat.eqb (List.length a) (List.length b)).
  - intros [= <-]. apply zip_with_Forall with (P := P) (Q := Q); assumption.
  - destruct a as [| x [| x' a]].
    + destruct b as [| y [| y' b]]; try discriminate.
      intros [= <-]. constructor.
    + intros [= <-]. inversion Ha; subst.
      exact (map_Forall (f x) Q S (fun y Hy => Hf x y H1 Hy) b Hb).
    + destruct b as [| y [| y' b]]; try discriminate.
      intros [= <-]. inversion Hb; subst.
      exact (map_Forall (fun x0 => f x0 y) P S
               (fun x0 Hx0 => Hf x0 y Hx0 H1) (x :: x' :: a) Ha).
Qed.

Lemma np_clip_Forall_upper (a : ndarray) (lo hi : R) :
  Forall (fun x => x <= hi) (np_clip a lo hi).
Proof.
  unfold np_clip. apply Forall_forall. intros x Hx.
  apply in_map_iff in Hx. destruct Hx as [y [<- _]]. apply clip_upper.
Qed.

Lemma np_clip_Forall_lower (a : ndarray) (lo hi : R) :
  lo <= hi -> Forall (fun x => lo <= x) (np_clip a lo hi).
Proof.
  intros H. unfold np_clip. apply Forall_forall. intros x Hx.
  apply in_map_iff in Hx. destruct Hx as [y [<- _]]. apply clip_lower, H.
Qed.

Lemma np_max_of_length (a : ndarray) :
  (0 < List.length a)%nat -> exists m, np_max a = Ok m.
Proof.
  intros H. apply np_max_nonempty. intros ->. simpl in H. lia.
Qed.

(** Invert a successful run of binds in hypothesis [H]. *)
Ltac bind_inv H :=
  unfold bind in H;
  repeat match type of H with
         | context [match ?m with Ok _ => _ | Raise _ => _ end] =>
             let E := fresh "Estep" in
             destruct m eqn:E; [| discriminate H]
         end.

Section Combination.
Import MultiHazardInteraction.

Lemma clip_Forall_both (a : ndarray) :
  Forall (fun x => 0 <= x <= 0.95) (np_clip a 0 0.95).
Proof.
  unfold np_clip. apply Forall_forall. intros x Hx.
  apply in_map_iff in Hx. destruct Hx as [y [<- _]].
  split; [apply clip_lower; lra | apply clip_upper].
Qed.

(** The sophisticated combination ends with a clip: whenever it returns,
    every element of the combined array lies in [0, 0.95]. *)
Lemma sophisticated_ceiling (self : t)
  (flood_intensity conflict_intensity flood_impact conflict_impact : ndarray)
  (context : HazardContext) (combined : ndarray) (metrics : Metrics) :
  _sophisticated_combination self flood_intensity conflict_intensity
    flood_impact conflict_impact context = Ok (combined, metrics) ->
  Forall (fun x => 0 <= x <= 0.95) combined /\ method metrics = "sophisticated".
Proof.
  intros H. unfold _sophisticated_combination in H.
  bind_inv H. injection H as <- <-.
  split; [apply clip_Forall_both | reflexivity].
Qed.

(** Any method name other than the two simple ones runs the sophisticated
    combination. *)
Lemma combine_hazards_dispatch (self : t)
  (flood_intensity conflict_intensity flood_impact conflict_impact : ndarray)
  (context : HazardContext) (method_name : string) :
  method_name <> "simple_max" -> method_name <> "weighted_sum" ->
  combine_hazards self flood_intensity conflict_intensity flood_impact
    conflict_impact context method_name
  = _sophisticated_combination self flood_intensity conflict_intensity
      flood_impact conflict_impact context.
Proof.
  intros H1 H2. unfold combine_hazards.
  apply String.eqb_neq in H1. apply String.eqb_neq in H2.
  rewrite H1, H2. reflexivity.
Qed.

(** Broadcasting, index by index. *)
Lemma broadcast_at_nth (a : ndarray) (k : nat) :
  (k < List.length a)%nat -> broadcast_at a k = nth k a 0.
Proof.
  destruct a as [| x [| x' a]]; simpl; intros H; try reflexivity.
  destruct k as [| k]; [reflexivity | lia].
Qed.

Lemma broadcast_at_In (a : ndarray) (k : nat) :
  in_shape a k -> In (broadcast_at a k) a.
Proof.
  intros [H | H].
  - rewrite broadcast_at_nth by exact H. apply nth_In. exact H.
  - destruct a as [| x [| x' a]]; try discriminate H. left. reflexivity.
Qed.

Lemma in_shape_map (g : R -> R) (a : ndarray) (k : nat) :
  in_shape (map g a) k <-> in_shape a k.
Proof. unfold in_shape. rewrite length_map. tauto. Qed.

Lemma broadcast_at_map (g : R -> R) (a : ndarray) (k : nat) :
  in_shape a k -> broadcast_at (map g a) k = g (broadcast_at a k).
Proof.
  intros H. destruct a as [| x [| x' a]].
  - destruct H as [H | H]; simpl in H; [lia | discriminate H].
  - reflexivity.
  - destruct H as [H | H]; [| discriminate H].
    change (nth k (map g (x :: x' :: a)) 0 = g (nth k (x :: x' :: a) 0)).
    rewrite (nth_indep _ 0 (g 0)) by (rewrite length_map; exact H).
    apply map_nth.
Qed.

Lemma nth_zip_with (f : R -> R -> R) (a b : ndarray) (k : nat) :
  (k < List.length a)%nat -> (k < List.length b)%nat ->
  nth k (zip_with f a b) 0 = f (nth k a 0) (nth k b 0).
Proof.
  revert b k. induction a as [| x a IH]; intros [| y b] [| k] Ha Hb;
    simpl in *; try lia; try reflexivity.
  apply IH; lia.
Qed.

(** Every element of a broadcast result is the operation applied to the
    elements that the two operands hold at that index. *)
Lemma broadcast2_at (f : R -> R -> R) (a b c : ndarray) (k : nat) :
  broadcast2 f a b = Ok c -> in_shape c k ->
  in_shape a k /\ in_shape b k
  /\ broadcast_at c k = f (broadcast_at a k) (broadcast_at b k).
Proof.
  unfold broadcast2.
  destruct (Nat.eqb (List.length a) (List.length b)) eqn:E.
  - apply Nat.eqb_eq in E. intros [= <-] Hk.
    assert (L : List.length (zip_with f a b) = List.length a)
      by (rewrite length_zip_with; lia).
    unfold in_shape in *. rewrite L in Hk. rewrite <- E.
    split; [exact Hk |]. split; [exact Hk |].
    destruct a as [| x [| x' a]]; destruct b as [| y [| y' b]];
      try discriminate E.
    + destruct Hk as [Hk | Hk]; simpl in Hk; [lia | discriminate Hk].
    + reflexivity.
    + destruct Hk as [Hk | Hk]; [| discriminate Hk].
      change (nth k (zip_with f (x :: x' :: a) (y :: y' :: b)) 0
              = f (nth k (x :: x' :: a) 0) (nth k (y :: y' :: b) 0)).
      apply nth_zip_with; [exact Hk | rewrite <- E; exact Hk].
  - destruct a as [| x [| x' a]].
    + destruct b as [| y [| y' b]]; try discriminate.
      intros [= <-] [Hk | Hk]; simpl in Hk; [lia | discriminate Hk].
    + intros [= <-] Hk. apply in_shape_map in Hk.
      split; [right; reflexivity |]. split; [exact Hk |].
      apply (broadcast_at_map (f x)). exact Hk.
    + destruct b as [| y [| y' b]]; try discriminate.
      intros [= <-] Hk.
      apply (in_shape_map (fun x0 => f x0 y) (x :: x' :: a)) in Hk.
      split; [exact Hk |]. split; [right; reflexivity |].
      apply (broadcast_at_map (fun x0 => f x0 y) (x :: x' :: a)). exact Hk.
Qed.

(** The weighted average of two impacts no larger than [c], with the weight
    of [weighted_sum], is no larger than [c]. *)
Lemma weighted_pair_bound (i j p q c : R) :
  0 <= i -> 0 <= j -> p <= c -> q <= c ->
  i / (i + j + 1e-10) * p + (1 - i / (i + j + 1e-10)) * q <= c.
Proof.
  intros Hi Hj Hp Hq.
  set (w := i / (i + j + 1e-10)).
  assert (Hden : 0 < i + j + 1e-10) by lra.
  assert (Hw : 0 <= w <= 1).
  { unfold w. split.
    - apply Rmult_le_pos; [lra |]. left. apply Rinv_0_lt_compat. exact Hden.
    - apply Rmult_le_reg_r with (i + j + 1e-10); [exact Hden |].
      unfold Rdiv. rewrite Rmult_assoc, Rinv_l by lra. lra. }
  nra.
Qed.

(** Example scenario 2 of the specification. *)
Example simple_max_scenario2 :
  combine_hazards sample_combiner [0.5; 1.0] [10; 20] [0.1; 0.5] [0.3; 0.2]
    benue_context "simple_max"
  = Ok ([0.3; 0.5], {| method := "max"; entries := [("interaction", 0)] |}).
Proof.
  unfold combine_hazards. cbn.
  rewrite (Rmax_right 0.1 0.3) by lra.
  rewrite (Rmax_left 0.5 0.2) by lra.
  reflexivity.
Qed.

(** C5 as stated fails: [simple_max] returns the larger input impact
    unclipped, here 1.0. *)
Lemma combine_hazards_simple_max_exceeds_ceiling :
  exists (combined : ndarray) (metrics : Metrics),
    combine_hazards sample_combiner [1.5] [30] [1.0] [0.5] benue_context
      "simple_max" = Ok (combined, metrics)
    /\ ~ Forall (fun x => x <= 0.95) combined.
Proof.
  eexists. eexists. split.
  - reflexivity.
  - intros H. inversion H; subst.
    unfold Rmax in *. destruct (Rle_dec 1.0 0.5); lra.
Qed.

(** C5, amended: the sophisticated combination, used for every method name
    other than [simple_max] and [weighted_sum], never returns an element
    above 0.95.  [simple_max] and [weighted_sum] do not clip; whenever they
    return, for arrays of one length or broadcast against one-element
    arrays, their result stays at or below 0.95 when both input impacts do
    and, for [weighted_sum], the intensities are non-negative. *)
Theorem combine_hazards_ceiling (self : t)
  (flood_intensity conflict_intensity flood_impact conflict_impact : ndarray)
  (context : HazardContext) (method_name : string)
  (combined : ndarray) (metrics : Metrics) :
  combine_hazards self flood_intensity conflict_intensity flood_impact
    conflict_impact context method_name = Ok (combined, metrics) ->
  (method_name = "simple_max" \/ method_name = "weighted_sum" ->
   Forall (fun x => x <= 0.95) flood_impact
   /\ Forall (fun x => x <= 0.95) conflict_impact) ->
  (method_name = "weighted_sum" ->
   Forall (fun x => 0 <= x) flood_intensity
   /\ Forall (fun x => 0 <= x) conflict_intensity) ->
  Forall (fun x => x <= 0.95) combined.
Proof.
  intros H Himp Hint. unfold combine_hazards in H.
  destruct (String.eqb method_name "simple_max") eqn:E1.
  { apply String.eqb_eq in E1.
    destruct (Himp (or_introl E1)) as [Hf Hc].
    bind_inv H. injection H as <- _.
    apply (broadcast2_Forall Rmax (fun x => x <= 0.95) (fun x => x <= 0.95)
             (fun x => x <= 0.95) flood_impact conflict_impact);
      try assumption.
    intros x y Hx Hy. apply Rmax_lub; assumption. }
  destruct (String.eqb method_name "weighted_sum") eqn:E2.
  { apply String.eqb_eq in E2.
    destruct (Himp (or_intror E2)) as [Hf Hc].
    destruct (Hint E2) as [Hfi Hci].
    bind_inv H. injection H as <- _.
    rename Estep into Htotal, Estep0 into Hweight, Estep1 into Hfpart,
      Estep2 into Hcpart, Estep3 into Hsum.
    apply Forall_forall. intros v Hv.
    destruct (In_nth _ _ 0 Hv) as [k [Hk <-]].
    rewrite <- broadcast_at_nth by exact Hk.
    destruct (broadcast2_at _ _ _ _ k Hsum (or_introl Hk))
      as [Kfp [Kcp ->]].
    destruct (broadcast2_at _ _ _ _ k Hfpart Kfp) as [Kw [Kp ->]].
    destruct (broadcast2_at _ _ _ _ k Hcpart Kcp) as [Kw' [Kq ->]].
    rewrite broadcast_at_map by exact Kw.
    destruct (broadcast2_at _ _ _ _ k Hweight Kw) as [Ki [Kt ->]].
    apply in_shape_map in Kt.
    rewrite broadcast_at_map by exact Kt.
    destruct (broadcast2_at _ _ _ _ k Htotal Kt) as [_ [Kj ->]].
    pose proof (proj1 (Forall_forall _ _) Hfi _ (broadcast_at_In _ _ Ki)).
    pose proof (proj1 (Forall_forall _ _) Hci _ (broadcast_at_In _ _ Kj)).
    pose proof (proj1 (Forall_forall _ _) Hf _ (broadcast_at_In _ _ Kp)).
    pose proof (proj1 (Forall_forall _ _) Hc _ (broadcast_at_In _ _ Kq)).
    apply weighted_pair_bound; assumption. }
  apply sophisticated_ceiling in H. destruct H as [H _].
  eapply Forall_impl; [| exact H]. intros x Hx. apply Hx.
Qed.

Lemma combine_hazards_ceiling_witness :
  exists (combined : ndarray) (metrics : Metrics),
    combine_hazards sample_combiner [1] [1; 3] [0.95; 0.5] [0.2; 0.95]
      benue_context "weighted_sum" = Ok (combined, metrics)
    /\ Forall (fun x => x <= 0.95) combined.
Proof.
  eexists. eexists. split.
  - reflexivity.
  - apply (combine_hazards_ceiling sample_combiner [1] [1; 3] [0.95; 0.5]
             [0.2; 0.95] benue_context "weighted_sum" _ _ eq_refl).
    + intros _. split; repeat constructor; lra.
    + intros _. split; repeat constructor; lra.
Defined.

(** The intensities of [weighted_sum] have to be non-negative for its bound:
    a negative conflict intensity puts the flood weight above 1 and the
    weighted average above both impacts. *)
Example weighted_sum_negative_intensity :
  exists (combined : ndarray) (metrics : Metrics),
    combine_hazards sample_combiner [2] [-1] [0.95] [0] benue_context
      "weighted_sum" = Ok (combined, metrics)
    /\ ~ Forall (fun x => x <= 0.95) combined.
Proof.
  eexists. eexists. split.
  - reflexivity.
  - intros H. inversion H as [| x l Hx _]; subst. clear H.
    assert (Hw : 1.9 <= 2 / (2 + -1 + 1e-10)).
    { apply Rmult_le_reg_r with (2 + -1 + 1e-10); [lra |].
      unfold Rdiv. rewrite Rmult_assoc, Rinv_l by lra. lra. }
    lra.
Qed.

Lemma zip_with_repeat {A B C : Type} (f : A -> B -> C) (x : A) (y : B)
  (n : nat) :
  zip_with f (repeat x n) (repeat y n) = repeat (f x y) n.
Proof. induction n as [| n IH]; simpl; [| rewrite IH]; reflexivity. Qed.

Lemma broadcast2_repeat {A B C : Type} (f : A -> B -> C) (x : A) (y : B)
  (n : nat) :
  broadcast2 f (repeat x n) (repeat y n) = Ok (repeat (f x y) n).
Proof.
  rewrite broadcast2_same_length by (rewrite !repeat_length; reflexivity).
  rewrite zip_with_repeat. reflexivity.
Qed.

Lemma inplace2_repeat {A B : Type} (f : A -> B -> A) (x : A) (y : B)
  (n : nat) :
  inplace2 f (repeat x n) (repeat y n) = Ok (repeat (f x y) n).
Proof.
  rewrite inplace2_same_length by (rewrite !repeat_length; reflexivity).
  rewrite zip_with_repeat. reflexivity.
Qed.

Lemma np_max_repeat (x : R) (n : nat) : np_max (repeat x (S n)) = Ok x.
Proof.
  simpl. f_equal. induction n as [| n IH]; simpl; [reflexivity |].
  rewrite Rmax_left by lra. exact IH.
Qed.

Lemma fold_left_Rplus_repeat (x acc : R) (n : nat) :
  fold_left Rplus (repeat x n) acc = acc + INR n * x.
Proof.
  revert acc. induction n as [| n IH]; intros acc.
  - simpl. lra.
  - cbn [repeat fold_left]. rewrite IH, S_INR. lra.
Qed.

Lemma np_mean_repeat (x : R) (n : nat) : np_mean (repeat x (S n)) = x.
Proof.
  unfold np_mean, np_sum. rewrite fold_left_Rplus_repeat, repeat_length.
  assert (H : INR (S n) <> 0) by (apply not_0_INR; discriminate).
  field. exact H.
Qed.

Lemma np_any_repeat_true (n : nat) : np_any (repeat true (S n)) = true.
Proof. reflexivity. Qed.

Lemma np_clip_repeat (x lo hi : R) (n : nat) :
  np_clip (repeat x n) lo hi = repeat (clip lo hi x) n.
Proof. unfold np_clip. apply map_repeat. Qed.

Lemma clip_gt (lo hi x v : R) : v < x -> v < hi -> v < clip lo hi x.
Proof.
  intros H1 H2. unfold clip. apply Rmin_glb_lt; [| exact H2].
  apply Rlt_le_trans with x; [exact H1 | apply Rmax_l].
Qed.

Lemma interaction_base_gt_1 (self : t) (context : HazardContext) :
  1 < flood_conflict_interaction (vulnerability (config self)) ->
  1 < interaction_base_of self context.
Proof.
  intros H. unfold interaction_base_of.
  destruct (Rltb _ _); destruct (Rgtb _ _); lra.
Qed.

(** C6: two hazards of constant impact 0.4 whose intensities are constant,
    hence at their own maximum everywhere, with both normalised intensities
    above the co-occurrence level 0.1: if the configured interaction
    coefficient exceeds 1 (and the infrastructure quality is on its 0-1
    scale), the sophisticated combination returns and the mean of the
    combined impact is strictly above 0.4, the element-wise maximum. *)
Theorem sophisticated_compounding_dominance (self : t)
  (context : HazardContext) (n : nat) (flood_level conflict_level : R) :
  (0 < n)%nat ->
  1 < flood_conflict_interaction (vulnerability (config self)) ->
  infrastructure_quality context <= 1 ->
  0.1 < flood_level / (flood_level + 1e-10) ->
  0.1 < conflict_level / (conflict_level + 1e-10) ->
  exists (combined : ndarray) (metrics : Metrics),
    combine_hazards self (repeat flood_level n) (repeat conflict_level n)
      (repeat 0.4 n) (repeat 0.4 n) context "sophisticated"
    = Ok (combined, metrics)
    /\ List.length combined = n
    /\ np_mean (zip_with Rmax (repeat 0.4 n) (repeat 0.4 n)) = 0.4
    /\ 0.4 < np_mean combined.
Proof.
  intros Hn Hib Hiq Hf Hc.
  destruct n as [| k]; [lia |].
  pose proof (interaction_base_gt_1 self context Hib) as Hib'.
  set (fn := flood_level / (flood_level + 1e-10)) in *.
  set (cn := conflict_level / (conflict_level + 1e-10)) in *.
  unfold combine_hazards. cbn [String.eqb Ascii.eqb Bool.eqb].
  unfold _sophisticated_combination.
  rewrite !np_max_repeat. cbn [bind].
  rewrite !map_repeat. fold fn. fold cn.
  rewrite (broadcast2_repeat Rmax), (broadcast2_repeat andb). cbn [bind].
  assert (Hfb : Rgtb fn 0.1 = true) by (apply Rgtb_true; lra).
  assert (Hcb : Rgtb cn 0.1 = true) by (apply Rgtb_true; lra).
  rewrite Hfb, Hcb. cbn [andb]. rewrite np_any_repeat_true.
  rewrite (broadcast2_repeat Rmult). cbn [bind mul_factor].
  rewrite !map_repeat, (broadcast2_repeat Rmult). cbn [bind].
  rewrite !np_mean_repeat. clearbody fn cn.
  assert (Hprod : 0 < (interaction_base_of self context - 1) * fn * cn).
  { repeat apply Rmult_lt_0_compat; lra. }
  assert (Hcasc : 0 <= fn * (1 - infrastructure_quality context)).
  { apply Rmult_le_pos; lra. }
  rewrite (Rmax_left 0.4 0.4) by lra.
  destruct (Rgtb fn 0.5) eqn:Efn; destruct (Rgtb cn 0.5) eqn:Ecn;
    rewrite ?(inplace2_repeat Rplus); cbn [bind];
    rewrite ?(inplace2_repeat Rplus); cbn [bind];
    rewrite np_clip_repeat, np_max_repeat; cbn [bind];
    (eexists; eexists;
     split; [reflexivity |];
     split; [apply repeat_length |];
     split; [rewrite zip_with_repeat, np_mean_repeat; apply Rmax_left; lra |];
     rewrite np_mean_repeat; apply clip_gt; [| lra]; lra).
Qed.

Lemma sophisticated_compounding_dominance_witness :
  exists (combined : ndarray) (metrics : Metrics),
    combine_hazards sample_combiner (repeat 1.5 100) (repeat 30 100)
      (repeat 0.4 100) (repeat 0.4 100) benue_context "sophisticated"
    = Ok (combined, metrics)
    /\ List.length combined = 100%nat
    /\ np_mean (zip_with Rmax (repeat 0.4 100) (repeat 0.4 100)) = 0.4
    /\ 0.4 < np_mean combined.
Proof.
  apply (sophisticated_compounding_dominance sample_combiner benue_context
           100 1.5 30).
  - lia.
  - simpl. lra.
  - simpl. lra.
  - apply Rmult_lt_reg_r with (1.5 + 1e-10); [lra |].
    unfold Rdiv. rewrite Rmult_assoc, Rinv_l by lra. lra.
  - apply Rmult_lt_reg_r with (30 + 1e-10); [lra |].
    unfold Rdiv. rewrite Rmult_assoc, Rinv_l by lra. lra.
Defined.

Lemma length_np_clip (a : ndarray) (lo hi : R) :
  List.length (np_clip a lo hi) = List.length a.
Proof. unfold np_clip. apply length_map. Qed.

Create Rewrite HintDb lens.
#[local] Hint Rewrite @length_map @length_zip_with length_np_clip : lens.

Ltac solve_len := autorewrite with lens; lia.

(** On four non-empty arrays of one length the sophisticated combination
    returns an array of that length. *)
Lemma sophisticated_returns (self : t)
  (flood_intensity conflict_intensity flood_impact conflict_impact : ndarray)
  (context : HazardContext) :
  flood_intensity <> [] ->
  List.length flood_intensity = List.length conflict_intensity ->
  List.length flood_intensity = List.length flood_impact ->
  List.length flood_intensity = List.length conflict_impact ->
  exists (combined : ndarray) (metrics : Metrics),
    _sophisticated_combination self flood_intensity conflict_intensity
      flood_impact conflict_impact context = Ok (combined, metrics)
    /\ method metrics = "sophisticated"
    /\ List.length combined = List.length flood_intensity.
Proof.
  intros Hne L1 L2 L3.
  assert (Hpos : (0 < List.length flood_intensity)%nat).
  { destruct flood_intensity; [congruence | simpl; lia]. }
  destruct (np_max_of_length flood_intensity Hpos) as [fmax Hfmax].
  destruct (np_max_of_length conflict_intensity) as [cmax Hcmax]; [lia |].
  unfold _sophisticated_combination.
  rewrite Hfmax, Hcmax. cbn [bind].
  rewrite (broadcast2_same_length Rmax) by lia. cbn [bind].
  rewrite (broadcast2_same_length andb) by solve_len. cbn [bind].
  set (base := zip_with Rmax flood_impact conflict_impact).
  assert (Lbase : List.length base = List.length flood_intensity)
    by (unfold base; solve_len).
  assert (Hmul : exists (f : factor) (c : ndarray),
             (if np_any
                   (zip_with andb
                      (map (fun x => Rgtb x 0.1)
                         (map (fun x => x / (fmax + 1e-10)) flood_intensity))
                      (map (fun x => Rgtb x 0.1)
                         (map (fun x => x / (cmax + 1e-10)) conflict_intensity)))
              then
                prod <- broadcast2 Rmult
                          (map (fun x => (interaction_base_of self context - 1) * x)
                             (map (fun x => x / (fmax + 1e-10)) flood_intensity))
                          (map (fun x => x / (cmax + 1e-10)) conflict_intensity) ;;
                Ok (Array (map (fun x => 1 + x) prod))
              else Ok (Scalar 1.0)) = Ok f
             /\ mul_factor base f = Ok c
             /\ List.length c = List.length flood_intensity).
  { destruct (np_any _).
    - rewrite (broadcast2_same_length Rmult) by solve_len. cbn [bind].
      eexists. eexists. split; [reflexivity |].
      cbn [mul_factor].
      rewrite (broadcast2_same_length Rmult) by solve_len.
      split; [reflexivity | solve_len].
    - eexists. eexists. split; [reflexivity |].
      cbn [mul_factor]. split; [reflexivity | solve_len]. }
  destruct Hmul as [f [c [Hf [Hc Lc]]]].
  rewrite Hf. cbn [bind]. rewrite Hc. cbn [bind].
  set (step1 := if Rgtb _ 0.5 then inplace2 Rplus c _ else Ok c).
  assert (H1 : exists c1, step1 = Ok c1
                          /\ List.length c1 = List.length flood_intensity).
  { unfold step1. destruct (Rgtb _ 0.5).
    - rewrite (inplace2_same_length Rplus) by solve_len.
      eexists. split; [reflexivity | solve_len].
    - eexists. split; [reflexivity | exact Lc]. }
  destruct H1 as [c1 [Hc1 Lc1]]. rewrite Hc1. clear Hc1 step1. cbn [bind].
  set (step2 := if Rgtb _ 0.5 then inplace2 Rplus c1 _ else Ok c1).
  assert (H2 : exists c2, step2 = Ok c2
                          /\ List.length c2 = List.length flood_intensity).
  { unfold step2. destruct (Rgtb _ 0.5).
    - rewrite (inplace2_same_length Rplus) by solve_len.
      eexists. split; [reflexivity | solve_len].
    - eexists. split; [reflexivity | exact Lc1]. }
  destruct H2 as [c2 [Hc2 Lc2]]. rewrite Hc2. clear Hc2 step2. cbn [bind].
  destruct (np_max_of_length (np_clip c2 0 0.95)) as [top Htop];
    [solve_len |].
  rewrite Htop. cbn [bind].
  eexists. eexists. split; [reflexivity |].
  split; [reflexivity | solve_len].
Qed.

(** C10: a method name that is neither [simple_max] nor [weighted_sum] is
    not rejected: the call is the sophisticated combination of the same
    arguments, and on four non-empty arrays of one length it returns, with
    the metrics of the sophisticated method. *)
Theorem combine_hazards_any_other_method (self : t)
  (flood_intensity conflict_intensity flood_impact conflict_impact : ndarray)
  (context : HazardContext) (method_name : string) :
  method_name <> "simple_max" -> method_name <> "weighted_sum" ->
  combine_hazards self flood_intensity conflict_intensity flood_impact
    conflict_impact context method_name
  = _sophisticated_combination self flood_intensity conflict_intensity
      flood_impact conflict_impact context
  /\ (flood_intensity <> [] ->
      List.length flood_intensity = List.length conflict_intensity ->
      List.length flood_intensity = List.length flood_impact ->
      List.length flood_intensity = List.length conflict_impact ->
      exists (combined : ndarray) (metrics : Metrics),
        combine_hazards self flood_intensity conflict_intensity flood_impact
          conflict_impact context method_name = Ok (combined, metrics)
        /\ method metrics = "sophisticated"
        /\ List.length combined = List.length flood_intensity).
Proof.
  intros H1 H2.
  pose proof (combine_hazards_dispatch self flood_intensity conflict_intensity
                flood_impact conflict_impact context method_name H1 H2) as Hd.
  split; [exact Hd |].
  intros Hne L1 L2 L3. rewrite Hd.
  apply sophisticated_returns; assumption.
Qed.

Lemma combine_hazards_any_other_method_witness :
  exists (combined : ndarray) (metrics : Metrics),
    combine_hazards sample_combiner [0.5; 1.0] [10; 20] [0.1; 0.5] [0.3; 0.2]
      benue_context "sofisticated" = Ok (combined, metrics)
    /\ method metrics = "sophisticated"
    /\ List.length combined = 2%nat.
Proof.
  apply (combine_hazards_any_other_method sample_combiner [0.5; 1.0] [10; 20]
           [0.1; 0.5] [0.3; 0.2] benue_context "sofisticated");
    try discriminate; reflexivity.
Defined.

End Combination.

(** * Further properties of the engine *)

(** ** Quality score and alert confidence *)

Section QualityScore.
Import QualityController.

(** X1: the quality score is never negative, is at most 1 when the three
    quality inputs are, never grows with the number of warnings, and loses
    at most 0.3 to warnings: from three warnings on it no longer changes. *)
Theorem calculate_quality_score_bounds
  (hazard_quality model_confidence data_completeness : R) (n m : nat) :
  let score := calculate_quality_score hazard_quality model_confidence
                 data_completeness in
  0 <= score n
  /\ (hazard_quality <= 1 -> model_confidence <= 1 -> data_completeness <= 1 ->
      score n <= 1)
  /\ ((n <= m)%nat -> score m <= score n)
  /\ ((3 <= n)%nat -> score n = score 3%nat)
  /\ (hazard_quality + model_confidence + data_completeness) / 3 - 0.3
     <= score n.
Proof.
  cbv zeta. unfold calculate_quality_score.
  assert (Hn : 0 <= INR n) by apply pos_INR.
  assert (Hpen : forall k : nat, 0 <= Rmin (0.1 * INR k) 0.3 <= 0.3).
  { intros k. pose proof (pos_INR k). split.
    - apply Rmin_glb; lra.
    - apply Rmin_r. }
  pose proof (Hpen n) as Hpn.
  split; [apply Rmax_l |].
  split.
  { intros H1 H2 H3. apply Rmax_lub; lra. }
  split.
  { intros Hnm. apply le_INR in Hnm.
    apply Rle_max_compat_l.
    assert (Rmin (0.1 * INR n) 0.3 <= Rmin (0.1 * INR m) 0.3).
    { apply Rle_min_compat_r. lra. }
    lra. }
  split.
  { intros H3. apply le_INR in H3. simpl in H3.
    rewrite (Rmin_right (0.1 * INR n)) by lra.
    rewrite (Rmin_right (0.1 * INR 3)) by (simpl; lra).
    reflexivity. }
  apply Rle_trans with
    ((hazard_quality + model_confidence + data_completeness) / 3
     - Rmin (0.1 * INR n) 0.3); [lra | apply Rmax_r].
Qed.

Lemma calculate_quality_score_bounds_witness :
  calculate_quality_score 0.8 0.75 0.9 5 <= calculate_quality_score 0.8 0.75 0.9 2.
Proof.
  apply (calculate_quality_score_bounds 0.8 0.75 0.9 2 5). lia.
Defined.

End QualityScore.

Section AlertConfidence.
Import AlertManager.

Lemma alert_confidence_range (forecast_results : Series) (q : R) :
  _calculate_alert_confidence forecast_results q <= 1
  /\ (0 <= q ->
      Rmin 1 (q * 0.8) <= _calculate_alert_confidence forecast_results q
      /\ _calculate_alert_confidence forecast_results q <= q * 1.1).
Proof.
  unfold _calculate_alert_confidence.
  assert (E : 1.0 = 1) by lra. rewrite E. clear E.
  split; [apply Rmin_l |].
  intros Hq.
  destruct (Rltb _ 0.3); [| destruct (Rgtb _ 0.8)];
    (split; [apply Rmin_glb; [apply Rmin_l |];
             (eapply Rle_trans; [apply Rmin_r |]; lra)
            | eapply Rle_trans; [apply Rmin_r |]; lra]).
Qed.

(** X2: the confidence of a decision never exceeds 1; for a quality score
    in [0, 1] it lies in [0, 1], between 0.8 and 1.1 times the score (capped
    at 1), whatever the forecast samples are. *)
Theorem alert_decision_confidence_range (cfg : Config)
  (forecast_results : Series) (metrics : ForecastMetrics)
  (context : dict HazardContext) :
  let decision := generate_alert_decision cfg forecast_results metrics context in
  confidence decision <= 1
  /\ (0 <= quality_score metrics ->
      0 <= confidence decision
      /\ Rmin 1 (quality_score metrics * 0.8) <= confidence decision
      /\ confidence decision <= quality_score metrics * 1.1).
Proof.
  cbv zeta. unfold generate_alert_decision. cbn [confidence].
  destruct (alert_confidence_range forecast_results (quality_score metrics))
    as [H1 H2].
  split; [exact H1 |]. intros Hq. destruct (H2 Hq) as [H3 H4].
  repeat split; try assumption.
  apply Rle_trans with (Rmin 1 (quality_score metrics * 0.8));
    [apply Rmin_glb; lra | exact H3].
Qed.

End AlertConfidence.

Lemma alert_decision_confidence_range_witness :
  0 <= confidence
         (AlertManager.generate_alert_decision sample_config [60000; 60000]
            sample_metrics [("Benue", benue_context)]).
Proof.
  apply (alert_decision_confidence_range sample_config [60000; 60000]
           sample_metrics [("Benue", benue_context)]).
  simpl. lra.
Defined.

(** ** Adjusted half-impact intensity *)

Section Adjustments.
Import AdaptiveImpactFunction.

(** X3: the context adjustment scales a positive half-impact intensity by a
    factor between 0.6177375 (all four vulnerable conditions) and 1.58125
    (all resilient ones), so the result stays positive; a context with
    mid-range infrastructure and warning coverage, a settlement type that is
    neither urban nor rural and a poverty rate of at most 0.5 leaves it
    unchanged. *)
Theorem adjust_for_context_bounds (self : t) (intensity_half : R)
  (context : HazardContext) :
  (0 < intensity_half ->
   intensity_half * 0.6177375 <= _adjust_for_context self intensity_half context
   /\ _adjust_for_context self intensity_half context <= intensity_half * 1.58125
   /\ 0 < _adjust_for_context self intensity_half context)
  /\ (0.3 <= infrastructure_quality context <= 0.7 ->
      0.3 <= early_warning_coverage context <= 0.7 ->
      urban_rural context <> "urban" -> urban_rural context <> "rural" ->
      poverty_rate context <= 0.5 ->
      _adjust_for_context self intensity_half context = intensity_half).
Proof.
  unfold _adjust_for_context. split.
  - intros Hh.
    destruct (Rltb (infrastructure_quality context) 0.3);
      [| destruct (Rgtb (infrastructure_quality context) 0.7)];
      (destruct (Rgtb (early_warning_coverage context) 0.7);
       [| destruct (Rltb (early_warning_coverage context) 0.3)]);
      (destruct (String.eqb (urban_rural context) "urban");
       [| destruct (String.eqb (urban_rural context) "rural")]);
      destruct (Rgtb (poverty_rate context) 0.5);
      repeat split; nra.
  - intros Hi He Hu Hr Hp.
    apply String.eqb_neq in Hu. apply String.eqb_neq in Hr.
    rewrite Hu, Hr.
    assert (H1 : Rltb (infrastructure_quality context) 0.3 = false)
      by (apply Rltb_false; lra).
    assert (H2 : Rgtb (infrastructure_quality context) 0.7 = false)
      by (apply Rgtb_false; lra).
    assert (H3 : Rgtb (early_warning_coverage context) 0.7 = false)
      by (apply Rgtb_false; lra).
    assert (H4 : Rltb (early_warning_coverage context) 0.3 = false)
      by (apply Rltb_false; lra).
    assert (H5 : Rgtb (poverty_rate context) 0.5 = false)
      by (apply Rgtb_false; lra).
    rewrite H1, H2, H3, H4, H5. lra.
Qed.

Lemma adjust_for_context_bounds_witness :
  0 < _adjust_for_context flood_function 1.5 borno_context.
Proof.
  apply (adjust_for_context_bounds flood_function 1.5 borno_context). lra.
Defined.

(** X4: the compounding adjustment scales a positive intensity by a factor
    between 0.273105 (every stressor, no harvest) and 1.1 (harvest season
    alone), so the result stays positive; the rainy season counts for a
    flood function only. *)
Theorem adjust_for_compounding_bounds (self : t) (intensity_half : R)
  (compounding : CompoundingFactors) :
  (0 < intensity_half ->
   intensity_half * 0.273105
   <= _adjust_for_compounding self intensity_half compounding
   /\ _adjust_for_compounding self intensity_half compounding
      <= intensity_half * 1.1
   /\ 0 < _adjust_for_compounding self intensity_half compounding)
  /\ (hazard_type self <> "flood" ->
      _adjust_for_compounding self intensity_half compounding
      = _adjust_for_compounding self intensity_half
          {| has_recent_flood := has_recent_flood compounding;
             has_recent_conflict := has_recent_conflict compounding;
             has_displacement_camp := has_displacement_camp compounding;
             is_rainy_season := negb (is_rainy_season compounding);
             is_harvest_season := is_harvest_season compounding;
             market_access_disrupted := market_access_disrupted compounding;
             healthcare_access_limited :=
               healthcare_access_limited compounding |}).
Proof.
  unfold _adjust_for_compounding. split.
  - intros Hh.
    destruct (has_recent_flood compounding);
      destruct (has_recent_conflict compounding);
      destruct (has_displacement_camp compounding);
      destruct (is_rainy_season compounding
                && String.eqb (hazard_type self) "flood");
      destruct (is_harvest_season compounding);
      destruct (market_access_disrupted compounding);
      destruct (healthcare_access_limited compounding);
      repeat split; nra.
  - intros Hf. apply String.eqb_neq in Hf. cbn.
    rewrite Hf, !andb_false_r. reflexivity.
Qed.

Lemma adjust_for_compounding_bounds_witness :
  0 < _adjust_for_compounding flood_function 1.5 no_compounding.
Proof.
  apply (adjust_for_compounding_bounds flood_function 1.5 no_compounding). lra.
Defined.

End Adjustments.

(** ** Shape of the impact functions *)

Lemma fold_left_Rmax_ge (l : list R) (x : R) : x <= fold_left Rmax l x.
Proof.
  revert x. induction l as [| y l IH]; intros x; simpl; [lra |].
  apply Rle_trans with (Rmax x y); [apply Rmax_l | apply IH].
Qed.

Lemma fold_left_Rmax_In (l : list R) (x y : R) :
  In y l -> y <= fold_left Rmax l x.
Proof.
  revert x. induction l as [| z l IH]; intros x Hin; simpl in *; [easy |].
  destruct Hin as [-> | Hin].
  - apply Rle_trans with (Rmax x y); [apply Rmax_r | apply fold_left_Rmax_ge].
  - apply IH. exact Hin.
Qed.

Lemma np_max_upper (a : ndarray) (m x : R) :
  np_max a = Ok m -> In x a -> x <= m.
Proof.
  destruct a as [| y a]; [discriminate |].
  simpl. intros [= <-] [-> | Hin].
  - apply fold_left_Rmax_ge.
  - apply fold_left_Rmax_In. exact Hin.
Qed.

Section ImpactFunctionShape.
Import AdaptiveImpactFunction.


(** The affected-area curve is a clipped saturating exponential whose three
    constants depend on the hazard type and on the population density. *)
Lemma create_paa_curve_form (self : t) (context : HazardContext) :
  exists a b s : R,
    0 <= b /\ 0 < s /\ 0.1 <= a <= 1
    /\ forall intensity : ndarray,
        _create_paa_curve self intensity context
        = map (fun x => clip 0.1 1.0 (a + b * (1 - exp (- x / s)))) intensity.
Proof.
  unfold _create_paa_curve, np_clip.
  destruct (String.eqb (hazard_type self) "flood").
  - exists 0.3, 0.7, 0.5. repeat split; try lra.
    intros intensity. rewrite map_map. reflexivity.
  - destruct (Rgtb (population_density context) 500).
    + exists 0.5, 0.5, 20. repeat split; try lra.
      intros intensity. rewrite map_map. reflexivity.
    + exists 0.7, 0.3, 30. repeat split; try lra.
      intros intensity. rewrite map_map. reflexivity.
Qed.

Lemma paa_point_monotone (a b s x y : R) :
  0 <= b -> 0 < s -> x <= y ->
  clip 0.1 1.0 (a + b * (1 - exp (- x / s)))
  <= clip 0.1 1.0 (a + b * (1 - exp (- y / s))).
Proof.
  intros Hb Hs Hxy. apply clip_monotone.
  assert (Hle : exp (- y / s) <= exp (- x / s)).
  { apply exp_le_compat. unfold Rdiv.
    apply Rmult_le_compat_r; [left; apply Rinv_0_lt_compat; exact Hs | lra]. }
  nra.
Qed.

Lemma contextual_impact_function_returns (self : t)
  (context : HazardContext) (compounding : CompoundingFactors)
  (intensity_half : R) :
  exists impf : ImpactFunc,
    create_contextual_impact_function self context compounding intensity_half
    = Ok [impf]
    /\ intensity impf
       = (if String.eqb (hazard_type self) "flood"
          then arange 120 0.05 else arange 125 2).
Proof.
  unfold create_contextual_impact_function.
  set (grid := if String.eqb (hazard_type self) "flood"
               then arange 120 0.05 else arange 125 2).
  assert (Hne : grid <> []).
  { unfold grid. destruct (String.eqb _ _); apply arange_nonempty. }
  match goal with
  | |- context [_create_impact_curve self grid ?thr ?h context] =>
      destruct (create_impact_curve_returns self grid thr h context Hne)
        as [m [_ Hc]];
      rewrite Hc
  end.
  cbn [bind]. eexists. split; reflexivity.
Qed.


(** X6: the affected-area fraction never decreases along the grid of the
    function returned by [create_contextual_impact_function]. *)
Theorem contextual_impact_function_paa_monotone (self : t)
  (context : HazardContext) (compounding : CompoundingFactors)
  (intensity_half : R) (impf : ImpactFunc) (i j : nat) :
  create_contextual_impact_function self context compounding intensity_half
  = Ok [impf] ->
  (i <= j)%nat -> (j < List.length (intensity impf))%nat ->
  nth i (intensity impf) 0 <= nth j (intensity impf) 0
  /\ nth i (paa impf) 0 <= nth j (paa impf) 0.
Proof.
  unfold create_contextual_impact_function. intros H Hij Hj.
  bind_inv H. injection H as <-. cbn [intensity paa] in *.
  set (grid := if String.eqb (hazard_type self) "flood"
               then arange 120 0.05 else arange 125 2) in *.
  assert (Hgrid : exists n step, 0 < step /\ grid = arange n step).
  { unfold grid. destruct (String.eqb _ _);
      [exists 120%nat, 0.05 | exists 125%nat, 2]; split; try reflexivity; lra. }
  destruct Hgrid as [n [step [Hstep Hg]]].
  rewrite Hg in *. rewrite length_arange in Hj.
  assert (Hx : nth i (arange n step) 0 <= nth j (arange n step) 0).
  { rewrite !nth_arange by lia. apply Rmult_le_compat_r; [lra |].
    apply le_INR. exact Hij. }
  split; [exact Hx |].
  destruct (create_paa_curve_form self context)
    as [pa [pb [ps [Hb [Hs [_ Hf]]]]]].
  rewrite Hf.
  rewrite !(nth_map_in _ _ _ _ 0) by (rewrite length_arange; lia).
  apply paa_point_monotone; assumption.
Qed.

Lemma contextual_impact_function_paa_monotone_witness :
  exists impf : ImpactFunc,
    create_contextual_impact_function flood_function benue_context
      no_compounding 1.5 = Ok [impf]
    /\ nth 3 (paa impf) 0 <= nth 7 (paa impf) 0.
Proof.
  destruct (contextual_impact_function_returns flood_function benue_context
              no_compounding 1.5) as [impf [H Hgrid]].
  exists impf. split; [exact H |].
  apply (contextual_impact_function_paa_monotone flood_function benue_context
           no_compounding 1.5 impf 3 7 H).
  - lia.
  - rewrite Hgrid. cbn [hazard_type flood_function].
    change (String.eqb "flood" "flood") with true. cbv iota.
    rewrite length_arange. lia.
Defined.

End ImpactFunctionShape.

(** ** Where the displacement curve is well behaved *)

Section ImpactCurveRegimes.
Import AdaptiveImpactFunction.

Lemma create_impact_curve_inv (self : t) (intensity : ndarray)
  (threshold intensity_half : R) (context : HazardContext) (mdd : ndarray)
  (i : nat) :
  _create_impact_curve self intensity threshold intensity_half context
  = Ok mdd ->
  (i < List.length intensity)%nat ->
  exists intensity_max : R,
    np_max intensity = Ok intensity_max
    /\ mdd = map (impact_at self threshold intensity_half context intensity_max)
                 intensity.
Proof.
  intros Hc Hi.
  assert (Hne : intensity <> []) by (intros ->; simpl in Hi; lia).
  destruct (create_impact_curve_returns self intensity threshold
              intensity_half context Hne) as [m [Hm Hr]].
  exists m. split; [exact Hm |]. congruence.
Qed.



(** X8: for a positive half-impact intensity and a positive threshold, the
    displacement fraction does not decrease between two grid intensities
    that both lie in [threshold, 2 * half], nor between two that both lie
    above 2 * half. *)
Theorem create_impact_curve_monotone_within_regimes (self : t)
  (intensity : ndarray) (threshold intensity_half : R)
  (context : HazardContext) (mdd : ndarray) (i j : nat) :
  _create_impact_curve self intensity threshold intensity_half context
  = Ok mdd ->
  0 < intensity_half -> 0 < threshold ->
  (i < List.length intensity)%nat -> (j < List.length intensity)%nat ->
  nth i intensity 0 <= nth j intensity 0 ->
  (threshold <= nth i intensity 0 /\ nth j intensity 0 <= intensity_half * 2)
  \/ intensity_half * 2 < nth i intensity 0 ->
  nth i mdd 0 <= nth j mdd 0.
Proof.
  intros Hc Hh Ht Hi Hj Hxy Hregime.
  destruct (create_impact_curve_inv self intensity threshold intensity_half
              context mdd i Hc Hi) as [m [Hm ->]].
  rewrite !(nth_map_in _ _ _ _ 0) by assumption.
  assert (Hmax : nth j intensity 0 <= m).
  { apply (np_max_upper intensity); [exact Hm | apply nth_In; exact Hj]. }
  destruct Hregime as [[Hlo Hhi] | Hsat].
  - apply impact_at_monotone_to_saturation; lra.
  - apply impact_at_monotone_in_saturation; lra.
Qed.

Lemma create_impact_curve_monotone_within_regimes_witness :
  exists mdd : ndarray,
    _create_impact_curve flood_function (arange 120 0.05) 0.3 1
      benue_context = Ok mdd
    /\ nth 10 mdd 0 <= nth 40 mdd 0.
Proof.
  destruct (create_impact_curve_returns flood_function (arange 120 0.05)
              0.3 1 benue_context (arange_nonempty _ _)) as [m [_ H]].
  eexists. split; [exact H |].
  apply (create_impact_curve_monotone_within_regimes flood_function
           (arange 120 0.05) 0.3 1 benue_context _ 10 40 H);
    try lra; try (rewrite length_arange; lia);
    rewrite !nth_arange by lia; simpl; lra.
Defined.

End ImpactCurveRegimes.

(** ** Estimator paths *)

Section EstimatorPaths.
Import MLEnhancedVulnerability.

Lemma dict_getitem_found {V : Type} (d : dict V) (k : string) (v : V) :
  dict_find d k = Some v -> dict_getitem d k = Ok v.
Proof. intros H. unfold dict_getitem. rewrite H. reflexivity. Qed.

Lemma dict_getitem_missing {V : Type} (d : dict V) (k : string) :
  dict_find d k = None -> dict_getitem d k = Raise (KeyError k).
Proof. intros H. unfold dict_getitem. rewrite H. reflexivity. Qed.

(** X9: on an estimator that is not marked as trained the value comes from
    the table of the hazard type ([flood_params] for ['flood'],
    [conflict_params] for any other name).  Without a ['North_Central'] entry
    every call raises [KeyError], also for a region that has an entry;
    with one, the call returns the ['p50'] of the region's entry, or of the
    ['North_Central'] entry for a region without entry, and raises
    [KeyError] when that entry has no ['p50']. *)
Theorem predict_vulnerability_regional_lookup (self : t)
  (context : HazardContext) (hazard_type : string) :
  trained self = false ->
  let table :=
    if String.eqb hazard_type "flood"
    then flood_params (vulnerability (config self))
    else conflict_params (vulnerability (config self)) in
  (dict_find table "North_Central" = None ->
   predict_vulnerability self context hazard_type
   = Raise (KeyError "North_Central"))
  /\ (forall default : dict R,
         dict_find table "North_Central" = Some default ->
         (forall entry : dict R,
             dict_find table (region context) = Some entry ->
             predict_vulnerability self context hazard_type
             = dict_getitem entry "p50")
         /\ (dict_find table (region context) = None ->
             predict_vulnerability self context hazard_type
             = dict_getitem default "p50"))
  /\ (forall (entry : dict R) (v : R),
         dict_getitem entry "p50" = Ok v <-> dict_find entry "p50" = Some v).
Proof.
  intros Ht. cbv zeta.
  rewrite (predict_untrained self context hazard_type Ht).
  unfold _get_regional_default.
  split; [| split].
  - destruct (String.eqb hazard_type "flood"); intros H;
      rewrite (dict_getitem_missing _ _ H); reflexivity.
  - intros default Hd.
    destruct (String.eqb hazard_type "flood");
      rewrite (dict_getitem_found _ _ _ Hd); cbn [bind]; unfold dict_get;
      (split; [intros entry He; rewrite He; reflexivity
              | intros He; rewrite He; reflexivity]).
  - intros entry v. unfold dict_getitem.
    destruct (dict_find entry "p50"); split; intros H;
      try discriminate; congruence.
Qed.

Lemma predict_vulnerability_regional_lookup_witness :
  predict_vulnerability
    (init sample_config (Unreadable (ValueError "corrupt file")) Missing)
    {| state := "Lagos"; region := "South_West"; month := 7;
       population_density := 500; poverty_rate := 0.3;
       previous_events_30d := 0; previous_events_90d := 1;
       distance_to_water_km := 1.0; elevation_m := 50;
       urban_rural := "urban"; infrastructure_quality := 0.65;
       early_warning_coverage := 0.75 |}
    "flood"
  = dict_getitem [("p10", 0.3); ("p50", 0.6); ("p90", 1.2)] "p50".
Proof.
  refine (proj2 (proj1 (proj2
            (predict_vulnerability_regional_lookup
               (init sample_config (Unreadable (ValueError "corrupt file"))
                  Missing) _ "flood" _)) _ _) _);
    reflexivity.
Defined.

(** X10: on an estimator marked as trained the lookup table is not used.
    The call raises when the scaler was never fitted or when the model of the
    hazard type is absent (the flood model for ['flood'], the conflict model
    for any other name); otherwise it returns the model's prediction clipped
    to [0.05, 2.0] for ['flood'] and to [5, 100] for any other name. *)
Theorem predict_vulnerability_trained (self : t) (context : HazardContext)
  (hazard_type : string) :
  trained self = true ->
  let model :=
    if String.eqb hazard_type "flood"
    then flood_model self else conflict_model self in
  let lo := if String.eqb hazard_type "flood" then 0.05 else 5 in
  let hi := if String.eqb hazard_type "flood" then 2.0 else 100 in
  (scaler self = None ->
   predict_vulnerability self context hazard_type = Raise NotFittedError)
  /\ (forall transform : FittedScaler,
         scaler self = Some transform ->
         (model = None ->
          exists e, predict_vulnerability self context hazard_type = Raise e)
         /\ (forall predict : Regressor,
                model = Some predict ->
                exists v : R,
                  predict_vulnerability self context hazard_type = Ok v
                  /\ v = clip lo hi (predict (transform (features context)))
                  /\ lo <= v <= hi)).
Proof.
  intros Ht. cbv zeta. unfold predict_vulnerability. rewrite Ht. cbn [negb].
  split.
  - intros Hs. rewrite Hs. reflexivity.
  - intros transform Hs. rewrite Hs. cbn [bind]. split.
    + intros Hm. rewrite Hm. cbn [bind]. eexists. reflexivity.
    + intros predict Hm. rewrite Hm. cbn [bind].
      destruct (String.eqb hazard_type "flood");
        (eexists; split; [reflexivity |]; split; [reflexivity |];
         split; [apply clip_lower; lra | apply clip_upper]).
Qed.

Lemma predict_vulnerability_trained_witness :
  predict_vulnerability
    {| config := sample_config; flood_model := Some (fun _ => 7);
       conflict_model := None; scaler := None; trained := true |}
    benue_context "flood" = Raise NotFittedError.
Proof.
  apply (predict_vulnerability_trained
           {| config := sample_config; flood_model := Some (fun _ => 7);
              conflict_model := None; scaler := None; trained := true |}
           benue_context "flood"); reflexivity.
Defined.

End EstimatorPaths.

(** ** How the combination methods relate *)

Lemma weighted_pair_range (i j p q lo hi : R) :
  0 <= i -> 0 <= j -> lo <= p <= hi -> lo <= q <= hi ->
  lo <= i / (i + j + 1e-10) * p + (1 - i / (i + j + 1e-10)) * q <= hi.
Proof.
  intros Hi Hj Hp Hq.
  set (w := i / (i + j + 1e-10)).
  assert (Hden : 0 < i + j + 1e-10) by lra.
  assert (Hw : 0 <= w <= 1).
  { unfold w. split.
    - apply Rmult_le_pos; [lra |]. left. apply Rinv_0_lt_compat. exact Hden.
    - apply Rmult_le_reg_r with (i + j + 1e-10); [exact Hden |].
      unfold Rdiv. rewrite Rmult_assoc, Rinv_l by lra. lra. }
  split; nra.
Qed.

Lemma weighted_sum_zip_range (lo hi : R) :
  forall flood_intensity conflict_intensity flood_impact conflict_impact : ndarray,
    Forall (fun x => 0 <= x) flood_intensity ->
    Forall (fun x => 0 <= x) conflict_intensity ->
    Forall (fun x => lo <= x <= hi) flood_impact ->
    Forall (fun x => lo <= x <= hi) conflict_impact ->
    Forall (fun x => lo <= x <= hi)
      (zip_with Rplus
         (zip_with Rmult
            (zip_with Rdiv flood_intensity
               (map (fun x => x + 1e-10)
                    (zip_with Rplus flood_intensity conflict_intensity)))
            flood_impact)
         (zip_with Rmult
            (map (fun w => 1 - w)
               (zip_with Rdiv flood_intensity
                  (map (fun x => x + 1e-10)
                       (zip_with Rplus flood_intensity conflict_intensity))))
            conflict_impact)).
Proof.
  induction flood_intensity as [| i fi IH];
    intros [| j ci] [| p fp] [| q cp] Hfi Hci Hfp Hcp; simpl;
    try constructor.
  - inversion Hfi; inversion Hci; inversion Hfp; inversion Hcp; subst.
    apply weighted_pair_range; assumption.
  - inversion Hfi; inversion Hci; inversion Hfp; inversion Hcp; subst.
    apply IH; assumption.
Qed.

Lemma zip_with_repeat_r {A B C : Type} (f : A -> B -> C) (l : list A) (y : B) :
  zip_with f l (repeat y (List.length l)) = map (fun x => f x y) l.
Proof. induction l as [| x l IH]; simpl; [| rewrite IH]; reflexivity. Qed.

Lemma zip_with_Forall2_left {A B : Type} (f : A -> B -> A) (P : A -> Prop)
  (Q : B -> Prop) (Rel : A -> A -> Prop) :
  (forall x y, P x -> Q y -> Rel x (f x y)) ->
  forall (a : list A) (b : list B),
    List.length a = List.length b -> Forall P a -> Forall Q b ->
    Forall2 Rel a (zip_with f a b).
Proof.
  intros Hf a. induction a as [| x a IH]; intros [| y b] Hl Ha Hb;
    simpl in *; try discriminate; constructor;
    inversion Ha; inversion Hb; subst; auto.
Qed.

Lemma Forall2_zip_with_right {A B : Type} (f : A -> B -> A) (Q : B -> Prop)
  (Rel : A -> A -> Prop) :
  (forall x y z, Rel x y -> Q z -> Rel x (f y z)) ->
  forall (a c : list A) (b : list B),
    Forall2 Rel a c -> List.length c = List.length b -> Forall Q b ->
    Forall2 Rel a (zip_with f c b).
Proof.
  intros Hf a c b Hac. revert b.
  induction Hac as [| x y a c Hxy Hac IH]; intros [| z b] Hl Hb;
    simpl in *; try discriminate; constructor;
    inversion Hb; subst; auto.
Qed.

Lemma Forall2_map_right {A : Type} (g : A -> A) (Rel : A -> A -> Prop) :
  (forall x y, Rel x y -> Rel x (g y)) ->
  forall a c : list A, Forall2 Rel a c -> Forall2 Rel a (map g c).
Proof.
  intros Hg a c Hac. induction Hac; simpl; constructor; auto.
Qed.

Lemma Forall2_map_self {A : Type} (g : A -> A) (P : A -> Prop)
  (Rel : A -> A -> Prop) :
  (forall x, P x -> Rel x (g x)) ->
  forall a : list A, Forall P a -> Forall2 Rel a (map g a).
Proof.
  intros Hg a Ha. induction Ha; simpl; constructor; auto.
Qed.

Lemma np_max_nonneg (a : ndarray) (m : R) :
  Forall (fun x => 0 <= x) a -> np_max a = Ok m -> 0 <= m.
Proof.
  destruct a as [| x a]; [discriminate |].
  intros Ha Hm. inversion Ha; subst.
  apply Rle_trans with x; [assumption |].
  apply (np_max_upper (x :: a)); [exact Hm | left; reflexivity].
Qed.

Lemma normalised_nonneg (a : ndarray) (m : R) :
  Forall (fun x => 0 <= x) a -> 0 <= m ->
  Forall (fun x => 0 <= x) (map (fun x => x / (m + 1e-10)) a).
Proof.
  intros Ha Hm. apply (map_Forall _ (fun x => 0 <= x)); [| exact Ha].
  intros x Hx. apply Rmult_le_pos; [exact Hx |].
  left. apply Rinv_0_lt_compat. lra.
Qed.

Lemma np_sum_nonneg_acc (a : ndarray) (acc : R) :
  Forall (fun x => 0 <= x) a -> 0 <= acc -> 0 <= fold_left Rplus a acc.
Proof.
  intros Ha. revert acc. induction Ha as [| x a Hx Ha IH]; intros acc Hacc;
    simpl; [exact Hacc |].
  apply IH. lra.
Qed.

Section CombinationMethods.
Import MultiHazardInteraction.

Create Rewrite HintDb lengths.
#[local] Hint Rewrite @length_map @length_zip_with length_np_clip : lengths.

Ltac solve_lengths := autorewrite with lengths; lia.

Lemma interaction_base_ge_1 (self : t) (context : HazardContext) :
  1 <= flood_conflict_interaction (vulnerability (config self)) ->
  1 <= interaction_base_of self context.
Proof.
  intros H. unfold interaction_base_of.
  destruct (Rltb _ _); destruct (Rgtb _ _); lra.
Qed.

(** X11: on empty arrays the two simple methods return an empty array,
    while the sophisticated combination, and with it every other method
    name, raises [ValueError] as soon as one of the two intensity arrays is
    empty. *)
Theorem combine_hazards_empty_arrays (self : t)
  (flood_intensity conflict_intensity flood_impact conflict_impact : ndarray)
  (context : HazardContext) (method_name : string) :
  combine_hazards self flood_intensity conflict_intensity [] [] context
    "simple_max"
  = Ok ([], {| method := "max"; entries := [("interaction", 0)] |})
  /\ combine_hazards self [] [] [] [] context "weighted_sum"
     = Ok ([], {| method := "weighted"; entries := [("interaction", 0.1)] |})
  /\ (method_name <> "simple_max" -> method_name <> "weighted_sum" ->
      flood_intensity = [] \/ conflict_intensity = [] ->
      combine_hazards self flood_intensity conflict_intensity flood_impact
        conflict_impact context method_name = Raise empty_reduction).
Proof.
  split; [reflexivity |]. split; [reflexivity |].
  intros H1 H2 He.
  rewrite combine_hazards_dispatch by assumption.
  unfold _sophisticated_combination.
  destruct He as [-> | ->]; [reflexivity |].
  destruct flood_intensity; reflexivity.
Qed.

Lemma combine_hazards_empty_arrays_witness :
  combine_hazards sample_combiner [] [10; 20] [0.1; 0.5] [0.3; 0.2]
    benue_context "sophisticated" = Raise empty_reduction.
Proof.
  apply (combine_hazards_empty_arrays sample_combiner [] [10; 20]
           [0.1; 0.5] [0.3; 0.2] benue_context "sophisticated");
    try discriminate.
  left. reflexivity.
Defined.

(** X12: for four arrays of one length with non-negative intensities,
    [weighted_sum] returns an array of that length whose every element lies
    in any interval that holds both input impacts: it is an average of the
    two impacts, never outside them. *)
Theorem weighted_sum_within_inputs (self : t)
  (flood_intensity conflict_intensity flood_impact conflict_impact : ndarray)
  (context : HazardContext) (lo hi : R) :
  List.length flood_intensity = List.length conflict_intensity ->
  List.length flood_intensity = List.length flood_impact ->
  List.length flood_intensity = List.length conflict_impact ->
  Forall (fun x => 0 <= x) flood_intensity ->
  Forall (fun x => 0 <= x) conflict_intensity ->
  Forall (fun x => lo <= x <= hi) flood_impact ->
  Forall (fun x => lo <= x <= hi) conflict_impact ->
  exists combined : ndarray,
    combine_hazards self flood_intensity conflict_intensity flood_impact
      conflict_impact context "weighted_sum"
    = Ok (combined,
          {| method := "weighted"; entries := [("interaction", 0.1)] |})
    /\ List.length combined = List.length flood_intensity
    /\ Forall (fun x => lo <= x <= hi) combined.
Proof.
  intros L1 L2 L3 Hfi Hci Hfp Hcp.
  unfold combine_hazards.
  change (String.eqb "weighted_sum" "simple_max") with false.
  change (String.eqb "weighted_sum" "weighted_sum") with true.
  cbv iota.
  rewrite (broadcast2_same_length Rplus) by exact L1. cbn [bind].
  rewrite (broadcast2_same_length Rdiv) by solve_lengths. cbn [bind].
  rewrite (broadcast2_same_length Rmult) by solve_lengths. cbn [bind].
  rewrite (broadcast2_same_length Rmult) by solve_lengths. cbn [bind].
  rewrite (broadcast2_same_length Rplus) by solve_lengths. cbn [bind].
  eexists. split; [reflexivity |]. split; [solve_lengths |].
  apply weighted_sum_zip_range; assumption.
Qed.

Lemma weighted_sum_within_inputs_witness :
  exists combined : ndarray,
    combine_hazards sample_combiner [0.5; 1.0] [10; 20] [0.1; 0.5] [0.3; 0.2]
      benue_context "weighted_sum"
    = Ok (combined,
          {| method := "weighted"; entries := [("interaction", 0.1)] |})
    /\ List.length combined = 2%nat
    /\ Forall (fun x => 0.1 <= x <= 0.5) combined.
Proof.
  apply (weighted_sum_within_inputs sample_combiner [0.5; 1.0] [10; 20]
           [0.1; 0.5] [0.3; 0.2] benue_context 0.1 0.5);
    try reflexivity; repeat constructor; lra.
Defined.

(** X13: for four non-empty arrays of one length with non-negative
    intensities and impacts in [0, 0.95], an interaction coefficient of at
    least 1 and an infrastructure quality of at most 1, the sophisticated
    combination returns and is, element by element, at least the
    [simple_max] combination of the same arguments. *)
Theorem sophisticated_dominates_simple_max (self : t)
  (flood_intensity conflict_intensity flood_impact conflict_impact : ndarray)
  (context : HazardContext) :
  flood_intensity <> [] ->
  List.length flood_intensity = List.length conflict_intensity ->
  List.length flood_intensity = List.length flood_impact ->
  List.length flood_intensity = List.length conflict_impact ->
  Forall (fun x => 0 <= x) flood_intensity ->
  Forall (fun x => 0 <= x) conflict_intensity ->
  Forall (fun x => 0 <= x <= 0.95) flood_impact ->
  Forall (fun x => 0 <= x <= 0.95) conflict_impact ->
  1 <= flood_conflict_interaction (vulnerability (config self)) ->
  infrastructure_quality context <= 1 ->
  exists (simple combined : ndarray) (m1 m2 : Metrics),
    combine_hazards self flood_intensity conflict_intensity flood_impact
      conflict_impact context "simple_max" = Ok (simple, m1)
    /\ combine_hazards self flood_intensity conflict_intensity flood_impact
         conflict_impact context "sophisticated" = Ok (combined, m2)
    /\ Forall2 Rle simple combined.
Proof.
  intros Hne L1 L2 L3 Hfi Hci Hfp Hcp Hib Hiq.
  pose proof (interaction_base_ge_1 self context Hib) as Hib'.
  assert (Hpos : (0 < List.length flood_intensity)%nat).
  { destruct flood_intensity; [congruence | simpl; lia]. }
  destruct (np_max_of_length flood_intensity Hpos) as [fmax Hfmax].
  destruct (np_max_of_length conflict_intensity) as [cmax Hcmax]; [lia |].
  pose proof (np_max_nonneg _ _ Hfi Hfmax) as Hfmax0.
  pose proof (np_max_nonneg _ _ Hci Hcmax) as Hcmax0.
  pose proof (normalised_nonneg _ _ Hfi Hfmax0) as Hfn.
  pose proof (normalised_nonneg _ _ Hci Hcmax0) as Hcn.
  set (Rel := fun x y : R => 0 <= x <= 0.95 /\ x <= y).
  set (base := zip_with Rmax flood_impact conflict_impact).
  assert (Hbase : Forall (fun x => 0 <= x <= 0.95) base).
  { unfold base.
    apply (zip_with_Forall Rmax (fun x => 0 <= x <= 0.95)
             (fun x => 0 <= x <= 0.95)); try assumption.
    intros x y Hx Hy. split.
    - apply Rle_trans with x; [lra | apply Rmax_l].
    - apply Rmax_lub; lra. }
  assert (Lbase : List.length base = List.length flood_intensity)
    by (unfold base; solve_lengths).
  exists base.
  unfold combine_hazards at 1.
  change (String.eqb "simple_max" "simple_max") with true. cbv iota.
  rewrite (broadcast2_same_length Rmax) by lia. cbn [bind]. fold base.
  unfold combine_hazards.
  change (String.eqb "sophisticated" "simple_max") with false.
  change (String.eqb "sophisticated" "weighted_sum") with false.
  cbv iota.
  unfold _sophisticated_combination.
  rewrite Hfmax, Hcmax. cbn [bind].
  rewrite (broadcast2_same_length Rmax) by lia. cbn [bind]. fold base.
  rewrite (broadcast2_same_length andb) by solve_lengths. cbn [bind].
  set (fn := map (fun x => x / (fmax + 1e-10)) flood_intensity) in *.
  set (cn := map (fun x => x / (cmax + 1e-10)) conflict_intensity) in *.
  assert (Lfn : List.length fn = List.length flood_intensity)
    by (unfold fn; solve_lengths).
  assert (Lcn : List.length cn = List.length flood_intensity)
    by (unfold cn; solve_lengths).
  assert (Hmul : exists (f : factor) (c : ndarray),
             (if np_any
                   (zip_with andb (map (fun x => Rgtb x 0.1) fn)
                      (map (fun x => Rgtb x 0.1) cn))
              then
                prod <- broadcast2 Rmult
                          (map (fun x => (interaction_base_of self context - 1) * x)
                             fn) cn ;;
                Ok (Array (map (fun x => 1 + x) prod))
              else Ok (Scalar 1.0)) = Ok f
             /\ mul_factor base f = Ok c
             /\ Forall2 Rel base c).
  { destruct (np_any _).
    - rewrite (broadcast2_same_length Rmult) by solve_lengths. cbn [bind].
      eexists. eexists. split; [reflexivity |].
      cbn [mul_factor].
      rewrite (broadcast2_same_length Rmult) by solve_lengths.
      split; [reflexivity |].
      apply (zip_with_Forall2_left Rmult (fun x => 0 <= x <= 0.95)
               (fun y => 1 <= y)).
      + intros x y Hx Hy. unfold Rel. split; [exact Hx | nra].
      + solve_lengths.
      + exact Hbase.
      + apply (map_Forall _ (fun x => 0 <= x)); [intros x Hx; lra |].
        apply (zip_with_Forall Rmult (fun x => 0 <= x) (fun x => 0 <= x));
          [intros x y Hx Hy; apply Rmult_le_pos; assumption | | exact Hcn].
        apply (map_Forall _ (fun x => 0 <= x)); [| exact Hfn].
        intros x Hx. apply Rmult_le_pos; lra.
    - eexists. eexists. split; [reflexivity |].
      cbn [mul_factor]. split; [reflexivity |].
      apply (Forall2_map_self _ (fun x => 0 <= x <= 0.95)); [| exact Hbase].
      intros x Hx. unfold Rel. split; [exact Hx | lra]. }
  destruct Hmul as [f [c [Hf [Hc Rc]]]].
  rewrite Hf. cbn [bind]. rewrite Hc. cbn [bind].
  set (step1 := if Rgtb (np_mean fn) 0.5 then inplace2 Rplus c _ else Ok c).
  assert (H1 : exists c1, step1 = Ok c1 /\ Forall2 Rel base c1).
  { unfold step1. destruct (Rgtb (np_mean fn) 0.5) eqn:E.
    - apply Rgtb_true in E.
      rewrite (inplace2_same_length Rplus)
        by (rewrite <- (Forall2_length Rc); solve_lengths).
      eexists. split; [reflexivity |].
      apply (Forall2_zip_with_right Rplus (fun z => 0 <= z)).
      + intros x y z [Hx Hxy] Hz. unfold Rel. split; [exact Hx | lra].
      + exact Rc.
      + rewrite <- (Forall2_length Rc). solve_lengths.
      + apply (map_Forall _ (fun x => 0 <= x <= 0.95)); [| exact Hcp].
        intros x Hx.
        assert (0 <= 0.15 * np_mean fn * (1 - infrastructure_quality context)).
        { apply Rmult_le_pos; lra. }
        apply Rmult_le_pos; [apply Rmult_le_pos; lra | lra].
    - eexists. split; [reflexivity | exact Rc]. }
  destruct H1 as [c1 [Hc1 Rc1]]. rewrite Hc1. clear Hc1 step1. cbn [bind].
  set (step2 := if Rgtb (np_mean cn) 0.5 then inplace2 Rplus c1 _ else Ok c1).
  assert (H2 : exists c2, step2 = Ok c2 /\ Forall2 Rel base c2).
  { unfold step2. destruct (Rgtb (np_mean cn) 0.5) eqn:E.
    - apply Rgtb_true in E.
      rewrite (inplace2_same_length Rplus)
        by (rewrite <- (Forall2_length Rc1); solve_lengths).
      eexists. split; [reflexivity |].
      apply (Forall2_zip_with_right Rplus (fun z => 0 <= z)).
      + intros x y z [Hx Hxy] Hz. unfold Rel. split; [exact Hx | lra].
      + exact Rc1.
      + rewrite <- (Forall2_length Rc1). solve_lengths.
      + apply (map_Forall _ (fun x => 0 <= x <= 0.95)); [| exact Hfp].
        intros x Hx. apply Rmult_le_pos; [apply Rmult_le_pos; lra | lra].
    - eexists. split; [reflexivity | exact Rc1]. }
  destruct H2 as [c2 [Hc2 Rc2]]. rewrite Hc2. clear Hc2 step2. cbn [bind].
  destruct (np_max_of_length (np_clip c2 0 0.95)) as [top Htop].
  { rewrite length_np_clip, <- (Forall2_length Rc2). lia. }
  rewrite Htop. cbn [bind].
  eexists. eexists. eexists. split; [reflexivity |]. split; [reflexivity |].
  unfold np_clip.
  apply Forall2_impl with (R1 := Rel); [intros x y [_ H]; exact H |].
  apply Forall2_map_right; [| exact Rc2].
  intros x y [Hx Hxy]. unfold Rel. split; [exact Hx |].
  apply clip_ge; lra.
Qed.

Lemma sophisticated_dominates_simple_max_witness :
  exists (simple combined : ndarray) (m1 m2 : Metrics),
    combine_hazards sample_combiner [0.5; 1.0] [10; 20] [0.1; 0.5] [0.3; 0.2]
      borno_context "simple_max" = Ok (simple, m1)
    /\ combine_hazards sample_combiner [0.5; 1.0] [10; 20] [0.1; 0.5]
         [0.3; 0.2] borno_context "sophisticated" = Ok (combined, m2)
    /\ Forall2 Rle simple combined.
Proof.
  apply (sophisticated_dominates_simple_max sample_combiner [0.5; 1.0]
           [10; 20] [0.1; 0.5] [0.3; 0.2] borno_context);
    try discriminate; try reflexivity; try (repeat constructor; lra);
    simpl; lra.
Defined.

Lemma zip_with_repeat_n {A B C : Type} (f : A -> B -> C) (l : list A) (y : B)
  (n : nat) :
  List.length l = n -> zip_with f l (repeat y n) = map (fun x => f x y) l.
Proof. intros <-. apply zip_with_repeat_r. Qed.

Lemma np_any_all_false {A : Type} (g : A -> bool) (l : list A) :
  (forall x, g x = false) -> np_any (map g l) = false.
Proof.
  intros Hg. unfold np_any. induction l as [| x l IH]; simpl;
    [reflexivity | rewrite Hg; exact IH].
Qed.

Lemma np_max_repeat_pos (x : R) (n : nat) :
  (0 < n)%nat -> np_max (repeat x n) = Ok x.
Proof. destruct n; [lia | intros _; apply np_max_repeat]. Qed.

Lemma np_mean_repeat_0 (n : nat) : np_mean (repeat 0 n) = 0.
Proof.
  unfold np_mean, np_sum. rewrite fold_left_Rplus_repeat.
  unfold Rdiv. ring.
Qed.

(** X14: without conflict, that is with a conflict intensity and a conflict
    impact of 0 in every sample, the sophisticated combination returns the
    flood impact unchanged (for flood impacts in [0, 0.95] and any flood
    intensities), with no compounding and no conflict-to-flood cascade in its
    metrics. *)
Theorem sophisticated_without_conflict (self : t)
  (flood_intensity flood_impact : ndarray) (context : HazardContext) :
  flood_intensity <> [] ->
  List.length flood_impact = List.length flood_intensity ->
  Forall (fun x => 0 <= x <= 0.95) flood_impact ->
  exists metrics : Metrics,
    combine_hazards self flood_intensity
      (repeat 0 (List.length flood_intensity)) flood_impact
      (repeat 0 (List.length flood_intensity)) context "sophisticated"
    = Ok (flood_impact, metrics)
    /\ dict_find (entries metrics) "compounding_factor" = Some 1.0
    /\ dict_find (entries metrics) "cascade_conflict_to_flood" = Some 0.
Proof.
  intros Hne Lp Hfp.
  assert (Hpos : (0 < List.length flood_intensity)%nat).
  { destruct flood_intensity; [congruence | simpl; lia]. }
  destruct (np_max_of_length flood_intensity Hpos) as [fmax Hfmax].
  unfold combine_hazards.
  change (String.eqb "sophisticated" "simple_max") with false.
  change (String.eqb "sophisticated" "weighted_sum") with false.
  cbv iota.
  unfold _sophisticated_combination.
  rewrite Hfmax, (np_max_repeat_pos 0 _ Hpos). cbn [bind].
  rewrite !map_repeat.
  rewrite (broadcast2_same_length Rmax) by (rewrite repeat_length; exact Lp).
  cbn [bind].
  rewrite (broadcast2_same_length andb)
    by (rewrite !length_map, repeat_length; reflexivity).
  cbn [bind].
  set (fn := map (fun x => x / (fmax + 1e-10)) flood_intensity).
  rewrite (zip_with_repeat_n andb)
    by (unfold fn; rewrite !length_map; reflexivity).
  assert (Hz : Rgtb (0 / (0 + 1e-10)) 0.1 = false).
  { apply Rgtb_false. unfold Rdiv. rewrite Rmult_0_l. lra. }
  rewrite Hz, map_map.
  rewrite (np_any_all_false (fun x => Rgtb x 0.1 && false))
    by (intros x; apply andb_false_r).
  cbn [bind mul_factor].
  rewrite (zip_with_repeat_n Rmax) by exact Lp.
  assert (Hmean : Rgtb (np_mean (repeat (0 / (0 + 1e-10))
                                   (List.length flood_intensity))) 0.5
                  = false).
  { apply Rgtb_false. replace (0 / (0 + 1e-10)) with 0
      by (unfold Rdiv; ring).
    rewrite np_mean_repeat_0. lra. }
  rewrite Hmean.
  assert (Hfinal : forall extra : R,
             extra = 0 ->
             np_clip (map (fun x => x + extra)
                        (map (fun x => x * 1.0)
                           (map (fun x => Rmax x 0) flood_impact))) 0 0.95
             = flood_impact).
  { intros extra ->. unfold np_clip. rewrite !map_map.
    rewrite <- (map_id flood_impact) at 2.
    apply map_ext_in. intros x Hx.
    rewrite Forall_forall in Hfp. specialize (Hfp x Hx).
    rewrite Rmax_left by lra.
    rewrite clip_inside by lra. lra. }
  assert (Hplain :
            np_clip (map (fun x => x * 1.0)
                       (map (fun x => Rmax x 0) flood_impact)) 0 0.95
            = flood_impact).
  { unfold np_clip. rewrite !map_map.
    rewrite <- (map_id flood_impact) at 2.
    apply map_ext_in. intros x Hx.
    rewrite Forall_forall in Hfp. specialize (Hfp x Hx).
    rewrite Rmax_left by lra.
    rewrite clip_inside by lra. lra. }
  assert (Htop : exists top, np_max flood_impact = Ok top).
  { apply np_max_of_length. lia. }
  destruct Htop as [top Htop].
  destruct (Rgtb (np_mean fn) 0.5).
  - rewrite (inplace2_same_length Rplus)
      by (rewrite !length_map, repeat_length; exact Lp).
    cbn [bind].
    rewrite (zip_with_repeat_n Rplus) by (rewrite !length_map; exact Lp).
    rewrite Hfinal by ring.
    rewrite Htop. cbn [bind].
    eexists. split; [reflexivity |]. split; reflexivity.
  - cbn [bind]. rewrite Hplain, Htop. cbn [bind].
    eexists. split; [reflexivity |]. split; reflexivity.
Qed.

Lemma sophisticated_without_conflict_witness :
  exists metrics : Metrics,
    combine_hazards sample_combiner [0.5; 1.0] (repeat 0 2) [0.1; 0.5]
      (repeat 0 2) benue_context "sophisticated"
    = Ok ([0.1; 0.5], metrics)
    /\ dict_find (entries metrics) "compounding_factor" = Some 1.0
    /\ dict_find (entries metrics) "cascade_conflict_to_flood" = Some 0.
Proof.
  apply (sophisticated_without_conflict sample_combiner [0.5; 1.0]
           [0.1; 0.5] benue_context);
    try discriminate; try reflexivity; repeat constructor; lra.
Defined.

End CombinationMethods.

(** ** Alert level and the forecast sample *)

Lemma insert_sorted_In (x y : R) (s : list R) :
  In y (insert_sorted x s) -> y = x \/ In y s.
Proof.
  induction s as [| z s IH]; simpl.
  - intros [<- | []]. left. reflexivity.
  - destruct (Rleb x z); simpl.
    + intros [<- | H]; [left; reflexivity | right; exact H].
    + intros [<- | H]; [right; left; reflexivity |].
      destruct (IH H) as [-> | H']; [left; reflexivity | right; right; exact H'].
Qed.

Lemma sort_values_In (s : Series) (y : R) : In y (sort_values s) -> In y s.
Proof.
  unfold sort_values. induction s as [| x s IH]; simpl; [easy |].
  intros H. destruct (insert_sorted_In _ _ _ H) as [-> | H'];
    [left; reflexivity | right; apply IH; exact H'].
Qed.

Lemma length_insert_sorted (x : R) (s : list R) :
  List.length (insert_sorted x s) = S (List.length s).
Proof.
  induction s as [| z s IH]; simpl; [reflexivity |].
  destruct (Rleb x z); simpl; [reflexivity | rewrite IH; reflexivity].
Qed.

Lemma length_sort_values (s : Series) :
  List.length (sort_values s) = List.length s.
Proof.
  unfold sort_values. induction s as [| x s IH]; simpl; [reflexivity |].
  rewrite length_insert_sorted, IH. reflexivity.
Qed.

(** A quantile of a non-empty series lies between two of its values. *)
Lemma series_quantile_between (num den : nat) (s : Series) :
  s <> [] -> (num <= den)%nat -> (0 < den)%nat ->
  exists a b t : R,
    In a s /\ In b s /\ 0 <= t <= 1
    /\ series_quantile num den s = a + (b - a) * t.
Proof.
  intros Hne Hnd Hden. unfold series_quantile.
  set (n := List.length s).
  assert (Hn : (0 < n)%nat).
  { unfold n. destruct s; [congruence | simpl; lia]. }
  set (pos := (num * (n - 1))%nat).
  assert (Hidx : (pos / den < n)%nat).
  { apply Nat.Div0.div_lt_upper_bound. unfold pos. nia. }
  set (sorted := sort_values s).
  assert (Hlen : List.length sorted = n) by apply length_sort_values.
  set (lower := nth (pos / den) sorted 0).
  assert (Hlower : In lower s).
  { apply sort_values_In. apply nth_In. fold sorted. lia. }
  assert (Hupper : In (nth (S (pos / den)) sorted lower) s).
  { destruct (Nat.lt_ge_cases (S (pos / den)) n) as [Hlt | Hge].
    - apply sort_values_In. apply nth_In. fold sorted. lia.
    - rewrite nth_overflow by lia. exact Hlower. }
  exists lower, (nth (S (pos / den)) sorted lower),
    (INR (pos mod den) / INR den).
  split; [exact Hlower |]. split; [exact Hupper |].
  split; [| reflexivity].
  assert (Hd : 0 < INR den) by (apply lt_0_INR; exact Hden).
  assert (Hm : (pos mod den < den)%nat) by (apply Nat.mod_upper_bound; lia).
  apply lt_INR in Hm.
  pose proof (pos_INR (pos mod den)) as Hp.
  split.
  - apply Rmult_le_pos; [exact Hp | left; apply Rinv_0_lt_compat; exact Hd].
  - apply Rmult_le_reg_r with (INR den); [exact Hd |].
    unfold Rdiv. rewrite Rmult_assoc, Rinv_l by lra. lra.
Qed.

Lemma between_lt (a b t w : R) :
  a < w -> b < w -> 0 <= t <= 1 -> a + (b - a) * t < w.
Proof.
  intros Ha Hb Ht.
  assert (H1 : 0 <= (w - b) * t) by (apply Rmult_le_pos; lra).
  assert (H2 : 0 <= (w - a) * (1 - t)) by (apply Rmult_le_pos; lra).
  destruct (Rle_lt_dec t (1 / 2)) as [Hs | Hs].
  - assert (H3 : (w - a) * (1 / 2) <= (w - a) * (1 - t))
      by (apply Rmult_le_compat_l; lra).
    lra.
  - assert (H3 : (w - b) * (1 / 2) <= (w - b) * t)
      by (apply Rmult_le_compat_l; lra).
    lra.
Qed.

Lemma between_ge (a b t w : R) :
  w <= a -> w <= b -> 0 <= t <= 1 -> w <= a + (b - a) * t.
Proof.
  intros Ha Hb Ht.
  assert (H1 : 0 <= (b - w) * t) by (apply Rmult_le_pos; lra).
  assert (H2 : 0 <= (a - w) * (1 - t)) by (apply Rmult_le_pos; lra).
  lra.
Qed.

Section AlertLevels.
Import AlertManager.

Ltac level_cases cfg m p :=
  let H := fresh "Hcase" in
  pose proof (determine_alert_level_cases cfg m p) as H; cbv zeta in H;
  destruct H as [H|[H|[H|[H|H]]]];
  repeat match goal with H : _ /\ _ |- _ => destruct H end.

(** X15: the alert level is one of the five level names and, for a fixed
    90th percentile, never decreases when the mean grows; so it never
    decreases when both statistics grow. *)
Theorem determine_alert_level_monotone_in_mean (cfg : Config)
  (mean_disp mean_disp' p90_disp p90_disp' : R) :
  In (_determine_alert_level cfg mean_disp p90_disp)
     ["none"; "watch"; "advisory"; "warning"; "emergency"]
  /\ (mean_disp <= mean_disp' -> p90_disp <= p90_disp' ->
      (level_rank (_determine_alert_level cfg mean_disp p90_disp)
       <= level_rank (_determine_alert_level cfg mean_disp' p90_disp'))%nat).
Proof.
  split.
  - level_cases cfg mean_disp p90_disp;
      match goal with
      | H : _determine_alert_level _ _ _ = _ |- _ => rewrite H
      end; simpl; auto 10.
  - intros Hm Hp.
    level_cases cfg mean_disp p90_disp;
      level_cases cfg mean_disp' p90_disp';
      try (exfalso; lra);
      repeat match goal with
             | H : _determine_alert_level _ _ _ = _ |- _ => rewrite H; clear H
             end;
      cbv; lia.
Qed.

Lemma determine_alert_level_monotone_in_mean_witness :
  (level_rank (_determine_alert_level sample_config 6000 8000)
   <= level_rank (_determine_alert_level sample_config 12000 15000))%nat.
Proof.
  apply (determine_alert_level_monotone_in_mean sample_config 6000 12000
           8000 15000); lra.
Defined.

(** X16: for a non-empty forecast sample, if every value reaches the
    emergency threshold the decision is an emergency; if every value is
    below both the warning and the emergency threshold the level is below
    [warning] and the alert is not triggered, whatever the confidence. *)
Theorem alert_decision_from_uniform_sample (cfg : Config)
  (forecast_results : Series) (metrics : ForecastMetrics)
  (context : dict HazardContext) :
  forecast_results <> [] ->
  let thresholds := displacement_alert_levels (forecast cfg) in
  let decision := generate_alert_decision cfg forecast_results metrics context in
  (Forall (fun x => emergency thresholds <= x) forecast_results ->
   alert_level decision = "emergency")
  /\ (Forall (fun x => x < warning thresholds /\ x < emergency thresholds)
        forecast_results ->
      (level_rank (alert_level decision) <= 2)%nat
      /\ should_trigger decision = false).
Proof.
  intros Hne. cbv zeta.
  destruct (series_quantile_between 9 10 forecast_results Hne)
    as [a [b [t [Ha [Hb [Ht Hq]]]]]]; [lia | lia |].
  unfold generate_alert_decision. cbn [alert_level should_trigger].
  split.
  - intros Hall. rewrite Forall_forall in Hall.
    pose proof (Hall a Ha) as Ha'. pose proof (Hall b Hb) as Hb'.
    assert (Hp : emergency (displacement_alert_levels (forecast cfg))
                 <= series_quantile 9 10 forecast_results).
    { rewrite Hq. apply between_ge; assumption. }
    level_cases cfg (series_mean forecast_results)
      (series_quantile 9 10 forecast_results);
      try assumption; exfalso; lra.
  - intros Hall. rewrite Forall_forall in Hall.
    destruct (Hall a Ha) as [Ha1 Ha2]. destruct (Hall b Hb) as [Hb1 Hb2].
    assert (Hp : series_quantile 9 10 forecast_results
                 < warning (displacement_alert_levels (forecast cfg))
                 /\ series_quantile 9 10 forecast_results
                    < emergency (displacement_alert_levels (forecast cfg))).
    { rewrite Hq. split; apply between_lt; assumption. }
    destruct Hp as [Hp1 Hp2].
    level_cases cfg (series_mean forecast_results)
      (series_quantile 9 10 forecast_results);
      try (exfalso; lra);
      match goal with
      | H : _determine_alert_level _ _ _ = _ |- _ => rewrite H
      end;
      (split; [cbv; lia | reflexivity]).
Qed.

Lemma alert_decision_from_uniform_sample_witness :
  alert_level
    (generate_alert_decision sample_config [60000; 75000] sample_metrics
       [("Benue", benue_context)]) = "emergency".
Proof.
  apply (alert_decision_from_uniform_sample sample_config [60000; 75000]
           sample_metrics [("Benue", benue_context)]).
  - discriminate.
  - repeat constructor; simpl; lra.
Defined.

Lemma np_sum_acc (a : ndarray) (acc : R) :
  fold_left Rplus a acc = acc + np_sum a.
Proof.
  unfold np_sum. revert acc. induction a as [| x a IH]; intros acc; simpl.
  - lra.
  - rewrite IH, (IH (0 + x)). lra.
Qed.

Lemma np_sum_map_const {A : Type} (l : list A) (c : R) :
  np_sum (map (fun _ => c) l) = INR (List.length l) * c.
Proof.
  induction l as [| x l IH].
  - unfold np_sum. simpl. lra.
  - cbn [map]. unfold np_sum. cbn [fold_left]. rewrite np_sum_acc, IH.
    cbn [List.length]. rewrite S_INR. lra.
Qed.

(** X17: a decision lists the keys of the context as affected states and
    splits the mean displacement evenly among them: every state gets the
    same estimate, the mean of the forecast sample divided by the number of
    states, and for a non-empty context the per-state estimates add up to
    that mean. *)
Theorem alert_decision_estimates_sum (cfg : Config)
  (forecast_results : Series) (metrics : ForecastMetrics)
  (context : dict HazardContext) :
  let decision := generate_alert_decision cfg forecast_results metrics context in
  affected_states decision = map fst context
  /\ map fst (estimated_displacement decision) = map fst context
  /\ Forall (fun estimate =>
               snd estimate
               = series_mean forecast_results / INR (List.length context))
       (estimated_displacement decision)
  /\ (context <> [] ->
      np_sum (map snd (estimated_displacement decision))
      = series_mean forecast_results).
Proof.
  cbv zeta. unfold generate_alert_decision.
  cbn [affected_states estimated_displacement].
  split; [reflexivity |]. split; [| split].
  - rewrite map_map. cbn [fst]. apply map_id.
  - apply Forall_forall. intros estimate Hin.
    apply in_map_iff in Hin. destruct Hin as [state [<- _]].
    cbn [snd]. rewrite length_map. reflexivity.
  - intros Hne. rewrite map_map. cbn [snd].
    rewrite np_sum_map_const.
    assert (Hn : INR (List.length (map fst context)) <> 0).
    { apply not_0_INR. rewrite length_map.
      destruct context; [congruence | discriminate]. }
    field. exact Hn.
Qed.

Lemma alert_decision_estimates_sum_witness :
  np_sum (map snd (estimated_displacement
                     (generate_alert_decision sample_config [60000; 75000]
                        sample_metrics
                        [("Benue", benue_context); ("Borno", borno_context)])))
  = series_mean [60000; 75000].
Proof.
  apply (alert_decision_estimates_sum sample_config [60000; 75000]
           sample_metrics
           [("Benue", benue_context); ("Borno", borno_context)]).
  discriminate.
Defined.

End AlertLevels.

(** ** Output validation, metrics and distribution *)

Lemma existsb_isna_In (s : list (option R)) :
  existsb isna s = true <-> In None s.
Proof.
  rewrite existsb_exists. split.
  - intros [v [Hin Hv]]. destruct v; [discriminate | exact Hin].
  - intros Hin. exists None. split; [exact Hin | reflexivity].
Qed.

Lemma existsb_isna_false (s : list (option R)) :
  existsb isna s = false <-> ~ In None s.
Proof.
  rewrite <- existsb_isna_In. destruct (existsb isna s); split; intros H;
    try discriminate; try reflexivity; try congruence.
Qed.

Section OutputValidation.
Import QualityController.

Variable format_thousands : R -> string.
Variable format_1f : R -> string.

(** X18: output validation fails exactly when the displacement column
    holds a NaN, and then its first message is the NaN error.  Fewer than
    100 rows always add the low-sample-size warning; an empty frame is
    accepted with that warning alone. *)
Theorem validate_outputs_spec (validation : ValidationConfig)
  (forecast_results : list (option R)) :
  let outcome :=
    validate_outputs format_thousands format_1f validation forecast_results in
  (fst outcome = false <-> In None forecast_results)
  /\ (fst outcome = false ->
      hd_error (snd outcome) = Some "NaN values in forecast output")
  /\ ((List.length forecast_results < 100)%nat ->
      In ("Low sample size: " ++ str_of_nat (List.length forecast_results))%string
         (snd outcome))
  /\ validate_outputs format_thousands format_1f validation []
     = (true, ["Low sample size: 0"]).
Proof.
  cbv zeta. unfold validate_outputs.
  set (w1 := match series_max (dropna forecast_results) with
             | Some m => _ | None => _ end).
  set (w2 := match dropna forecast_results with
             | [] => _ | _ :: _ => _ end).
  destruct (existsb isna forecast_results) eqn:Hna.
  - apply existsb_isna_In in Hna. cbn [app fst snd hd_error].
    split; [split; auto |]. split; [reflexivity |]. split; [| reflexivity].
    intros Hlt. apply Nat.ltb_lt in Hlt. rewrite Hlt.
    right. apply in_or_app. right. left. reflexivity.
  - apply existsb_isna_false in Hna. cbn [fst snd].
    split; [split; [discriminate | contradiction] |].
    split; [discriminate |]. split; [| reflexivity].
    intros Hlt. apply Nat.ltb_lt in Hlt. rewrite Hlt.
    apply in_or_app. right. left. reflexivity.
Qed.

End OutputValidation.

Lemma validate_outputs_spec_witness :
  In "Low sample size: 2"
     (snd (QualityController.validate_outputs (fun _ => "") (fun _ => "")
             {| QualityController.max_forecast_error_factor := 10 |}
             [Some 1000; None])).
Proof.
  refine (proj1 (proj2 (proj2
            (validate_outputs_spec (fun _ => "") (fun _ => "")
               {| QualityController.max_forecast_error_factor := 10 |}
               [Some 1000; None]))) _).
  cbn. lia.
Defined.

Section EngineMetrics.
Import ProductionForecastEngine.

Lemma engine_quality_score (n : nat) :
  let score := QualityController.calculate_quality_score 0.8 0.75 0.9 n in
  (n = 0%nat -> 0.75 <= score)
  /\ ((0 < n)%nat -> score < 0.75)
  /\ 0.5 < score.
Proof.
  cbv zeta. unfold QualityController.calculate_quality_score.
  assert (Hn : 0 <= INR n) by apply pos_INR.
  split; [| split].
  - intros ->. simpl. rewrite Rmin_left by lra.
    apply Rle_trans with ((0.8 + 0.75 + 0.9) / 3 - 0.1 * 0);
      [lra | apply Rmax_r].
  - intros Hpos. apply lt_INR in Hpos. simpl in Hpos.
    assert (H1 : 1 <= INR n).
    { destruct n; [simpl in Hpos; lra |]. rewrite S_INR.
      pose proof (pos_INR n). lra. }
    assert (Hp : 0.1 <= Rmin (0.1 * INR n) 0.3) by (apply Rmin_glb; lra).
    apply Rmax_lub_lt; lra.
  - assert (Hp : Rmin (0.1 * INR n) 0.3 <= 0.3) by apply Rmin_r.
    apply Rlt_le_trans with
      ((0.8 + 0.75 + 0.9) / 3 - Rmin (0.1 * INR n) 0.3);
      [lra | apply Rmax_r].
Qed.

(** X19: the metrics of a run never carry the confidence level [low]: the
    level is [high] for a run without warnings and [medium] otherwise, with a
    quality score above 0.5 and an empty error list.  A decision made from
    these metrics is therefore triggered exactly when its level is [warning]
    or [emergency]. *)
Theorem calculate_metrics_confidence (cfg : Config) (forecast_id : string)
  (forecast_date : Z) (lead_time : R) (results : DataFrame)
  (uncertainty_outputs : dict (dict R)) (run_warnings : list string)
  (processing_time : R) (forecast_results : Series)
  (context : dict HazardContext) :
  let metrics :=
    _calculate_metrics forecast_id forecast_date lead_time results
      uncertainty_outputs run_warnings processing_time in
  let decision :=
    AlertManager.generate_alert_decision cfg forecast_results metrics context in
  (run_warnings = [] -> confidence_level metrics = "high")
  /\ (run_warnings <> [] -> confidence_level metrics = "medium")
  /\ confidence_level metrics <> "low"
  /\ 0.5 < quality_score metrics
  /\ errors metrics = []
  /\ n_samples metrics = Z.of_nat (List.length results)
  /\ (should_trigger decision = true <->
      alert_level decision = "warning" \/ alert_level decision = "emergency").
Proof.
  cbv zeta.
  destruct (engine_quality_score (List.length run_warnings))
    as [H0 [H1 H2]].
  assert (Hlevel : (run_warnings = [] ->
                    confidence_level
                      (_calculate_metrics forecast_id forecast_date lead_time
                         results uncertainty_outputs run_warnings
                         processing_time) = "high")
                   /\ (run_warnings <> [] ->
                       confidence_level
                         (_calculate_metrics forecast_id forecast_date
                            lead_time results uncertainty_outputs run_warnings
                            processing_time) = "medium")).
  { unfold _calculate_metrics. cbn [confidence_level]. split.
    - intros E. subst run_warnings. cbn [List.length] in *.
      specialize (H0 eq_refl).
      assert (Ha : Rgeb (QualityController.calculate_quality_score 0.8 0.75
                           0.9 0) 0.75 = true)
        by (apply Rgeb_true; lra).
      rewrite Ha. reflexivity.
    - intros Hne.
      assert (Hpos : (0 < List.length run_warnings)%nat).
      { destruct run_warnings; [congruence | simpl; lia]. }
      specialize (H1 Hpos).
      assert (Ha : Rgeb (QualityController.calculate_quality_score 0.8 0.75
                           0.9 (List.length run_warnings)) 0.75 = false)
        by (apply Rgeb_false; exact H1).
      assert (Hb : Rgeb (QualityController.calculate_quality_score 0.8 0.75
                           0.9 (List.length run_warnings)) 0.5 = true)
        by (apply Rgeb_true; lra).
      rewrite Ha, Hb. reflexivity. }
  destruct Hlevel as [Hhigh Hmedium].
  assert (Hconf : confidence_level
                    (_calculate_metrics forecast_id forecast_date lead_time
                       results uncertainty_outputs run_warnings
                       processing_time) = "high"
                  \/ confidence_level
                       (_calculate_metrics forecast_id forecast_date lead_time
                          results uncertainty_outputs run_warnings
                          processing_time) = "medium").
  { destruct run_warnings as [| w ws];
      [left; apply Hhigh; reflexivity | right; apply Hmedium; discriminate]. }
  split; [exact Hhigh |]. split; [exact Hmedium |].
  split; [destruct Hconf as [-> | ->]; discriminate |].
  split; [exact H2 |]. split; [reflexivity |]. split; [reflexivity |].
  unfold AlertManager.generate_alert_decision.
  cbn [should_trigger alert_level].
  rewrite andb_true_iff, !str_in_two.
  split; [intros [H _]; exact H | intros H; split; [exact H | exact Hconf]].
Qed.

Lemma calculate_metrics_confidence_witness :
  confidence_level
    (_calculate_metrics "2024010100_2d" 0 2 []
       [("flood", [("hazard_variance", 0.45)])] ["Low sample size: 0"] 1)
  = "medium".
Proof.
  refine (proj1 (proj2
            (calculate_metrics_confidence sample_config "2024010100_2d" 0 2 []
               [("flood", [("hazard_variance", 0.45)])]
               ["Low sample size: 0"] 1 [] [])) _).
  discriminate.
Defined.

End EngineMetrics.

Lemma np_sum_app (a b : ndarray) :
  np_sum (a ++ b)%list = np_sum a + np_sum b.
Proof.
  unfold np_sum at 1 2. rewrite fold_left_app, np_sum_acc. reflexivity.
Qed.

Lemma np_sum_cons (x : R) (a : ndarray) : np_sum (x :: a) = x + np_sum a.
Proof. unfold np_sum at 1. cbn [fold_left]. rewrite np_sum_acc. lra. Qed.

Lemma np_sum_zip_plus (a b : ndarray) :
  List.length a = List.length b ->
  np_sum (zip_with Rplus a b) = np_sum a + np_sum b.
Proof.
  revert b. induction a as [| x a IH]; intros [| y b] Hl;
    simpl in Hl; try discriminate.
  - unfold np_sum. simpl. lra.
  - cbn [zip_with]. rewrite !np_sum_cons, IH by lia. lra.
Qed.

Lemma np_sum_map_scale (c : R) (a : ndarray) :
  np_sum (map (fun v => v * c) a) = np_sum a * c.
Proof.
  induction a as [| x a IH].
  - unfold np_sum. simpl. lra.
  - cbn [map]. rewrite !np_sum_cons, IH. lra.
Qed.

Lemma dropna_map_Some {A : Type} (l : list A) : dropna (map Some l) = l.
Proof. induction l as [| x l IH]; simpl; [| rewrite IH]; reflexivity. Qed.

Lemma not_In_None_map_Some {A : Type} (l : list A) : ~ In None (map Some l).
Proof.
  intros H. apply in_map_iff in H. destruct H as [x [Hx _]]. discriminate.
Qed.

Section CompiledResults.
Import ProductionForecastEngine.

Lemma add_aligned_Some (a b : list R) :
  List.length a = List.length b ->
  add_aligned (map Some a) (map Some b) = map Some (zip_with Rplus a b).
Proof.
  revert b. induction a as [| x a IH]; intros [| y b] Hl;
    simpl in Hl; try discriminate; [reflexivity |].
  cbn [map add_aligned zip_with]. rewrite IH by lia. reflexivity.
Qed.

Lemma add_aligned_mismatch (a b : list (option R)) :
  List.length a <> List.length b -> In None (add_aligned a b).
Proof.
  revert b. induction a as [| x a IH]; intros [| y b] Hl;
    simpl in Hl; try congruence.
  - simpl. left. reflexivity.
  - simpl. left. reflexivity.
  - cbn [add_aligned]. right. apply IH. congruence.
Qed.

Lemma compiled_displacement (impacts : dict DataFrame) (forecast_id : string)
  (results : DataFrame) :
  _compile_results impacts forecast_id = Ok results ->
  map row_displacement results
  = List.concat (map (fun entry => map row_displacement (snd entry)) impacts).
Proof.
  unfold _compile_results. intros H.
  assert (Hr : results
               = List.concat
                   (map (fun '(haz_type, impact_df) =>
                           map (fun row =>
                                  {| row_sample_id := row_sample_id row;
                                     row_displacement := row_displacement row;
                                     row_hazard_type := Some haz_type;
                                     row_forecast_id := Some forecast_id |})
                               impact_df) impacts)).
  { destruct impacts as [| e impacts]; [discriminate |].
    cbn [map] in H. injection H as <-. reflexivity. }
  rewrite Hr. clear H Hr.
  induction impacts as [| [k df] impacts IH]; [reflexivity |].
  cbn [map List.concat snd]. rewrite map_app, IH, map_map. reflexivity.
Qed.

Lemma combined_displacement (flood_impact conflict_impact : DataFrame) :
  exists combined : DataFrame,
    _combine_multi_hazard_impacts
      [("flood", flood_impact); ("conflict", conflict_impact)] = Some combined
    /\ map row_displacement combined
       = map (option_map (fun v => v * 0.8))
           (add_aligned (map row_displacement flood_impact)
                        (map row_displacement conflict_impact))
    /\ Forall (fun row => row_sample_id row = None) combined.
Proof.
  eexists. split; [reflexivity |]. split.
  - rewrite map_map. reflexivity.
  - apply Forall_forall. intros row Hin.
    apply in_map_iff in Hin. destruct Hin as [d [<- _]]. reflexivity.
Qed.

(** X20: for a flood and a conflict frame with the same positive number of
    samples and no missing value, the combined frame has no sample ids and,
    once it is stored under ['combined'] and the three frames are compiled,
    the results hold three times as many rows, no NaN, and a mean
    displacement of 0.6 times the sum of the flood mean and the conflict
    mean. *)
Theorem compiled_two_hazard_results (flood_impact conflict_impact : DataFrame)
  (flood_values conflict_values : list R) (forecast_id : string) :
  map row_displacement flood_impact = map Some flood_values ->
  map row_displacement conflict_impact = map Some conflict_values ->
  flood_values <> [] ->
  List.length flood_values = List.length conflict_values ->
  exists combined results : DataFrame,
    _combine_multi_hazard_impacts
      [("flood", flood_impact); ("conflict", conflict_impact)] = Some combined
    /\ Forall (fun row => row_sample_id row = None) combined
    /\ _compile_results
         [("flood", flood_impact); ("conflict", conflict_impact);
          ("combined", combined)] forecast_id = Ok results
    /\ List.length results = (3 * List.length flood_values)%nat
    /\ ~ In None (map row_displacement results)
    /\ series_mean (dropna (map row_displacement results))
       = 0.6 * (series_mean flood_values + series_mean conflict_values).
Proof.
  intros Hf Hc Hne Hl.
  destruct (combined_displacement flood_impact conflict_impact)
    as [combined [Hcomb [Hdisp Hids]]].
  exists combined.
  assert (Hres : exists results,
             _compile_results
               [("flood", flood_impact); ("conflict", conflict_impact);
                ("combined", combined)] forecast_id = Ok results).
  { eexists. reflexivity. }
  destruct Hres as [results Hres]. exists results.
  split; [exact Hcomb |]. split; [exact Hids |]. split; [exact Hres |].
  pose proof (compiled_displacement _ _ _ Hres) as Hcol.
  cbn [map List.concat snd] in Hcol. rewrite app_nil_r in Hcol.
  rewrite Hf, Hc, Hdisp, Hf, Hc, add_aligned_Some in Hcol by exact Hl.
  rewrite map_map in Hcol. cbn [option_map] in Hcol.
  rewrite <- (map_map (fun v => v * 0.8) Some) in Hcol.
  rewrite <- !map_app in Hcol.
  split.
  { rewrite <- (length_map row_displacement results), Hcol.
    rewrite length_map, !length_app, length_map, length_zip_with. lia. }
  split.
  { rewrite Hcol. apply not_In_None_map_Some. }
  rewrite Hcol, dropna_map_Some. unfold series_mean.
  rewrite !np_sum_app, np_sum_map_scale, np_sum_zip_plus by exact Hl.
  rewrite !length_app, length_map, length_zip_with, <- Hl, Nat.min_id.
  rewrite !plus_INR.
  assert (Hn : INR (List.length flood_values) <> 0).
  { apply not_0_INR. destruct flood_values; [congruence | discriminate]. }
  assert (E1 : 0.8 = 4 / 5) by lra. assert (E2 : 0.6 = 3 / 5) by lra.
  rewrite E1, E2. field. split; [exact Hn | lra].
Qed.

Lemma compiled_two_hazard_results_witness :
  exists combined results : DataFrame,
    _combine_multi_hazard_impacts
      [("flood", [ {| row_sample_id := Some 0%Z; row_displacement := Some 1000;
                      row_hazard_type := Some "flood";
                      row_forecast_id := None |} ]);
       ("conflict", [ {| row_sample_id := Some 0%Z;
                         row_displacement := Some 3000;
                         row_hazard_type := Some "conflict";
                         row_forecast_id := None |} ])] = Some combined
    /\ Forall (fun row => row_sample_id row = None) combined
    /\ _compile_results
         [("flood", [ {| row_sample_id := Some 0%Z;
                         row_displacement := Some 1000;
                         row_hazard_type := Some "flood";
                         row_forecast_id := None |} ]);
          ("conflict", [ {| row_sample_id := Some 0%Z;
                            row_displacement := Some 3000;
                            row_hazard_type := Some "conflict";
                            row_forecast_id := None |} ]);
          ("combined", combined)] "2024010100_2d" = Ok results
    /\ List.length results = (3 * List.length [1000])%nat
    /\ ~ In None (map row_displacement results)
    /\ series_mean (dropna (map row_displacement results))
       = 0.6 * (series_mean [1000] + series_mean [3000]).
Proof.
  apply (compiled_two_hazard_results _ _ [1000] [3000] "2024010100_2d");
    try reflexivity.
  discriminate.
Defined.

Section Rendering.

Variable format_thousands : R -> string.
Variable format_1f : R -> string.

(** X21: when the flood and the conflict frame differ in their number of
    samples, the combined frame holds a NaN, and so do the compiled results:
    output validation rejects them. *)
Theorem mismatched_sample_counts_fail_validation
  (validation : QualityController.ValidationConfig)
  (flood_impact conflict_impact : DataFrame) (forecast_id : string) :
  List.length flood_impact <> List.length conflict_impact ->
  exists combined results : DataFrame,
    _combine_multi_hazard_impacts
      [("flood", flood_impact); ("conflict", conflict_impact)] = Some combined
    /\ _compile_results
         [("flood", flood_impact); ("conflict", conflict_impact);
          ("combined", combined)] forecast_id = Ok results
    /\ In None (map row_displacement results)
    /\ fst (QualityController.validate_outputs format_thousands format_1f
              validation (map row_displacement results)) = false.
Proof.
  intros Hl.
  destruct (combined_displacement flood_impact conflict_impact)
    as [combined [Hcomb [Hdisp _]]].
  exists combined.
  assert (Hres : exists results,
             _compile_results
               [("flood", flood_impact); ("conflict", conflict_impact);
                ("combined", combined)] forecast_id = Ok results).
  { eexists. reflexivity. }
  destruct Hres as [results Hres]. exists results.
  split; [exact Hcomb |]. split; [exact Hres |].
  assert (Hin : In None (map row_displacement results)).
  { rewrite (compiled_displacement _ _ _ Hres).
    cbn [map List.concat snd]. rewrite app_nil_r.
    apply in_or_app. right. apply in_or_app. right.
    rewrite Hdisp.
    change None with (option_map (fun v : R => v * 0.8) None).
    apply in_map. apply add_aligned_mismatch.
    rewrite !length_map. exact Hl. }
  split; [exact Hin |].
  apply existsb_isna_In in Hin.
  unfold QualityController.validate_outputs. rewrite Hin. reflexivity.
Qed.

End Rendering.

Lemma mismatched_sample_counts_fail_validation_witness :
  exists combined results : DataFrame,
    _combine_multi_hazard_impacts
      [("flood", [ {| row_sample_id := Some 0%Z; row_displacement := Some 1000;
                      row_hazard_type := Some "flood";
                      row_forecast_id := None |} ]);
       ("conflict", [])] = Some combined
    /\ _compile_results
         [("flood", [ {| row_sample_id := Some 0%Z;
                         row_displacement := Some 1000;
                         row_hazard_type := Some "flood";
                         row_forecast_id := None |} ]);
          ("conflict", []);
          ("combined", combined)] "2024010100_2d" = Ok results
    /\ In None (map row_displacement results)
    /\ fst (QualityController.validate_outputs (fun _ => "") (fun _ => "")
              {| QualityController.max_forecast_error_factor := 10 |}
              (map row_displacement results)) = false.
Proof.
  apply (mismatched_sample_counts_fail_validation (fun _ => "") (fun _ => "")
           {| QualityController.max_forecast_error_factor := 10 |}).
  discriminate.
Defined.

End CompiledResults.

Section Distribution.
Import AlertManager.

(** X22: an alert that is not triggered is never passed to a channel: the
    only effect is the no-distribution record.  A triggered alert is
    announced first and then goes to the enabled channels, in the order
    email, SMS, webhook.  A decision made from metrics whose confidence is
    neither [high] nor [medium], or whose level is below [warning], reaches
    no channel. *)
Theorem distribute_alert_channels (channels : AlertChannels)
  (alert : AlertDecision) (cfg : Config) (forecast_results : Series)
  (metrics : ForecastMetrics) (context : dict HazardContext) :
  (should_trigger alert = false ->
   distribute_alert channels alert = [NoDistribution (alert_level alert)])
  /\ (should_trigger alert = true ->
      distribute_alert channels alert
      = (Distributing (alert_level alert) (List.length (recipients alert))
         :: (if enable_email channels then [EmailTo (recipients alert)] else [])
         ++ (if enable_sms channels then [SmsTo (recipients alert)] else [])
         ++ (if enable_api_webhook channels
             then [WebhookPost (List.length (webhook_urls channels))]
             else []))%list)
  /\ let decision :=
       generate_alert_decision cfg forecast_results metrics context in
     ((confidence_level metrics <> "high"
       /\ confidence_level metrics <> "medium")
      \/ (level_rank (alert_level decision) <= 2)%nat ->
      distribute_alert channels decision
      = [NoDistribution (alert_level decision)]).
Proof.
  split; [| split].
  - intros H. unfold distribute_alert. rewrite H. reflexivity.
  - intros H. unfold distribute_alert. rewrite H. reflexivity.
  - cbv zeta. intros H.
    assert (Hs : should_trigger
                   (generate_alert_decision cfg forecast_results metrics
                      context) = false).
    { unfold generate_alert_decision in *.
      cbn [should_trigger alert_level] in *.
      destruct H as [[H1 H2] | H].
      - apply andb_false_iff. right.
        destruct (str_in (confidence_level metrics) ["high"; "medium"]) eqn:E;
          [| reflexivity].
        apply str_in_two in E. destruct E; contradiction.
      - apply andb_false_iff. left.
        destruct (str_in _ ["warning"; "emergency"]) eqn:E; [| reflexivity].
        apply str_in_two in E. destruct E as [E | E]; rewrite E in H;
          cbv in H; lia. }
    unfold distribute_alert. rewrite Hs. reflexivity.
Qed.

Lemma distribute_alert_channels_witness :
  distribute_alert
    {| enable_email := true; enable_sms := true; enable_api_webhook := true;
       webhook_urls := ["https://example.org/hook"] |}
    (generate_alert_decision sample_config [60000; 75000]
       low_confidence_metrics [("Benue", benue_context)])
  = [NoDistribution
       (alert_level
          (generate_alert_decision sample_config [60000; 75000]
             low_confidence_metrics [("Benue", benue_context)]))].
Proof.
  refine (proj2 (proj2
            (distribute_alert_channels _
               (generate_alert_decision sample_config [60000; 75000]
                  sample_metrics [])
               sample_config [60000; 75000] low_confidence_metrics
               [("Benue", benue_context)])) _).
  left. split; discriminate.
Defined.

Section Rendering.

Variable format_thousands : R -> string.

(** X23: the recommendations are never empty and always end with the action
    about the affected states, which depends on the states alone.  The
    displacement figure enters for the levels [warning] and [emergency]
    only, and a level outside the four alert levels, [none] included, gets
    the state action alone. *)
Theorem generate_recommendations_shape (alert_level : string)
  (displacement displacement' : R) (states : list string) :
  let actions :=
    _generate_recommendations format_thousands alert_level displacement states in
  let state_action :=
    if Nat.leb (List.length states) 3
    then ("Focus on: " ++ String.concat ", " states)%string
    else ("Affecting " ++ str_of_nat (List.length states)
          ++ " states - coordinate multi-state response")%string in
  actions <> []
  /\ last actions "" = state_action
  /\ (alert_level <> "warning" -> alert_level <> "emergency" ->
      _generate_recommendations format_thousands alert_level displacement'
        states = actions)
  /\ (alert_level <> "watch" -> alert_level <> "advisory" ->
      alert_level <> "warning" -> alert_level <> "emergency" ->
      actions = [state_action]).
Proof.
  cbv zeta. unfold _generate_recommendations.
  split; [| split; [| split]].
  - destruct (Nat.leb _ 3); intros H; apply app_eq_nil in H;
      destruct H as [_ H]; discriminate.
  - destruct (Nat.leb _ 3); apply last_last.
  - intros Hw He. apply String.eqb_neq in Hw. apply String.eqb_neq in He.
    rewrite Hw, He. reflexivity.
  - intros H1 H2 H3 H4.
    apply String.eqb_neq in H1. apply String.eqb_neq in H2.
    apply String.eqb_neq in H3. apply String.eqb_neq in H4.
    rewrite H1, H2, H3, H4. destruct (Nat.leb _ 3); reflexivity.
Qed.

End Rendering.

Lemma generate_recommendations_shape_witness :
  _generate_recommendations (fun _ => "") "none" 35000 ["Benue"; "Kogi"]
  = ["Focus on: Benue, Kogi"].
Proof.
  refine (proj2 (proj2 (proj2
            (generate_recommendations_shape (fun _ => "") "none" 35000 0
               ["Benue"; "Kogi"]))) _ _ _ _);
    discriminate.
Defined.

End Distribution.
